(** * WorkOn REST client and mock server: a shallow embedding

    The development follows the three Python sources of the repository:

    - [mock-server/mock_workon_server.py]: the in-memory mock of the WorkOn
      RBGA API (key generation, validation, the endpoint handlers);
    - [python_client/workon_api.py]: the HTTP client wrapper;
    - [python_client/workon_cli/workon_cli.py]: the command line glue that
      builds the client from its configuration.

    Modelling conventions.

    - A Python [str] is a [string]: the bytes of its UTF-8 encoding, one
      character per byte for ASCII text.  Case mapping, white space and
      digit recognition act on the ASCII range, as Python does on ASCII
      text; the statements that depend on them say so.
    - A JSON value (the result of [request.get_json()], the argument of
      [jsonify]) is a [Json].  JSON numbers are the integers; a Python
      [dict] is an association list in insertion order, read by first match.
    - The two module level dictionaries [requests_db] and [attachments_db],
      the random source behind [uuid.uuid4()] and the clock behind
      [datetime.now()] form the [World] that every handler threads through.
    - A Python exception is a [Raise]; the state reached when it is raised
      is kept, as in Python. *)

From Stdlib Require Import String Ascii List ZArith NArith Bool Lia Arith Sorted FinFun.
Import ListNotations.

Set Warnings "-register-all".

Local Open Scope string_scope.
Local Open Scope Z_scope.

(** ** Python strings *)

Module PyStr.

(** [c in string.whitespace]: the ASCII characters that [int] strips, the
    tab, the line feed, the vertical tab, the form feed, the carriage return
    and the space. *)
Definition is_space (c : ascii) : bool :=
  let n := nat_of_ascii c in
  ((9 <=? n)%nat && (n <=? 13)%nat) || (n =? 32)%nat.

Definition is_digit (c : ascii) : bool :=
  let n := nat_of_ascii c in (48 <=? n)%nat && (n <=? 57)%nat.

Definition digit_val (c : ascii) : option Z :=
  if is_digit c then Some (Z.of_nat (nat_of_ascii c - 48)) else None.

Definition is_upper (c : ascii) : bool :=
  let n := nat_of_ascii c in (65 <=? n)%nat && (n <=? 90)%nat.

Definition is_lower (c : ascii) : bool :=
  let n := nat_of_ascii c in (97 <=? n)%nat && (n <=? 122)%nat.

Definition lower_char (c : ascii) : ascii :=
  if is_upper c then ascii_of_nat (nat_of_ascii c + 32) else c.

Definition upper_char (c : ascii) : ascii :=
  if is_lower c then ascii_of_nat (nat_of_ascii c - 32) else c.

Fixpoint map_chars (f : ascii -> ascii) (s : string) : string :=
  match s with
  | EmptyString => EmptyString
  | String c s' => String (f c) (map_chars f s')
  end.

(** [s.lower()] and [s.upper()] on the bytes of [s]: the ASCII letters
    change case and every other byte is kept.  This is what Python does
    on ASCII text, and on text whose other characters have no other
    case. *)
Definition lower (s : string) : string := map_chars lower_char s.
Definition upper (s : string) : string := map_chars upper_char s.

Fixpoint forall_chars (p : ascii -> bool) (s : string) : bool :=
  match s with
  | EmptyString => true
  | String c s' => p c && forall_chars p s'
  end.

(** [c != sep]. *)
Definition not_char (sep c : ascii) : bool := negb (Ascii.eqb c sep).

(** [s.startswith(p)]. *)
Fixpoint startswith (s p : string) {struct p} : bool :=
  match p with
  | EmptyString => true
  | String a p' =>
      match s with
      | EmptyString => false
      | String b s' => Ascii.eqb a b && startswith s' p'
      end
  end.

(** [s[:n]]. *)
Fixpoint take (n : nat) (s : string) : string :=
  match n, s with
  | S n', String c s' => String c (take n' s')
  | _, _ => EmptyString
  end.

(** [s.split(sep)] for a separator of one character: one more segment than
    there are separators, empty segments kept. *)
Fixpoint split (sep : ascii) (s : string) : list string :=
  match s with
  | EmptyString => [EmptyString]
  | String c s' =>
      if Ascii.eqb c sep then EmptyString :: split sep s'
      else match split sep s' with
           | [] => [String c EmptyString]
           | seg :: segs => String c seg :: segs
           end
  end.

(** [needle in hay] on two strings: the substring test. *)
Fixpoint contains (hay needle : string) : bool :=
  startswith hay needle ||
  match hay with
  | EmptyString => false
  | String _ hay' => contains hay' needle
  end.

(** *** [int(s)]

    For ASCII text: white space is stripped on both sides, one sign is
    accepted, and the digits may be grouped by single underscores.  [None] stands for
    [ValueError].  The interpreter's limit on the number of digits is not
    modelled. *)

Fixpoint lstrip (s : string) : string :=
  match s with
  | EmptyString => EmptyString
  | String c s' => if is_space c then lstrip s' else s
  end.

Fixpoint int_body (s : string) (acc : Z) (prev_digit : bool) : option Z :=
  match s with
  | EmptyString => if prev_digit then Some acc else None
  | String c s' =>
      match digit_val c with
      | Some d => int_body s' (10 * acc + d) true
      | None =>
          if Ascii.eqb c "_"
          then (if prev_digit then int_body s' acc false else None)
          else if prev_digit && forall_chars is_space s then Some acc else None
      end
  end.

Definition int_of_str (s : string) : option Z :=
  match lstrip s with
  | String "+" r => int_body r 0 false
  | String "-" r => option_map Z.opp (int_body r 0 false)
  | r => int_body r 0 false
  end.

(** *** [str(n)] for an integer *)

Definition digit_char (d : Z) : ascii := ascii_of_nat (48 + Z.to_nat d).

Fixpoint digits_of (fuel : nat) (n : Z) (acc : string) : string :=
  match fuel with
  | O => acc
  | S fuel' =>
      let acc' := String (digit_char (n mod 10)) acc in
      if n / 10 =? 0 then acc' else digits_of fuel' (n / 10) acc'
  end.

Definition str_of_nonneg (n : Z) : string :=
  digits_of (S (Z.to_nat (Z.log2 n))) n EmptyString.

Definition str_of_int (n : Z) : string :=
  if n <? 0 then String "-" (str_of_nonneg (- n)) else str_of_nonneg n.

End PyStr.

(** ** Python values *)

Module Py.
Import PyStr.

(** A value as [json.loads] builds it. *)
Inductive Json : Type :=
| JNull
| JBool (b : bool)
| JInt (n : Z)
| JStr (s : string)
| JList (items : list Json)
| JObj (fields : list (string * Json)).

(** The exceptions the modelled code can meet, with the text of [str(e)]. *)
Inductive Exn : Type :=
| TypeError (msg : string)
| AttributeError (msg : string)
| KeyError (msg : string)
| ValueError (msg : string)
| IndexError (msg : string)
| HTTPException (msg : string)
| Timeout (msg : string)
| ConnectionError (msg : string)
| HTTPError (msg : string)
| JSONDecodeError (msg : string).

Definition exn_str (e : Exn) : string :=
  match e with
  | TypeError m | AttributeError m | KeyError m
  | ValueError m | IndexError m | HTTPException m
  | Timeout m | ConnectionError m | HTTPError m | JSONDecodeError m => m
  end.

Inductive Result (A : Type) : Type :=
| Ok (a : A)
| Raise (e : Exn).
Arguments Ok {A} a.
Arguments Raise {A} e.

Definition bindR {A B} (c : Result A) (k : A -> Result B) : Result B :=
  match c with
  | Ok a => k a
  | Raise e => Raise e
  end.

Notation "x <-- c ;; k" := (bindR c (fun x => k))
  (at level 61, c at next level, right associativity).

(** [type(v).__name__]. *)
Definition type_name (v : Json) : string :=
  match v with
  | JNull => "NoneType"
  | JBool _ => "bool"
  | JInt _ => "int"
  | JStr _ => "str"
  | JList _ => "list"
  | JObj _ => "dict"
  end.

(** [bool(v)]. *)
Definition truthy (v : Json) : bool :=
  match v with
  | JNull => false
  | JBool b => b
  | JInt n => negb (n =? 0)
  | JStr s => negb (String.eqb s "")
  | JList l => match l with [] => false | _ => true end
  | JObj o => match o with [] => false | _ => true end
  end.

Definition is_dict (v : Json) : bool :=
  match v with JObj _ => true | _ => false end.

Definition is_list (v : Json) : bool :=
  match v with JList _ => true | _ => false end.

(** Dictionaries: association lists in insertion order. *)
Fixpoint assoc {V : Type} (k : string) (d : list (string * V)) : option V :=
  match d with
  | [] => None
  | (k', v) :: d' => if String.eqb k k' then Some v else assoc k d'
  end.

Definition has_key {V : Type} (k : string) (d : list (string * V)) : bool :=
  match assoc k d with Some _ => true | None => false end.

(** [d[k] = v]: the entry is replaced where it stands, or appended. *)
Fixpoint dict_set {V : Type} (k : string) (v : V) (d : list (string * V))
  : list (string * V) :=
  match d with
  | [] => [(k, v)]
  | (k', v') :: d' =>
      if String.eqb k k' then (k', v) :: d' else (k', v') :: dict_set k v d'
  end.

(** [a == b].  [True == 1] and [False == 0] as in Python; two dictionaries
    are equal when they hold the same keys with equal values. *)
Fixpoint py_eq (a b : Json) {struct a} : bool :=
  match a, b with
  | JNull, JNull => true
  | JBool x, JBool y => Bool.eqb x y
  | JBool x, JInt n => Z.b2z x =? n
  | JInt n, JBool y => n =? Z.b2z y
  | JInt m, JInt n => m =? n
  | JStr s, JStr t => String.eqb s t
  | JList l, JList l' =>
      (fix eq_items (xs ys : list Json) {struct xs} : bool :=
         match xs, ys with
         | [], [] => true
         | x :: xs', y :: ys' => py_eq x y && eq_items xs' ys'
         | _, _ => false
         end) l l'
  | JObj o, JObj o' =>
      (length o =? length o')%nat &&
      (fix eq_fields (fs : list (string * Json)) {struct fs} : bool :=
         match fs with
         | [] => true
         | (k, v) :: fs' =>
             match assoc k o' with
             | Some v' => py_eq v v'
             | None => false
             end && eq_fields fs'
         end) o
  | _, _ => false
  end.

(** [x in l] for a Python list. *)
Definition in_list (x : Json) (l : list Json) : bool := existsb (py_eq x) l.

Definition hashable (v : Json) : bool :=
  match v with JList _ | JObj _ => false | _ => true end.

(** [x in hay]. *)
Definition py_in (x hay : Json) : Result bool :=
  match hay with
  | JObj o =>
      match x with
      | JStr k => Ok (has_key k o)
      | JList _ | JObj _ =>
          Raise (TypeError ("unhashable type: '" ++ type_name x ++ "'"))
      | _ => Ok false
      end
  | JList l => Ok (in_list x l)
  | JStr s =>
      match x with
      | JStr t => Ok (contains s t)
      | _ => Raise (TypeError ("'in <string>' requires string as left operand, not "
                                 ++ type_name x))
      end
  | _ => Raise (TypeError ("argument of type '" ++ type_name hay
                             ++ "' is not iterable"))
  end.

Definition no_attribute (v : Json) (attr : string) : Exn :=
  AttributeError ("'" ++ type_name v ++ "' object has no attribute '" ++ attr ++ "'").

(** [o.get(k, default)]. *)
Definition py_get (o : Json) (k : string) (default : Json) : Result Json :=
  match o with
  | JObj d => Ok (match assoc k d with Some v => v | None => default end)
  | _ => Raise (no_attribute o "get")
  end.

(** [v.lower()]. *)
Definition py_lower (v : Json) : Result string :=
  match v with
  | JStr s => Ok (lower s)
  | _ => Raise (no_attribute v "lower")
  end.

(** The position a list or string index designates: negative indices count
    from the end. *)
Definition index_of (i : Z) (len : nat) : option nat :=
  let j := if i <? 0 then i + Z.of_nat len else i in
  if (0 <=? j) && (j <? Z.of_nat len) then Some (Z.to_nat j) else None.

Definition as_index (k : Json) : option Z :=
  match k with
  | JInt i => Some i
  | JBool b => Some (Z.b2z b)
  | _ => None
  end.

(** [o[k]]. *)
Definition py_getitem (o k : Json) : Result Json :=
  match o with
  | JObj d =>
      match k with
      | JStr s =>
          match assoc s d with
          | Some v => Ok v
          | None => Raise (KeyError ("'" ++ s ++ "'"))
          end
      | JList _ | JObj _ =>
          Raise (TypeError ("unhashable type: '" ++ type_name k ++ "'"))
      | JNull => Raise (KeyError "None")
      | JBool b => Raise (KeyError (if b then "True" else "False"))
      | JInt n => Raise (KeyError (str_of_int n))
      end
  | JList l =>
      match as_index k with
      | Some i =>
          match index_of i (length l) with
          | Some j =>
              match nth_error l j with
              | Some v => Ok v
              | None => Raise (IndexError "list index out of range")
              end
          | None => Raise (IndexError "list index out of range")
          end
      | None => Raise (TypeError ("list indices must be integers or slices, not "
                                    ++ type_name k))
      end
  | JStr s =>
      match as_index k with
      | Some i =>
          match index_of i (String.length s) with
          | Some j =>
              match String.get j s with
              | Some c => Ok (JStr (String c EmptyString))
              | None => Raise (IndexError "string index out of range")
              end
          | None => Raise (IndexError "string index out of range")
          end
      | None => Raise (TypeError ("string indices must be integers, not '"
                                    ++ type_name k ++ "'"))
      end
  | _ => Raise (TypeError ("'" ++ type_name o ++ "' object is not subscriptable"))
  end.

(** The items a [for] loop over [v] visits: the elements of a list, the keys
    of a dictionary, the characters of a string. *)
Definition py_iter (v : Json) : Result (list Json) :=
  match v with
  | JList l => Ok l
  | JObj d => Ok (map (fun kv => JStr (fst kv)) d)
  | JStr s => Ok (map (fun c => JStr (String c EmptyString)) (list_ascii_of_string s))
  | _ => Raise (TypeError ("'" ++ type_name v ++ "' object is not iterable"))
  end.

(** [int(s)] for a string. *)
Definition py_int (s : string) : Result Z :=
  match int_of_str s with
  | Some n => Ok n
  | None => Raise (ValueError ("invalid literal for int() with base 10: '" ++ s ++ "'"))
  end.

End Py.

(** ** The mock server: [mock_workon_server.py] *)

Module Server.
Import PyStr Py.

(** *** The world of the handlers *)

(** A stored request: the dictionary that [create_request] and
    [create_draft_request] build.  The two keys that only one of them sets
    are optional. *)
Record Request : Type := mkRequest {
  r_key : string;
  r_summary : Json;
  r_pkey : Json;
  r_issuetype : Json;
  r_applicant : Json;
  r_priority : Json;
  r_sourceSystem : Json;
  r_data : Json;
  r_created_at : string;
  r_updated_at : string;
  r_status : string;
  r_resolution : Json;
  r_workflow_stage : string;
  r_approvals : list Json;
  r_attachment_ids : option (list string);
  r_is_draft : option bool
}.

(** A stored attachment. *)
Record Attachment : Type := mkAttachment {
  a_id : string;
  a_filename : Json;
  a_file : Json;
  a_request_key : string;
  a_created_at : string
}.

(** [uuid_source n] is the 128-bit integer of the [n]-th UUID that
    [uuid.uuid4()] draws, [clock n] the text of the [n]-th reading of
    [datetime.now().isoformat()]. *)
Record World : Type := mkWorld {
  requests_db : list (string * Request);
  attachments_db : list (string * Attachment);
  uuid_source : nat -> N;
  uuid_drawn : nat;
  clock : nat -> string;
  clock_read : nat
}.

Definition M (A : Type) : Type := World -> Result A * World.

Definition ret {A} (a : A) : M A := fun w => (Ok a, w).

Definition raise {A} (e : Exn) : M A := fun w => (Raise e, w).

Definition bind {A B} (c : M A) (k : A -> M B) : M B :=
  fun w =>
    match c w with
    | (Ok a, w') => k a w'
    | (Raise e, w') => (Raise e, w')
    end.

Notation "x <- c ;; k" := (bind c (fun x => k))
  (at level 61, c at next level, right associativity).

Definition liftR {A} (r : Result A) : M A := fun w => (r, w).

(** [try: body except Exception as e: handler(e)]: what the body wrote
    before it raised stays written. *)
Definition try_except {A} (body : M A) (handler : Exn -> M A) : M A :=
  fun w =>
    match body w with
    | (Ok a, w') => (Ok a, w')
    | (Raise e, w') => handler e w'
    end.

Definition get_requests_db : M (list (string * Request)) :=
  fun w => (Ok (requests_db w), w).

Definition get_attachments_db : M (list (string * Attachment)) :=
  fun w => (Ok (attachments_db w), w).

(** [requests_db[request_key] = created_request]. *)
Definition set_request (request_key : string) (r : Request) : M unit :=
  fun w =>
    (Ok tt,
     mkWorld (dict_set request_key r (requests_db w)) (attachments_db w)
             (uuid_source w) (uuid_drawn w) (clock w) (clock_read w)).

(** [attachments_db[attachment_id] = {...}]. *)
Definition set_attachment (attachment_id : string) (a : Attachment) : M unit :=
  fun w =>
    (Ok tt,
     mkWorld (requests_db w) (dict_set attachment_id a (attachments_db w))
             (uuid_source w) (uuid_drawn w) (clock w) (clock_read w)).

(** [uuid.uuid4()]: the integer of the UUID. *)
Definition uuid4 : M N :=
  fun w =>
    (Ok (uuid_source w (uuid_drawn w)),
     mkWorld (requests_db w) (attachments_db w)
             (uuid_source w) (S (uuid_drawn w)) (clock w) (clock_read w)).

(** [datetime.now().isoformat()]. *)
Definition now_isoformat : M string :=
  fun w =>
    (Ok (clock w (clock_read w)),
     mkWorld (requests_db w) (attachments_db w)
             (uuid_source w) (uuid_drawn w) (clock w) (S (clock_read w))).

Definition hex_char (d : N) : ascii :=
  match String.get (N.to_nat d) "0123456789abcdef" with
  | Some c => c
  | None => "0"%char
  end.

Fixpoint hex_digits (k : nat) (n : N) (acc : string) : string :=
  match k with
  | O => acc
  | S k' => hex_digits k' (n / 16)%N (String (hex_char (n mod 16)%N) acc)
  end.

(** [str(u)] for a UUID: the 32 hexadecimal digits of its integer, grouped
    8-4-4-4-12. *)
Definition str_uuid (u : N) : string :=
  let hex := hex_digits 32 u EmptyString in
  String.substring 0 8 hex ++ "-" ++ String.substring 8 4 hex ++ "-" ++
  String.substring 12 4 hex ++ "-" ++ String.substring 16 4 hex ++ "-" ++
  String.substring 20 12 hex.

(** The request that Flask hands to a handler: [json_body] is what
    [request.get_json()] returns, [None] when it rejects the body;
    [args] are the query parameters. *)
Record FlaskRequest : Type := mkFlaskRequest {
  json_body : option Json;
  args : list (string * string)
}.

Definition get_json (request : FlaskRequest) : M Json :=
  match json_body request with
  | Some payload => ret payload
  | None => raise (HTTPException "400 Bad Request: Failed to decode JSON object")
  end.

(** A response: the value given to [jsonify] and the status code. *)
Definition Response : Type := (Json * Z)%type.

Definition error_body (msg : string) : Json := JObj [("error", JStr msg)].

Definition internal_error (e : Exn) : M Response :=
  ret (error_body ("Internal server error: " ++ exn_str e), 500).

(** *** [generate_request_key] *)

Definition list_item {A} (l : list A) (i : nat) : Result A :=
  match nth_error l i with
  | Some a => Ok a
  | None => Raise (IndexError "list index out of range")
  end.

(** [int(key.split("-")[1])]. *)
Definition key_number (key : string) : Result Z :=
  seg <-- list_item (split "-" key) 1 ;;
  py_int seg.

(** The loop of [generate_request_key] over the keys of [requests_db]; a
    key whose number cannot be read is passed over by the bare [except]. *)
Fixpoint scan_keys (keys : list string) (max_num : Z) : Z :=
  match keys with
  | [] => max_num
  | key :: keys' =>
      scan_keys keys'
        (if startswith key "RBGA-"
         then match key_number key with
              | Ok num => Z.max max_num num
              | Raise _ => max_num
              end
         else max_num)
  end.

Definition generate_request_key : M string :=
  db <- get_requests_db ;;
  let max_num := scan_keys (map fst db) 0 in
  ret ("RBGA-" ++ str_of_int (max_num + 1)).

(** *** [validate_rbga_request] *)

(** [for field in fields: if field not in payload: return ...]: the first
    field that is missing, if any. *)
Fixpoint first_missing (fields : list string) (payload : Json)
  : Result (option string) :=
  match fields with
  | [] => Ok None
  | field :: fields' =>
      present <-- py_in (JStr field) payload ;;
      if negb present then Ok (Some field) else first_missing fields' payload
  end.

(** The loop over [enumerate(approvers)]: the reason of the first approver
    that is refused, if any. *)
Fixpoint check_approvers (i : nat) (approvers : list Json)
  : Result (option string) :=
  match approvers with
  | [] => Ok None
  | approver :: approvers' =>
      if negb (is_dict approver)
      then Ok (Some ("Approver " ++ str_of_int (Z.of_nat i) ++ " must be an object"))
      else
        missing <-- first_missing ["userid"; "description"] approver ;;
        match missing with
        | Some field =>
            Ok (Some ("Approver " ++ str_of_int (Z.of_nat i)
                        ++ " missing required field: " ++ field))
        | None => check_approvers (S i) approvers'
        end
  end.

Definition required_fields : list string :=
  ["summary"; "pkey"; "issuetype"; "applicant"; "priority"; "sourceSystem"; "data"].

Definition rbga_required : list string :=
  ["rbga.field.termCheck"; "rbga.field.description";
   "rbga.field.workflowType"; "rbga.field.approver1"].

Definition validate_rbga_request (payload : Json) : Result (bool * string) :=
  missing <-- first_missing required_fields payload ;;
  match missing with
  | Some field => Ok (false, "Missing required field: " ++ field)
  | None =>
  pkey <-- py_get payload "pkey" JNull ;;
  if negb (py_eq pkey (JStr "RBGA")) then Ok (false, "pkey must be 'RBGA'") else
  issuetype <-- py_get payload "issuetype" JNull ;;
  if negb (py_eq issuetype (JStr "rbga.issuetype.default"))
  then Ok (false, "issuetype must be 'rbga.issuetype.default'") else
  priority <-- py_get payload "priority" JNull ;;
  if negb (py_eq priority (JStr "default"))
  then Ok (false, "priority must be 'default'") else
  data <-- py_get payload "data" (JObj []) ;;
  missing_rbga <-- first_missing rbga_required data ;;
  match missing_rbga with
  | Some field => Ok (false, "Missing required RBGA field: " ++ field)
  | None =>
  term_check <-- py_get data "rbga.field.termCheck" JNull ;;
  if negb (in_list term_check [JStr "yes"; JStr "no"])
  then Ok (false, "rbga.field.termCheck must be 'yes' or 'no'") else
  workflow_type <-- py_get data "rbga.field.workflowType" JNull ;;
  if negb (in_list workflow_type [JStr "Parallel"; JStr "Serial"])
  then Ok (false, "rbga.field.workflowType must be 'Parallel' or 'Serial'") else
  approver1 <-- py_get data "rbga.field.approver1" JNull ;;
  match approver1 with
  | JObj approver1_fields =>
      if negb (has_key "approvers" approver1_fields)
      then Ok (false, "rbga.field.approver1 must contain 'approvers' array")
      else
      approvers <-- py_get approver1 "approvers" (JList []) ;;
      match approvers with
      | JList (approver :: approvers') =>
          refused <-- check_approvers 0 (approver :: approvers') ;;
          match refused with
          | Some reason => Ok (false, reason)
          | None => Ok (true, "")
          end
      | _ => Ok (false, "rbga.field.approver1.approvers must be a non-empty array")
      end
  | _ => Ok (false, "rbga.field.approver1 must contain 'approvers' array")
  end
  end
  end.

(** *** [create_draft_request]: PUT /createdraftrequest/draft *)

Definition create_draft_request (request : FlaskRequest) : M Response :=
  try_except
    (payload <- get_json request ;;
     if negb (truthy payload)
     then ret (error_body "Request body is required", 400)
     else
     missing <- liftR (first_missing ["summary"; "pkey"; "applicant"] payload) ;;
     match missing with
     | Some field => ret (error_body ("Missing required field: " ++ field), 400)
     | None =>
     pkey <- liftR (py_get payload "pkey" JNull) ;;
     if negb (py_eq pkey (JStr "RBGA"))
     then ret (error_body "pkey must be 'RBGA'", 400)
     else
     u <- uuid4 ;;
     let request_key := "RBGA-DRAFT-" ++ upper (take 8 (str_uuid u)) in
     summary <- liftR (py_getitem payload (JStr "summary")) ;;
     pkey <- liftR (py_getitem payload (JStr "pkey")) ;;
     issuetype <- liftR (py_get payload "issuetype" (JStr "rbga.issuetype.default")) ;;
     applicant <- liftR (py_getitem payload (JStr "applicant")) ;;
     priority <- liftR (py_get payload "priority" (JStr "default")) ;;
     sourceSystem <- liftR (py_get payload "sourceSystem" (JStr "WorkON")) ;;
     data <- liftR (py_get payload "data" (JObj [])) ;;
     created_at <- now_isoformat ;;
     updated_at <- now_isoformat ;;
     let created_request :=
       mkRequest request_key summary pkey issuetype applicant priority
                 sourceSystem data created_at updated_at
                 "Draft" JNull "Draft" [] None (Some true) in
     _ <- set_request request_key created_request ;;
     ret (JObj [("success", JBool true);
                ("message", JStr "RBGA draft request created successfully");
                ("key", JStr request_key);
                ("status", JStr "Draft");
                ("created_at", JStr (r_created_at created_request))],
          201)
     end)
    internal_error.

(** *** [create_request]: PUT /createrequest/create *)

(** The loop over [enumerate(attachments)]. *)
Fixpoint store_attachments (i : nat) (attachments : list Json)
    (request_key : string) (attachment_ids : list string) : M (list string) :=
  match attachments with
  | [] => ret attachment_ids
  | attachment :: attachments' =>
      u <- uuid4 ;;
      let attachment_id := str_uuid u in
      filename <- liftR (py_get attachment "filename"
                           (JStr ("attachment_" ++ str_of_int (Z.of_nat i)))) ;;
      file <- liftR (py_get attachment "file" (JStr "")) ;;
      created_at <- now_isoformat ;;
      _ <- set_attachment attachment_id
             (mkAttachment attachment_id filename file request_key created_at) ;;
      store_attachments (S i) attachments' request_key
                        (attachment_ids ++ [attachment_id])
  end.

(** [created_request["attachment_ids"] = attachment_ids]. *)
Definition with_attachment_ids (r : Request) (attachment_ids : list string)
  : Request :=
  mkRequest (r_key r) (r_summary r) (r_pkey r) (r_issuetype r) (r_applicant r)
            (r_priority r) (r_sourceSystem r) (r_data r) (r_created_at r)
            (r_updated_at r) (r_status r) (r_resolution r) (r_workflow_stage r)
            (r_approvals r) (Some attachment_ids) (r_is_draft r).

Definition create_request (request : FlaskRequest) : M Response :=
  try_except
    (payload <- get_json request ;;
     if negb (truthy payload)
     then ret (error_body "Request body is required", 400)
     else
     verdict <- liftR (validate_rbga_request payload) ;;
     let '(is_valid, error_message) := verdict in
     if negb is_valid
     then ret (error_body error_message, 400)
     else
     request_key <- generate_request_key ;;
     summary <- liftR (py_getitem payload (JStr "summary")) ;;
     pkey <- liftR (py_getitem payload (JStr "pkey")) ;;
     issuetype <- liftR (py_getitem payload (JStr "issuetype")) ;;
     applicant <- liftR (py_getitem payload (JStr "applicant")) ;;
     priority <- liftR (py_getitem payload (JStr "priority")) ;;
     sourceSystem <- liftR (py_getitem payload (JStr "sourceSystem")) ;;
     data <- liftR (py_getitem payload (JStr "data")) ;;
     created_at <- now_isoformat ;;
     updated_at <- now_isoformat ;;
     let created_request :=
       mkRequest request_key summary pkey issuetype applicant priority
                 sourceSystem data created_at updated_at
                 "Submitted" JNull "Initial Review" [] None None in
     data <- liftR (py_getitem payload (JStr "data")) ;;
     has_attach <- liftR (py_in (JStr "rbga.field.attach") data) ;;
     created_request <-
       (if has_attach
        then
          data <- liftR (py_getitem payload (JStr "data")) ;;
          attachments <- liftR (py_getitem data (JStr "rbga.field.attach")) ;;
          items <- liftR (py_iter attachments) ;;
          attachment_ids <- store_attachments 0 items request_key [] ;;
          ret (with_attachment_ids created_request attachment_ids)
        else ret created_request) ;;
     _ <- set_request request_key created_request ;;
     ret (JObj [("key", JStr request_key)], 201))
    internal_error.

(** *** [get_status]: GET /status/<request_key> *)

Definition localized (i8nValue localeName : string) : Json :=
  JObj [("i8nValue", JStr i8nValue); ("localeName", JStr localeName)].

Definition status_table : list Json :=
  [localized "Cerrado" "es_ES";
   localized "クローズ済み" "ja_JP";
   localized "종료" "ko_KR";
   localized "Closed" "en_UK";
   localized "Abgeschlossen" "de_DE"].

Definition not_found (request_key : string) : Response :=
  (error_body ("Request with key " ++ request_key ++ " not found"), 404).

Definition get_status (request_key : string) : M Response :=
  try_except
    (db <- get_requests_db ;;
     match assoc request_key db with
     | None => ret (not_found request_key)
     | Some request_data =>
         let status_response :=
           JObj [("status", JList status_table);
                 ("requestKey", JStr request_key);
                 ("resolution", JStr "Approved")] in
         ret (status_response, 200)
     end)
    internal_error.

(** *** [get_workitem_detail]: POST /workitemdetails/<request_key> *)

(** [d[k] = v] on a dictionary whose keys are any hashable values. *)
Fixpoint setitem_any (k v : Json) (d : list (Json * Json)) : list (Json * Json) :=
  match d with
  | [] => [(k, v)]
  | (k', v') :: d' =>
      if py_eq k k' then (k', v) :: d' else (k', v') :: setitem_any k v d'
  end.

Definition py_setitem (k v : Json) (d : list (Json * Json))
  : Result (list (Json * Json)) :=
  if hashable k then Ok (setitem_any k v d)
  else Raise (TypeError ("unhashable type: '" ++ type_name k ++ "'")).

(** The text under which [jsonify] writes a dictionary key. *)
Definition json_key (k : Json) : string :=
  match k with
  | JStr s => s
  | JInt n => str_of_int n
  | JBool true => "true"
  | JBool false => "false"
  | _ => "null"
  end.

Definition jsonify_dict (d : list (Json * Json)) : Json :=
  JObj (map (fun kv => (json_key (fst kv), snd kv)) d).

(** The loop [for field in custom_fields] filling
    [response["customFields"]]. *)
Fixpoint collect_custom (custom_fields : list Json) (data : Json)
    (custom : list (Json * Json)) : Result (list (Json * Json)) :=
  match custom_fields with
  | [] => Ok custom
  | field :: custom_fields' =>
      present <-- py_in field data ;;
      if present
      then
        value <-- py_getitem data field ;;
        custom' <-- py_setitem field value custom ;;
        collect_custom custom_fields' data custom'
      else collect_custom custom_fields' data custom
  end.

(** [request.get_json() or {}]. *)
Definition get_json_or_empty (request : FlaskRequest) : M Json :=
  payload <- get_json request ;;
  ret (if truthy payload then payload else JObj []).

Definition get_workitem_detail (request_key : string) (request : FlaskRequest)
  : M Response :=
  try_except
    (db <- get_requests_db ;;
     match assoc request_key db with
     | None => ret (not_found request_key)
     | Some request_data =>
     payload <- get_json_or_empty request ;;
     let response :=
       [("key", JStr request_key);
        ("summary", r_summary request_data);
        ("status", JStr (r_status request_data));
        ("resolution", r_resolution request_data);
        ("created_at", JStr (r_created_at request_data));
        ("updated_at", JStr (r_updated_at request_data))] in
     approval_history <- liftR (py_get payload "approvalHistory" JNull) ;;
     let response :=
       if py_eq approval_history (JStr "yes")
       then dict_set "approvalHistory" (JList (r_approvals request_data)) response
       else response in
     custom_fields <- liftR (py_get payload "customFields" (JList [])) ;;
     response <-
       (if truthy custom_fields
        then
          fields <- liftR (py_iter custom_fields) ;;
          custom <- liftR (collect_custom fields (r_data request_data) []) ;;
          ret (dict_set "customFields" (jsonify_dict custom) response)
        else ret response) ;;
     let response :=
       if negb (truthy custom_fields)
       then dict_set "data" (r_data request_data) response
       else response in
     ret (JObj response, 200)
     end)
    internal_error.

(** *** [get_workitem_attachments]: POST /workitemattachments/<request_key> *)

(** An entry of [request_attachments]. *)
Definition attachment_entry (att : string * Attachment) : Json :=
  JObj [("id", JStr (fst att));
        ("filename", a_filename (snd att));
        ("file", a_file (snd att));
        ("created_at", JStr (a_created_at (snd att)))].

(** The attachments of [attachments_db.items()] linked to [request_key],
    in the order of the dictionary. *)
Definition attachments_of (request_key : string)
    (db : list (string * Attachment)) : list (string * Attachment) :=
  filter (fun att => String.eqb (a_request_key (snd att)) request_key) db.

(** The test of the search loop: the entry's ["filename"] against
    [attachment_name], its ["id"] against [attachment_id]. *)
Definition attachment_matches (attachment_name attachment_id : Json)
    (att : string * Attachment) : bool :=
  (truthy attachment_name && py_eq (a_filename (snd att)) attachment_name)
  || (truthy attachment_id && py_eq (JStr (fst att)) attachment_id).

Definition get_workitem_attachments (request_key : string)
    (request : FlaskRequest) : M Response :=
  try_except
    (db <- get_requests_db ;;
     match assoc request_key db with
     | None => ret (not_found request_key)
     | Some _ =>
     payload <- get_json_or_empty request ;;
     user <- liftR (py_get payload "user" (JStr "")) ;;
     send_all_text <- liftR (v <-- py_get payload "sendAll" (JStr "false") ;;
                             py_lower v) ;;
     let send_all := String.eqb send_all_text "true" in
     attachment_name <- liftR (py_get payload "attachmentName" JNull) ;;
     attachment_id <- liftR (py_get payload "attachmentId" JNull) ;;
     adb <- get_attachments_db ;;
     let request_attachments := attachments_of request_key adb in
     if send_all
     then ret (JObj [("attachments", JList (map attachment_entry request_attachments));
                     ("count", JInt (Z.of_nat (length request_attachments)))],
               200)
     else
     match find (attachment_matches attachment_name attachment_id)
                request_attachments with
     | None => ret (error_body "Attachment not found", 404)
     | Some target_attachment =>
         ret (JObj [("attachment", attachment_entry target_attachment)], 200)
     end
     end)
    internal_error.

(** *** [get_rbga_template]: GET /rbga/template *)

Definition plain_field (type : string) (required : bool) : Json :=
  JObj [("type", JStr type); ("required", JBool required)].

Definition enum_field (options : list string) (required : bool) : Json :=
  JObj [("type", JStr "enum"); ("options", JList (map JStr options));
        ("required", JBool required)].

Definition workflow_options : list string := ["Parallel"; "Serial"].

Definition parallel_options : list string :=
  ["One approver approves the request"; "All the Approvers has to approve"].

Definition RBGA_FIELDS : Json :=
  JObj [("common.field.employee.firstname", plain_field "string" false);
        ("common.field.employee.lastname", plain_field "string" false);
        ("common.field.employee.department", plain_field "string" false);
        ("common.field.employee.costcenter", plain_field "string" false);
        ("common.field.employee.location", plain_field "string" false);
        ("rbga.field.termCheck", enum_field ["yes"; "no"] true);
        ("rbga.field.description", plain_field "string" true);
        ("rbga.field.comments", plain_field "string" false);
        ("rbga.field.workflowType", enum_field workflow_options true);
        ("rbga.field.wf2", enum_field workflow_options false);
        ("rbga.field.wf3", enum_field workflow_options false);
        ("rbga.field.parallelWorkflowSel", enum_field parallel_options false);
        ("rbga.field.parallelWorkflowSel2", enum_field parallel_options false);
        ("rbga.field.parallelWorkflowSel3", enum_field parallel_options false);
        ("rbga.field.tempNew", enum_field ["New Request"] false);
        ("rbga.field.approvalstep",
         enum_field ["One Step Approval"; "Multi Step Approval"] false);
        ("rbga.field.additionalFields", plain_field "array" false);
        ("rbga.field.approver1", plain_field "object" true);
        ("rbga.field.attach", plain_field "array" false);
        ("rbga.field.item", plain_field "array" false);
        ("rbga.field.grid", plain_field "array" false)].

Definition described (type description : string) : Json :=
  JObj [("type", JStr type); ("description", JStr description)].

Definition fixed_value (type value description : string) : Json :=
  JObj [("type", JStr type); ("value", JStr value);
        ("description", JStr description)].

Definition sample_payload : Json :=
  JObj [("summary", JStr "Request for Substitution");
        ("pkey", JStr "RBGA");
        ("issuetype", JStr "rbga.issuetype.default");
        ("applicant", JStr "ntid");
        ("priority", JStr "default");
        ("sourceSystem", JStr "WorkON");
        ("data",
         JObj [("common.field.employee.firstname", JStr "firstName");
               ("common.field.employee.lastname", JStr "lastname");
               ("common.field.employee.department", JStr "department");
               ("common.field.employee.costcenter", JStr "costcenter");
               ("common.field.employee.location", JStr "location");
               ("rbga.field.termCheck", JStr "yes");
               ("rbga.field.description", JStr "Detailed Description for the request");
               ("rbga.field.comments", JStr "Comments");
               ("rbga.field.workflowType", JStr "Parallel");
               ("rbga.field.wf2", JStr "Serial");
               ("rbga.field.wf3", JStr "Serial");
               ("rbga.field.parallelWorkflowSel",
                JStr "One approver approves the request");
               ("rbga.field.parallelWorkflowSel2",
                JStr "All the Approvers has to approve");
               ("rbga.field.parallelWorkflowSel3",
                JStr "All the Approvers has to approve");
               ("rbga.field.tempNew", JStr "New Request");
               ("rbga.field.approvalstep", JStr "One Step Approval");
               ("rbga.field.additionalFields",
                JList [JObj [("fields", JStr "fieldname");
                             ("details", JStr "value")]]);
               ("rbga.field.approver1",
                JObj [("approvers",
                       JList [JObj [("addAfterEnabled", JBool true);
                                    ("deleteFlag", JStr "Yes");
                                    ("description", JStr "Manager");
                                    ("fixed", JBool false);
                                    ("removable", JBool true);
                                    ("userid", JStr "ntid");
                                    ("ccList", JStr "ntid")]]);
                      ("checkDuplicate", JStr "false");
                      ("maxApprover", JStr "20");
                      ("type", JStr "1")]);
               ("rbga.field.attach",
                JList [JObj [("filename", JStr "example.pdf");
                             ("file", JStr "Base64EncodedString")]])])].

Definition template_info : Json :=
  JObj [("template_name", JStr "RBGA");
        ("description", JStr "Request for Budget, Governance & Approval template");
        ("version", JStr "1.0");
        ("application_key", JStr "RBGA");
        ("issue_type", JStr "rbga.issuetype.default");
        ("required_fields",
         JObj [("summary", described "string" "Summary of the Workitem");
               ("pkey", fixed_value "string" "RBGA" "Application Key");
               ("issuetype",
                fixed_value "string" "rbga.issuetype.default" "IssueType of Workitem");
               ("applicant",
                described "string"
                  "NT id of the applicant who creates the request in lower case");
               ("priority",
                fixed_value "string" "default"
                  "Priority of Workitem : default in workon");
               ("sourceSystem",
                described "string" "Your System Name (which calls this API)")]);
        ("data_fields", RBGA_FIELDS);
        ("sample_payload", sample_payload)].

Definition get_rbga_template : M Response :=
  try_except (ret (template_info, 200)) internal_error.

(** *** [list_requests]: GET /requests *)

(** [request.args.get(name)]. *)
Definition args_get (request : FlaskRequest) (name : string) : option string :=
  assoc name (args request).

(** [flt and value != flt]. *)
Definition filtered_out (flt : option string) (value : Json) : bool :=
  match flt with
  | Some f => negb (String.eqb f "") && negb (py_eq value (JStr f))
  | None => false
  end.

Definition request_summary (entry : string * Request) : Json :=
  let req_data := snd entry in
  JObj [("key", JStr (fst entry));
        ("summary", r_summary req_data);
        ("status", JStr (r_status req_data));
        ("applicant", r_applicant req_data);
        ("created_at", JStr (r_created_at req_data));
        ("workflow_stage", JStr (r_workflow_stage req_data))].

Definition list_requests (request : FlaskRequest) : M Response :=
  try_except
    (let status_filter := args_get request "status" in
     let pkey_filter := args_get request "pkey" in
     db <- get_requests_db ;;
     let filtered_requests :=
       map request_summary
         (filter (fun entry =>
                    negb (filtered_out status_filter (JStr (r_status (snd entry))))
                    && negb (filtered_out pkey_filter (r_pkey (snd entry))))
                 db) in
     ret (JObj [("requests", JList filtered_requests);
                ("count", JInt (Z.of_nat (length filtered_requests)))],
          200))
    internal_error.

(** *** [health_check]: GET /health *)

Definition health_check : M Response :=
  timestamp <- now_isoformat ;;
  ret (JObj [("status", JStr "healthy");
             ("service", JStr "Mock WorkOn RBGA API");
             ("version", JStr "1.0.0");
             ("timestamp", JStr timestamp);
             ("rbga_operations",
              JObj [("1", JStr "PUT /createrequest/create - Create Request");
                    ("2", JStr "PUT /createdraftrequest/draft - Create Draft Request");
                    ("3", JStr "GET /status/<request_key> - Get Status");
                    ("4", JStr "POST /workitemdetails/<request_key> - Get Request Details");
                    ("5", JStr "POST /workitemattachments/<request_key> - Get Workitem Attachments")]);
             ("additional_endpoints",
              JList [JStr "GET /rbga/template"; JStr "GET /requests";
                     JStr "GET /health"])],
       200).

(** *** The routes *)

Inductive Call : Type :=
| PutCreateRequest (request : FlaskRequest)
| PutCreateDraftRequest (request : FlaskRequest)
| GetStatus (request_key : string)
| PostWorkitemDetails (request_key : string) (request : FlaskRequest)
| PostWorkitemAttachments (request_key : string) (request : FlaskRequest)
| GetTemplate
| GetRequests (request : FlaskRequest)
| GetHealth.

Definition dispatch (c : Call) : M Response :=
  match c with
  | PutCreateRequest request => create_request request
  | PutCreateDraftRequest request => create_draft_request request
  | GetStatus request_key => get_status request_key
  | PostWorkitemDetails request_key request =>
      get_workitem_detail request_key request
  | PostWorkitemAttachments request_key request =>
      get_workitem_attachments request_key request
  | GetTemplate => get_rbga_template
  | GetRequests request => list_requests request
  | GetHealth => health_check
  end.

(** A sequence of calls served one after the other: the outcomes, in order,
    and the world reached. *)
Fixpoint serve_all (calls : list Call) (w : World)
  : list (Call * Result Response) * World :=
  match calls with
  | [] => ([], w)
  | c :: calls' =>
      let '(r, w') := dispatch c w in
      let '(rs, w'') := serve_all calls' w' in
      ((c, r) :: rs, w'')
  end.

End Server.

(** ** The client: [workon_api.py] and [workon_cli.py] *)

Module Client.
Import PyStr Py.

(** What [requests.Session] is asked to send.  [timeout] is the keyword
    argument of that name, [None] when the caller passes none: [requests]
    then waits without limit. *)
Record HttpCall : Type := mkHttpCall {
  method : string;
  url : string;
  headers : list (string * Json);
  json : option Json;
  timeout : option Z
}.

Record HttpResponse : Type := mkHttpResponse {
  status_code : Z;
  body : option Json
}.

(** The network: a response, or one of the failures of
    [requests.exceptions]. *)
Definition Network : Type := HttpCall -> Result HttpResponse.

(** A computation of the client: its result and the calls it sent. *)
Definition IO (A : Type) : Type := Network -> Result A * list HttpCall.

Definition ret {A} (a : A) : IO A := fun _ => (Ok a, []).

Definition bind {A B} (c : IO A) (k : A -> IO B) : IO B :=
  fun net =>
    match c net with
    | (Ok a, sent) => let '(r, sent') := k a net in (r, (sent ++ sent')%list)
    | (Raise e, sent) => (Raise e, sent)
    end.

Notation "x <- c ;; k" := (bind c (fun x => k))
  (at level 61, c at next level, right associativity).

Definition liftR {A} (r : Result A) : IO A := fun _ => (r, []).

Definition send (c : HttpCall) : IO HttpResponse := fun net => (net c, [c]).

(** [response.raise_for_status()]. *)
Definition raise_for_status (response : HttpResponse) : Result unit :=
  if (400 <=? status_code response) && (status_code response <? 600)
  then Raise (HTTPError (str_of_int (status_code response) ++ " Error"))
  else Ok tt.

(** [response.json()]. *)
Definition response_json (response : HttpResponse) : Result Json :=
  match body response with
  | Some v => Ok v
  | None => Raise (JSONDecodeError "Expecting value")
  end.

(** The attributes [__init__] sets; [session_headers] are the headers it
    adds to those of a fresh [requests.Session]. *)
Record WorkOnAPI : Type := mkWorkOnAPI {
  base_url : string;
  key_id : Json;
  session_headers : list (string * Json)
}.

Definition DEFAULT_SOURCE_SYSTEM : string := "WorkON".
Definition DEFAULT_PROJECT_KEY : string := "RBGA".
Definition DEFAULT_ISSUE_TYPE : string := "rbga.issuetype.default".
Definition DEFAULT_PRIORITY : string := "default".
Definition APPROVAL_HISTORY_YES : string := "yes".
Definition CONTENT_TYPE_JSON : string := "application/json".

(** [s.rstrip("/")]. *)
Fixpoint rstrip_slash (s : string) : string :=
  match s with
  | EmptyString => EmptyString
  | String c s' =>
      match rstrip_slash s' with
      | EmptyString => if Ascii.eqb c "/" then EmptyString else String c EmptyString
      | rest => String c rest
      end
  end.

(** The body of [WorkOnAPI.__init__(self, base_url, key_id=None)]. *)
Definition init_body (base_url key_id : Json) : Result WorkOnAPI :=
  match base_url with
  | JStr s =>
      let headers := [("Content-Type", JStr CONTENT_TYPE_JSON)] in
      Ok (mkWorkOnAPI (rstrip_slash s) key_id
            (if truthy key_id then dict_set "KeyId" key_id headers else headers))
  | _ => Raise (no_attribute base_url "rstrip")
  end.

(** The parameters of [__init__] after [self]. *)
Definition init_parameters : list string := ["base_url"; "key_id"].

(** The positional arguments go to the parameters in their order; the
    arguments beyond the last parameter are left over. *)
Fixpoint bind_positional (parameters : list string) (positional : list Json)
  : list (string * Json) :=
  match parameters, positional with
  | name :: parameters', v :: positional' =>
      (name, v) :: bind_positional parameters' positional'
  | _, _ => []
  end.

(** The keyword arguments, in their order: a name that is no parameter, or
    a parameter that has its value already, raises [TypeError]. *)
Fixpoint bind_keywords (keywords bound : list (string * Json))
  : Result (list (string * Json)) :=
  match keywords with
  | [] => Ok bound
  | (name, v) :: keywords' =>
      if negb (existsb (String.eqb name) init_parameters)
      then Raise (TypeError ("WorkOnAPI.__init__() got an unexpected keyword argument '"
                               ++ name ++ "'"))
      else if has_key name bound
      then Raise (TypeError ("WorkOnAPI.__init__() got multiple values for argument '"
                               ++ name ++ "'"))
      else bind_keywords keywords' (dict_set name v bound)
  end.

(** A call of the class [WorkOnAPI] with positional and keyword arguments:
    the arguments are bound to the parameters of [__init__], and a call
    that does not fit its signature raises [TypeError]. *)
Definition new_WorkOnAPI (positional : list Json)
    (keywords : list (string * Json)) : Result WorkOnAPI :=
  bound <-- bind_keywords keywords (bind_positional init_parameters positional) ;;
  if (length init_parameters <? length positional)%nat
  then Raise (TypeError ("WorkOnAPI.__init__() takes from 2 to 3 positional arguments but "
                           ++ str_of_int (Z.of_nat (S (length positional)))
                           ++ " were given"))
  else
    match assoc "base_url" bound with
    | None =>
        Raise (TypeError "WorkOnAPI.__init__() missing 1 required positional argument: 'base_url'")
    | Some base_url =>
        init_body base_url
                  (match assoc "key_id" bound with Some v => v | None => JNull end)
    end.

(** [self.session.put(url, json=payload)] and its siblings: no other
    keyword argument is passed. *)
Definition session_request (self : WorkOnAPI) (method url : string)
    (payload : option Json) : IO HttpResponse :=
  send (mkHttpCall method url (session_headers self) payload None).

(** The tail common to the five methods: raise on an error status, decode
    the body; whatever is raised reaches the caller. *)
Definition finish (response : HttpResponse) : IO Json :=
  liftR (_ <-- raise_for_status response ;; response_json response).

Definition create_rbga_request (self : WorkOnAPI) (summary applicant : string)
    (data : Json) (source_system : string) : IO Json :=
  let url := base_url self ++ "/createrequest/create" in
  let payload :=
    JObj [("summary", JStr summary);
          ("pkey", JStr DEFAULT_PROJECT_KEY);
          ("issuetype", JStr DEFAULT_ISSUE_TYPE);
          ("applicant", JStr (lower applicant));
          ("priority", JStr DEFAULT_PRIORITY);
          ("sourceSystem", JStr source_system);
          ("data", data)] in
  response <- session_request self "PUT" url (Some payload) ;;
  finish response.

Definition create_draft_rbga_request (self : WorkOnAPI)
    (summary applicant : string) (data : Json) (source_system : string)
  : IO Json :=
  let url := base_url self ++ "/createdraftrequest/draft" in
  let payload :=
    JObj [("summary", JStr summary);
          ("pkey", JStr DEFAULT_PROJECT_KEY);
          ("issuetype", JStr DEFAULT_ISSUE_TYPE);
          ("applicant", JStr (lower applicant));
          ("priority", JStr DEFAULT_PRIORITY);
          ("sourceSystem", JStr source_system);
          ("data", data);
          ("draft", JBool true)] in
  response <- session_request self "PUT" url (Some payload) ;;
  finish response.

Definition get_request_status (self : WorkOnAPI) (request_key : string)
  : IO Json :=
  let url := base_url self ++ "/status/" ++ request_key in
  response <- session_request self "GET" url None ;;
  finish response.

Definition nonempty {A} (l : option (list A)) : bool :=
  match l with
  | Some (_ :: _) => true
  | _ => false
  end.

Definition field_list (l : option (list string)) : Json :=
  JList (map JStr (match l with Some fs => fs | None => [] end)).

Definition get_workitem_detail (self : WorkOnAPI) (request_key : string)
    (custom_fields system_fields : option (list string))
    (include_approval_history : bool) : IO Json :=
  let url := base_url self ++ "/workitemdetails/" ++ request_key in
  let payload := [] in
  let payload :=
    if include_approval_history
    then dict_set "approvalHistory" (JStr APPROVAL_HISTORY_YES) payload
    else payload in
  let payload :=
    if nonempty custom_fields
    then dict_set "customFields" (field_list custom_fields) payload
    else payload in
  let payload :=
    if nonempty system_fields
    then dict_set "systemFields" (field_list system_fields) payload
    else payload in
  response <- session_request self "POST" url (Some (JObj payload)) ;;
  finish response.

(** [str(b).lower()] for a boolean. *)
Definition bool_text (b : bool) : string := lower (if b then "True" else "False").

Definition get_attachments (self : WorkOnAPI) (request_key user : string)
    (attachment_name : option string) (send_all : bool) : IO Json :=
  let url := base_url self ++ "/workitemattachments/" ++ request_key in
  let payload := [("user", JStr user); ("sendAll", JStr (bool_text send_all))] in
  let payload :=
    match attachment_name with
    | Some name =>
        if negb send_all && negb (String.eqb name "")
        then dict_set "attachmentName" (JStr name) payload
        else payload
    | None => payload
    end in
  response <- session_request self "POST" url (Some (JObj payload)) ;;
  finish response.

(** *** [WorkOnCLI]: the configuration and [get_api_client] *)

(** The [DEFAULT] section that [load_config] sets before it reads the
    configuration file. *)
Definition default_config : list (string * string) :=
  [("endpoint", "http://localhost:5001");
   ("key_id", "test-key-id");
   ("timeout", "30");
   ("source_system", "WorkOn CLI")].

(** [self.config['DEFAULT'][name]]. *)
Definition config_get (config : list (string * string)) (name : string)
  : Result string :=
  match assoc name config with
  | Some v => Ok v
  | None => Raise (KeyError ("'" ++ name ++ "'"))
  end.

Definition get_api_client (config : list (string * string)) : Result WorkOnAPI :=
  endpoint <-- config_get config "endpoint" ;;
  key_id <-- config_get config "key_id" ;;
  timeout <-- (text <-- config_get config "timeout" ;; py_int text) ;;
  new_WorkOnAPI [JStr endpoint; JStr key_id; JInt timeout] [].

End Client.

(** ** The vocabulary of the specification *)

Module Spec.
Import PyStr Py Server.

(** The number a key carries: the key starts with the project prefix and
    its second segment reads as a number. *)
Definition numeric_suffix (key : string) : option Z :=
  if startswith key "RBGA-"
  then match split "-" key with
       | _ :: seg :: _ => int_of_str seg
       | _ => None
       end
  else None.

Definition numeric_suffixes (keys : list string) : list Z :=
  flat_map (fun key => match numeric_suffix key with
                       | Some n => [n]
                       | None => []
                       end) keys.

(** [m] is the greatest number of [ns], or zero when there is none. *)
Definition greatest_or_zero (m : Z) (ns : list Z) : Prop :=
  (ns = [] -> m = 0) /\ (ns <> [] -> In m ns) /\ (forall n, In n ns -> n <= m).

Definition store_keys (w : World) : list string := map fst (requests_db w).

(** The key the next full create receives in [w]. *)
Definition generated_key (w : World) : string :=
  "RBGA-" ++ str_of_int (scan_keys (store_keys w) 0 + 1).

(** The key the next draft create receives in [w]: it is written from the
    next UUID drawn. *)
Definition draft_token (w : World) : string :=
  upper (take 8 (str_uuid (uuid_source w (uuid_drawn w)))).

Definition draft_key (w : World) : string := "RBGA-DRAFT-" ++ draft_token w.

(** Both stores are the same in [w] and [w']. *)
Definition same_stores (w w' : World) : Prop :=
  requests_db w' = requests_db w /\ attachments_db w' = attachments_db w.

(** Running [c] from [w] ends in a result and a world that satisfy [Q]. *)
Definition wp {A} (c : M A) (Q : Result A -> World -> Prop) (w : World) : Prop :=
  Q (fst (c w)) (snd (c w)).

(** The key that a full create answered with, when it succeeded. *)
Definition created_key (outcome : Call * Result Response) : option string :=
  match outcome with
  | (PutCreateRequest _, Ok (JObj fields, 201)) =>
      match assoc "key" fields with
      | Some (JStr key) => Some key
      | _ => None
      end
  | _ => None
  end.

Definition created_keys (outcomes : list (Call * Result Response)) : list string :=
  flat_map (fun o => match created_key o with
                     | Some key => [key]
                     | None => []
                     end) outcomes.

Definition full_create_succeeded (outcome : Call * Result Response) : bool :=
  match outcome with
  | (PutCreateRequest _, Ok (_, 201)) => true
  | _ => false
  end.

Definition is_draft_create (c : Call) : bool :=
  match c with
  | PutCreateDraftRequest _ => true
  | _ => false
  end.



(** Every call the client can send through its five methods. *)
Inductive ClientCall : Type :=
| CreateRbgaRequest (summary applicant : string) (data : Json) (source_system : string)
| CreateDraftRbgaRequest (summary applicant : string) (data : Json)
                         (source_system : string)
| GetRequestStatus (request_key : string)
| GetWorkitemDetail (request_key : string)
                    (custom_fields system_fields : option (list string))
                    (include_approval_history : bool)
| GetAttachments (request_key user : string) (attachment_name : option string)
                 (send_all : bool).

Definition perform (self : Client.WorkOnAPI) (c : ClientCall) : Client.IO Json :=
  match c with
  | CreateRbgaRequest summary applicant data source_system =>
      Client.create_rbga_request self summary applicant data source_system
  | CreateDraftRbgaRequest summary applicant data source_system =>
      Client.create_draft_rbga_request self summary applicant data source_system
  | GetRequestStatus request_key => Client.get_request_status self request_key
  | GetWorkitemDetail request_key custom_fields system_fields history =>
      Client.get_workitem_detail self request_key custom_fields system_fields history
  | GetAttachments request_key user attachment_name send_all =>
      Client.get_attachments self request_key user attachment_name send_all
  end.

(** The first of [names] that [fields] lacks. *)
Definition first_absent (names : list string) (fields : list (string * Json))
  : option string :=
  find (fun name => negb (has_key name fields)) names.

(** Why a draft payload is refused, in the order of the checks: only
    [summary], [pkey] and [applicant] are looked at. *)
Definition draft_refusal (fields : list (string * Json)) : option string :=
  match fields with
  | [] => Some "Request body is required"
  | _ :: _ =>
      match first_absent ["summary"; "pkey"; "applicant"] fields with
      | Some name => Some ("Missing required field: " ++ name)
      | None =>
          if py_eq (match assoc "pkey" fields with Some v => v | None => JNull end)
                   (JStr "RBGA")
          then None
          else Some "pkey must be 'RBGA'"
      end
  end.

(** The value of [fields[name]], or [default]. *)
Definition field_or (name : string) (default : Json)
    (fields : list (string * Json)) : Json :=
  match assoc name fields with
  | Some v => v
  | None => default
  end.

(** The record a draft create stores for the payload [fields] in [w]. *)
Definition draft_record (fields : list (string * Json)) (w : World) : Request :=
  mkRequest (draft_key w)
            (field_or "summary" JNull fields)
            (field_or "pkey" JNull fields)
            (field_or "issuetype" (JStr "rbga.issuetype.default") fields)
            (field_or "applicant" JNull fields)
            (field_or "priority" (JStr "default") fields)
            (field_or "sourceSystem" (JStr "WorkON") fields)
            (field_or "data" (JObj []) fields)
            (clock w (clock_read w))
            (clock w (S (clock_read w)))
            "Draft" JNull "Draft" [] None (Some true).



Definition is_upper_hex (c : ascii) : bool :=
  is_digit c || ((65 <=? nat_of_ascii c)%nat && (nat_of_ascii c <=? 70)%nat).

(** *** The checks of the full validation, in their order *)

(** A check: whether it passes, and the reason given when it does not. *)
Definition Check : Type := (bool * string)%type.

(** The reason of the first check that does not pass. *)
Definition first_failure (checks : list Check) : option string :=
  option_map snd (find (fun check => negb (fst check)) checks).

Definition presence_checks (reason : string) (names : list string)
    (fields : list (string * Json)) : list Check :=
  map (fun name => (has_key name fields, reason ++ name)) names.

Definition top_level_checks (payload : list (string * Json)) : list Check :=
  (presence_checks "Missing required field: " required_fields payload ++
   [(py_eq (field_or "pkey" JNull payload) (JStr "RBGA"),
     "pkey must be 'RBGA'");
    (py_eq (field_or "issuetype" JNull payload) (JStr "rbga.issuetype.default"),
     "issuetype must be 'rbga.issuetype.default'");
    (py_eq (field_or "priority" JNull payload) (JStr "default"),
     "priority must be 'default'")])%list.

(** [enumerate(l)], counting from [i]. *)
Fixpoint numbered_from {A} (i : nat) (l : list A) : list (nat * A) :=
  match l with
  | [] => []
  | a :: l' => (i, a) :: numbered_from (S i) l'
  end.

Definition has_entry (name : string) (v : Json) : bool :=
  match v with
  | JObj fields => has_key name fields
  | _ => false
  end.

Definition approver_checks (numbered : nat * Json) : list Check :=
  let n := str_of_int (Z.of_nat (fst numbered)) in
  let approver := snd numbered in
  [(is_dict approver, "Approver " ++ n ++ " must be an object");
   (has_entry "userid" approver,
    "Approver " ++ n ++ " missing required field: userid");
   (has_entry "description" approver,
    "Approver " ++ n ++ " missing required field: description")].

Definition items_of (v : Json) : list Json :=
  match v with
  | JList items => items
  | _ => []
  end.

Definition data_checks (data : list (string * Json)) : list Check :=
  let approver1 := field_or "rbga.field.approver1" JNull data in
  let approvers :=
    match approver1 with
    | JObj fields => field_or "approvers" (JList []) fields
    | _ => JNull
    end in
  (presence_checks "Missing required RBGA field: " rbga_required data ++
   [(in_list (field_or "rbga.field.termCheck" JNull data) [JStr "yes"; JStr "no"],
     "rbga.field.termCheck must be 'yes' or 'no'");
    (in_list (field_or "rbga.field.workflowType" JNull data)
             [JStr "Parallel"; JStr "Serial"],
     "rbga.field.workflowType must be 'Parallel' or 'Serial'");
    (has_entry "approvers" approver1,
     "rbga.field.approver1 must contain 'approvers' array");
    (is_list approvers && negb (Nat.eqb (length (items_of approvers)) 0),
     "rbga.field.approver1.approvers must be a non-empty array")] ++
   flat_map approver_checks (numbered_from 0 (items_of approvers)))%list.

(** The verdict the checks give. *)
Definition verdict (checks : list Check) : bool * string :=
  match first_failure checks with
  | Some reason => (false, reason)
  | None => (true, "")
  end.

(** The attachments of a payload are absent, or a list of objects. *)
Definition attach_well_formed (data : list (string * Json)) : bool :=
  match assoc "rbga.field.attach" data with
  | None => true
  | Some (JList items) => forallb is_dict items
  | Some _ => false
  end.

(** The entries of a JSON object; none for any other value. *)
Definition entries_of (v : Json) : list (string * Json) :=
  match v with
  | JObj fields => fields
  | _ => []
  end.

(** The listed fields that [data] holds, with their values, each once, in
    the order of the list. *)
Definition custom_selection (names : list string) (data : list (string * Json))
  : list (string * Json) :=
  fold_left (fun selected name =>
               match assoc name data with
               | Some v => dict_set name v selected
               | None => selected
               end) names [].

(** The body of a detail response for the stored [record], the payload
    [fields] and the listed custom fields [names]. *)
Definition detail_body (request_key : string) (record : Request)
    (fields : list (string * Json)) (names : list string) : Json :=
  JObj ([("key", JStr request_key);
         ("summary", r_summary record);
         ("status", JStr (r_status record));
         ("resolution", r_resolution record);
         ("created_at", JStr (r_created_at record));
         ("updated_at", JStr (r_updated_at record))]
        ++ (if py_eq (field_or "approvalHistory" JNull fields) (JStr "yes")
            then [("approvalHistory", JList (r_approvals record))]
            else [])
        ++ match names with
           | [] => [("data", r_data record)]
           | _ :: _ =>
               [("customFields",
                 JObj (custom_selection names (entries_of (r_data record))))]
           end)%list.

(** A dictionary with string keys, seen as one with keys of any kind. *)
Definition string_keyed (d : list (string * Json)) : list (Json * Json) :=
  map (fun kv => (JStr (fst kv), snd kv)) d.

(** *** Sample worlds *)

(** A server that has just started: both stores empty. *)
Definition empty_world : World :=
  mkWorld [] [] (fun n => (N.of_nat (S n) * 16 ^ 24)%N) 0
          (fun n => "2024-01-01T00:00:0" ++ str_of_int (Z.of_nat n)) 0.

Definition request_of (payload : Json) : FlaskRequest :=
  mkFlaskRequest (Some payload) [].

Definition minimal_draft : Json :=
  JObj [("summary", JStr "Draft"); ("pkey", JStr "RBGA"); ("applicant", JStr "ntid")].

(** The world after one draft create with the minimal payload: the draft
    is stored under "RBGA-DRAFT-00000001". *)
Definition world_with_draft : World :=
  snd (create_draft_request (request_of minimal_draft) empty_world).



(** The sample payload of the template with another [data]. *)
Definition sample_with_data (data : Json) : Json :=
  JObj (dict_set "data" data (entries_of sample_payload)).

Definition sample_data : list (string * Json) :=
  entries_of (field_or "data" JNull (entries_of sample_payload)).

(** The sample payload with another value for its attachments. *)
Definition sample_with_attach (attach : Json) : Json :=
  sample_with_data (JObj (dict_set "rbga.field.attach" attach sample_data)).

(** The world after one draft create whose [data] is [null]. *)
Definition world_with_null_draft : World :=
  snd (create_draft_request
         (request_of (JObj [("summary", JStr "Draft"); ("pkey", JStr "RBGA");
                            ("applicant", JStr "ntid"); ("data", JNull)]))
         empty_world).

(** The world after one full create with the sample payload of the
    template: the request is stored under "RBGA-1", with one attachment. *)
Definition world_with_request : World :=
  snd (create_request (request_of sample_payload) empty_world).

End Spec.

(** ** Further vocabulary *)

Module MoreSpec.
Import PyStr Py Server Spec.

(** The status codes a route can answer with. *)
Definition statuses_of (c : Call) : list Z :=
  match c with
  | PutCreateRequest _ | PutCreateDraftRequest _ => [201; 400; 500]
  | GetStatus _ => [200; 404]
  | PostWorkitemDetails _ _ | PostWorkitemAttachments _ _ => [200; 404; 500]
  | GetTemplate | GetRequests _ | GetHealth => [200]
  end.

(** An answer of a route: its status is one the route has, and from 400 on
    its body is an object with the one field [error]. *)
Definition answered (c : Call) (r : Result Response) : Prop :=
  exists body status,
    r = Ok (body, status) /\ In status (statuses_of c) /\
    (400 <= status -> exists msg, body = error_body msg).

(** The attachment stored under [id] is linked to [request_key]. *)
Definition linked_under (adb : list (string * Attachment))
    (request_key id : string) : Prop :=
  exists a, assoc id adb = Some a /\ a_request_key a = request_key /\ a_id a = id.

(** Every stored attachment is linked to a stored request. *)
Definition links_ok (w : World) : Prop :=
  forall id a,
    assoc id (attachments_db w) = Some a ->
    has_key (a_request_key a) (requests_db w) = true.

(** [record] is the record that a full create builds from [payload] in
    [w], its attachment ids apart. *)
Definition full_record_of (payload : Json) (w : World) (record : Request) : Prop :=
  py_getitem payload (JStr "summary") = Ok (r_summary record) /\
  py_getitem payload (JStr "pkey") = Ok (r_pkey record) /\
  py_getitem payload (JStr "issuetype") = Ok (r_issuetype record) /\
  py_getitem payload (JStr "applicant") = Ok (r_applicant record) /\
  py_getitem payload (JStr "priority") = Ok (r_priority record) /\
  py_getitem payload (JStr "sourceSystem") = Ok (r_sourceSystem record) /\
  py_getitem payload (JStr "data") = Ok (r_data record) /\
  r_key record = generated_key w /\
  r_created_at record = clock w (clock_read w) /\
  r_updated_at record = clock w (S (clock_read w)) /\
  r_status record = "Submitted" /\
  r_resolution record = JNull /\
  r_workflow_stage record = "Initial Review" /\
  r_approvals record = [] /\
  r_is_draft record = None.

(** The attachment ids of [record] against the attachments of its data:
    none when the data has no [rbga.field.attach], else one id per item,
    each stored in [adb] and linked to the record's key. *)
Definition attachments_recorded (record : Request)
    (adb adb' : list (string * Attachment)) : Prop :=
  match r_attachment_ids record with
  | None =>
      adb' = adb /\ py_in (JStr "rbga.field.attach") (r_data record) = Ok false
  | Some ids =>
      Forall (linked_under adb' (r_key record)) ids /\
      exists attach items,
        py_getitem (r_data record) (JStr "rbga.field.attach") = Ok attach /\
        py_iter attach = Ok items /\
        length ids = length items
  end.

(** The outcome of a full create from [w], ending in [w'] with result [r]. *)
Definition full_create_outcome (request : FlaskRequest) (w : World)
    (r : Result Response) (w' : World) : Prop :=
  exists body status,
    r = Ok (body, status) /\
    ((status = 400 /\ w' = w) \/
     (status = 500 /\ requests_db w' = requests_db w) \/
     (status = 201 /\ body = JObj [("key", JStr (generated_key w))] /\
      exists payload record msg,
        requests_db w' = dict_set (generated_key w) record (requests_db w) /\
        json_body request = Some payload /\
        validate_rbga_request payload = Ok (true, msg) /\
        full_record_of payload w record /\
        attachments_recorded record (attachments_db w) (attachments_db w'))).

(** The sample payload with two attachments, the second of which is a
    string where an object is expected. *)
Definition payload_with_bad_attachment : Json :=
  sample_with_attach
    (JList [JObj [("filename", JStr "first.pdf"); ("file", JStr "Zmlyc3Q=")];
            JStr "second.pdf"]).

End MoreSpec.

(** ** Well-formed requests *)

Module Shape.
Import PyStr Py Server Spec.

(** An approver as the validator wants it: an object with [userid] and
    [description]. *)
Definition approver_ok (approver : Json) : Prop :=
  has_entry "userid" approver = true /\ has_entry "description" approver = true.

(** The data of a full request as the validator wants it. *)
Definition well_formed_data (data : list (string * Json)) : Prop :=
  Forall (fun name => has_key name data = true) rbga_required /\
  (assoc "rbga.field.termCheck" data = Some (JStr "yes") \/
   assoc "rbga.field.termCheck" data = Some (JStr "no")) /\
  (assoc "rbga.field.workflowType" data = Some (JStr "Parallel") \/
   assoc "rbga.field.workflowType" data = Some (JStr "Serial")) /\
  exists approver1 approver approvers,
    assoc "rbga.field.approver1" data = Some (JObj approver1) /\
    assoc "approvers" approver1 = Some (JList (approver :: approvers)) /\
    Forall approver_ok (approver :: approvers).

(** A full request as the validator wants it. *)
Definition well_formed_request (payload : Json) : Prop :=
  exists fields data,
    payload = JObj fields /\
    Forall (fun name => has_key name fields = true) required_fields /\
    assoc "pkey" fields = Some (JStr "RBGA") /\
    assoc "issuetype" fields = Some (JStr "rbga.issuetype.default") /\
    assoc "priority" fields = Some (JStr "default") /\
    assoc "data" fields = Some (JObj data) /\
    well_formed_data data.

(** A stored record as the two creates write it: under its own key, for
    the project "RBGA", unresolved and with no approval; submitted, with
    the fixed issue type and priority and an object as data, or a draft
    without attachments. *)
Definition record_ok (entry : string * Request) : Prop :=
  let record := snd entry in
  r_key record = fst entry /\
  r_pkey record = JStr "RBGA" /\
  r_resolution record = JNull /\
  r_approvals record = [] /\
  ((r_status record = "Submitted" /\
    r_workflow_stage record = "Initial Review" /\
    r_is_draft record = None /\
    r_issuetype record = JStr "rbga.issuetype.default" /\
    r_priority record = JStr "default" /\
    is_dict (r_data record) = true) \/
   (r_status record = "Draft" /\
    r_workflow_stage record = "Draft" /\
    r_is_draft record = Some true /\
    r_attachment_ids record = None)).

Definition store_ok (w : World) : Prop := Forall record_ok (requests_db w).

(** The attachments that the loop of a full create writes for the items
    [items], the first of which has the index [i]: the ids are drawn from
    [source] from [u] on, the times read from [clock] from [c] on. *)
Fixpoint new_attachments (source : nat -> N) (clock : nat -> string)
    (request_key : string) (u c i : nat) (items : list (list (string * Json)))
  : list (string * Attachment) :=
  match items with
  | [] => []
  | item :: items' =>
      let attachment_id := str_uuid (source u) in
      (attachment_id,
       mkAttachment attachment_id
         (field_or "filename" (JStr ("attachment_" ++ str_of_int (Z.of_nat i))) item)
         (field_or "file" (JStr "") item)
         request_key (clock c))
      :: new_attachments source clock request_key (S u) (S c) (S i) items'
  end.

(** [attachments_db[id] = attachment], for an entry. *)
Definition put (d : list (string * Attachment)) (e : string * Attachment)
  : list (string * Attachment) :=
  dict_set (fst e) (snd e) d.

(** The attachments that a full create from [w] writes for [items]: two
    times are read for the record before the first attachment. *)
Definition created_attachments (w : World) (items : list (list (string * Json)))
  : list (string * Attachment) :=
  new_attachments (uuid_source w) (clock w) (generated_key w)
                  (uuid_drawn w) (S (S (clock_read w))) 0 items.

End Shape.

(** ** The sample data of the client *)

Module ClientSample.
Import PyStr Py.

(** One approver of the sample, as written three times in the source. *)
Definition sample_approver : Json :=
  JObj [("addAfterEnabled", JBool true);
        ("deleteFlag", JStr "Yes");
        ("description", JStr "");
        ("fixed", JBool false);
        ("removable", JBool true);
        ("userid", JStr "mrj6cob");
        ("ccList", JStr "")].

(** The dictionary that holds a list of approvers. *)
Definition approver_group (approvers : list Json) : Json :=
  JObj [("approvers", JList approvers);
        ("checkDuplicate", JStr "false");
        ("maxApprover", JStr "20");
        ("type", JStr "1")].

(** [create_sample_rbga_data()]: the assignments to [rbga_data], in their
    order, from the empty dictionary. *)
Definition create_sample_rbga_data : Json :=
  let additional_fields :=
    JList [JObj [("fields", JStr "Target revision"); ("details", JStr "Value1")];
           JObj [("fields", JStr "Preview link");
                 ("details", JStr "https://www.bosch.com")]] in
  let attachments :=
    JList [JObj [("filename", JStr "filename.ext");
                 ("file", JStr "Base64EncodedString")]] in
  let approver1 := approver_group [sample_approver; sample_approver] in
  let when_approved := approver_group [sample_approver] in
  let when_declined := approver_group [sample_approver] in
  JObj (fold_left (fun rbga_data assignment =>
                     dict_set (fst assignment) (snd assignment) rbga_data)
          [("common.field.employee.firstname", JStr "John");
           ("common.field.employee.lastname", JStr "Doe");
           ("common.field.employee.department", JStr "IT");
           ("common.field.employee.costcenter", JStr "CC001");
           ("common.field.employee.location", JStr "Stuttgart");
           ("rbga.field.termCheck", JStr "yes");
           ("rbga.field.description", JStr "Request for new software licenses");
           ("rbga.field.comments", JStr "Urgent approval needed for project");
           ("rbga.field.workflowType", JStr "Serial");
           ("rbga.field.wf2", JStr "Serial");
           ("rbga.field.wf3", JStr "Serial");
           ("rbga.field.parallelWorkflowSel", JStr "Only one Approver has to approve");
           ("rbga.field.parallelWorkflowSel2", JStr "Only one Approver has to approve");
           ("rbga.field.parallelWorkflowSel3", JStr "Only one Approver has to approve");
           ("rbga.field.tempNew", JStr "New Request");
           ("rbga.field.approvalstep", JStr "One Step Approval");
           ("rbga.field.externalLink", JStr "https://www.bosch.com");
           ("rbga.field.additionalFields", additional_fields);
           ("rbga.field.attach", attachments);
           ("rbga.field.approver1", approver1);
           ("rbga.field.whenApproved", when_approved);
           ("rbga.field.whenDeclined", when_declined)]
          []).

End ClientSample.

(** * Properties *)

(** ** Strings and numerals *)

Module PyStrFacts.
Import PyStr.

Example int_of_str_samples :
  map int_of_str ["12"; " +7 "; "1_000"; "007"; "DRAFT"; ""; "1__0"; "_1"; "1_"; "-3"; "1 2"]
  = [Some 12; Some 7; Some 1000; Some 7; None; None; None; None; None; Some (-3); None].
Proof. reflexivity. Qed.

Example str_of_int_samples :
  map str_of_int [0; 7; 10; 999999; 1000000; -42]
  = ["0"; "7"; "10"; "999999"; "1000000"; "-42"].
Proof. reflexivity. Qed.

Example split_samples :
  map (split "-") ["RBGA-12"; "RBGA-DRAFT-0A1B2C3D"; "RBGA-"; "RBGA--5"; "x"]
  = [["RBGA"; "12"]; ["RBGA"; "DRAFT"; "0A1B2C3D"]; ["RBGA"; ""]; ["RBGA"; ""; "5"]; ["x"]].
Proof. reflexivity. Qed.

Lemma small_cases (d : Z) :
  0 <= d < 10 ->
  d = 0 \/ d = 1 \/ d = 2 \/ d = 3 \/ d = 4 \/
  d = 5 \/ d = 6 \/ d = 7 \/ d = 8 \/ d = 9.
Proof. lia. Qed.

Ltac each_digit d H :=
  apply small_cases in H;
  repeat (destruct H as [H | H]; [subst d | ]); [.. | subst d].

Lemma digit_val_char (d : Z) : 0 <= d < 10 -> digit_val (digit_char d) = Some d.
Proof. intros H. each_digit d H; reflexivity. Qed.

Lemma digit_char_is_digit (d : Z) : 0 <= d < 10 -> is_digit (digit_char d) = true.
Proof. intros H. each_digit d H; reflexivity. Qed.

Lemma mod10_range (n : Z) : 0 <= n mod 10 < 10.
Proof. apply Z.mod_pos_bound. lia. Qed.

Lemma digits_of_S (fuel : nat) (n : Z) (acc : string) :
  digits_of (S fuel) n acc =
  if n / 10 =? 0 then String (digit_char (n mod 10)) acc
  else digits_of fuel (n / 10) (String (digit_char (n mod 10)) acc).
Proof. reflexivity. Qed.

(** Reading back the digits that [digits_of] writes. *)
Lemma int_body_digits_of (fuel : nat) :
  forall n rest pd,
    0 <= n < 10 ^ Z.of_nat (S fuel) ->
    int_body (digits_of (S fuel) n rest) 0 pd = int_body rest n true.
Proof.
  induction fuel as [| fuel IH]; intros n rest pd Hn.
  - change (10 ^ Z.of_nat 1) with 10 in Hn.
    rewrite digits_of_S, Z.div_small by lia. cbn [Z.eqb int_body].
    rewrite digit_val_char by apply mod10_range.
    rewrite Z.mod_small by lia. reflexivity.
  - rewrite digits_of_S. destruct (n / 10 =? 0) eqn:Hq.
    + apply Z.eqb_eq in Hq. cbn [int_body].
      rewrite digit_val_char by apply mod10_range.
      f_equal. pose proof (Z.div_mod n 10). lia.
    + rewrite IH.
      * cbn [int_body]. rewrite digit_val_char by apply mod10_range.
        f_equal. pose proof (Z.div_mod n 10). lia.
      * split; [apply Z.div_pos; lia |].
        apply Z.div_lt_upper_bound; [lia |].
        replace (Z.of_nat (S (S fuel))) with (Z.succ (Z.of_nat (S fuel))) in Hn by lia.
        rewrite Z.pow_succ_r in Hn by lia. lia.
Qed.

Lemma digits_of_head (fuel : nat) :
  forall n rest,
    exists d tail, 0 <= d < 10 /\ digits_of (S fuel) n rest = String (digit_char d) tail.
Proof.
  induction fuel as [| fuel IH]; intros n rest.
  - rewrite digits_of_S. exists (n mod 10), rest. split; [apply mod10_range |].
    destruct (n / 10 =? 0); reflexivity.
  - rewrite digits_of_S. destruct (n / 10 =? 0).
    + exists (n mod 10), rest. split; [apply mod10_range | reflexivity].
    + apply IH.
Qed.

Lemma digits_of_all_digits (fuel : nat) :
  forall n rest,
    forall_chars is_digit rest = true ->
    forall_chars is_digit (digits_of fuel n rest) = true.
Proof.
  induction fuel as [| fuel IH]; intros n rest Hrest; [exact Hrest |].
  rewrite digits_of_S.
  assert (Hacc : forall_chars is_digit (String (digit_char (n mod 10)) rest) = true).
  { cbn [forall_chars]. rewrite digit_char_is_digit by apply mod10_range. exact Hrest. }
  destruct (n / 10 =? 0); [exact Hacc | apply IH, Hacc].
Qed.

Lemma fuel_enough (n : Z) : 0 <= n -> n < 10 ^ Z.of_nat (S (Z.to_nat (Z.log2 n))).
Proof.
  intros Hn. pose proof (Z.log2_nonneg n) as Hl.
  replace (Z.of_nat (S (Z.to_nat (Z.log2 n)))) with (Z.succ (Z.log2 n)) by lia.
  destruct (Z.eq_dec n 0) as [-> | Hnz]; [reflexivity |].
  assert (Hlt : n < 2 ^ Z.succ (Z.log2 n)) by (apply Z.log2_spec; lia).
  assert (Hle : 2 ^ Z.succ (Z.log2 n) <= 10 ^ Z.succ (Z.log2 n))
    by (apply Z.pow_le_mono_l; lia).
  lia.
Qed.

(** [int(str(n)) == n]. *)
Lemma int_of_str_of_nonneg (n : Z) : 0 <= n -> int_of_str (str_of_nonneg n) = Some n.
Proof.
  intros Hn. unfold str_of_nonneg.
  pose proof (int_body_digits_of (Z.to_nat (Z.log2 n)) n EmptyString false
                (conj Hn (fuel_enough n Hn))) as Hread.
  destruct (digits_of_head (Z.to_nat (Z.log2 n)) n EmptyString) as (d & tail & Hd & Heq).
  rewrite Heq in *. cbn [int_body] in Hread.
  unfold int_of_str.
  each_digit d Hd; cbn in Hread |- *; exact Hread.
Qed.

Lemma str_of_nonneg_digits (n : Z) : forall_chars is_digit (str_of_nonneg n) = true.
Proof. apply digits_of_all_digits. reflexivity. Qed.

Lemma str_of_int_nonneg (n : Z) : 0 <= n -> str_of_int n = str_of_nonneg n.
Proof. intros Hn. unfold str_of_int. destruct (Z.ltb_spec n 0); [lia | reflexivity]. Qed.

Lemma forall_chars_impl (p q : ascii -> bool) (s : string) :
  (forall c, p c = true -> q c = true) ->
  forall_chars p s = true -> forall_chars q s = true.
Proof.
  intros Hpq. induction s as [| c s IH]; cbn [forall_chars]; [reflexivity |].
  intros H. apply andb_true_iff in H as [Hc Hs].
  rewrite (Hpq c Hc), (IH Hs). reflexivity.
Qed.

Lemma digit_not_dash (c : ascii) : is_digit c = true -> not_char "-" c = true.
Proof.
  unfold is_digit, not_char. intros H.
  destruct (Ascii.eqb_spec c "-") as [-> | ]; [discriminate H | reflexivity].
Qed.

(** A string without separator is its own single segment. *)
Lemma split_no_sep (sep : ascii) (s : string) :
  forall_chars (not_char sep) s = true -> split sep s = [s].
Proof.
  induction s as [| c s IH]; cbn [forall_chars split]; [reflexivity |].
  intros H. apply andb_true_iff in H as [Hc Hs].
  unfold not_char in Hc. apply negb_true_iff in Hc. rewrite Hc, (IH Hs). reflexivity.
Qed.

Lemma split_nonempty (sep : ascii) (s : string) : split sep s <> [].
Proof.
  destruct s as [| c s]; cbn [split]; [discriminate |].
  destruct (Ascii.eqb c sep); [discriminate |].
  destruct (split sep s); discriminate.
Qed.

(** No segment of [split] holds the separator. *)
Lemma split_segments (sep : ascii) (s : string) :
  Forall (fun seg => forall_chars (not_char sep) seg = true) (split sep s).
Proof.
  induction s as [| c s IH]; cbn [split].
  - constructor; [reflexivity | constructor].
  - destruct (Ascii.eqb c sep) eqn:Hc.
    + constructor; [reflexivity | exact IH].
    + destruct (split sep s) as [| seg segs].
      * constructor; [| constructor]. cbn. unfold not_char. rewrite Hc. reflexivity.
      * inversion IH as [| ? ? Hseg Hsegs]; subst.
        constructor; [| exact Hsegs].
        cbn [forall_chars]. unfold not_char at 1. rewrite Hc, Hseg. reflexivity.
Qed.

Lemma int_body_nonneg (s : string) :
  forall acc pd n, 0 <= acc -> int_body s acc pd = Some n -> 0 <= n.
Proof.
  induction s as [| c s IH]; intros acc pd n Hacc; cbn [int_body].
  - destruct pd; [intros [= <-]; exact Hacc | discriminate].
  - unfold digit_val. destruct (is_digit c).
    + apply IH. lia.
    + destruct (Ascii.eqb c "_").
      * destruct pd; [apply IH; exact Hacc | discriminate].
      * destruct (pd && forall_chars is_space (String c s));
          [intros [= <-]; exact Hacc | discriminate].
Qed.

Lemma lstrip_forall (p : ascii -> bool) (s : string) :
  forall_chars p s = true -> forall_chars p (lstrip s) = true.
Proof.
  induction s as [| c s IH]; cbn [lstrip]; [trivial |].
  intros H. destruct (is_space c); [| exact H].
  cbn [forall_chars] in H. apply andb_true_iff in H as [_ Hs]. exact (IH Hs).
Qed.

(** [int(s)] is not negative when [s] holds no minus sign. *)
Lemma int_of_str_nonneg (s : string) (n : Z) :
  forall_chars (not_char "-") s = true -> int_of_str s = Some n -> 0 <= n.
Proof.
  intros Hs. apply lstrip_forall in Hs. unfold int_of_str.
  destruct (lstrip s) as [| c r]; [discriminate |].
  cbn [forall_chars] in Hs. apply andb_true_iff in Hs as [Hc _].
  destruct (Ascii.eqb_spec c "-") as [-> | Hne]; [discriminate Hc |].
  destruct (Ascii.eqb_spec c "+") as [-> | Hnp].
  - apply int_body_nonneg. lia.
  - intros H. apply (int_body_nonneg (String c r) 0 false); [lia |].
    destruct c as [[] [] [] [] [] [] [] []]; try exact H;
      exfalso; (apply Hne; reflexivity) || (apply Hnp; reflexivity).
Qed.

Lemma map_chars_length (f : ascii -> ascii) (s : string) :
  String.length (map_chars f s) = String.length s.
Proof. induction s as [| c s IH]; cbn; [reflexivity | now rewrite IH]. Qed.




End PyStrFacts.

(** ** Key generation *)

Module KeyFacts.
Import PyStr Py Server Spec PyStrFacts.

Lemma startswith_generated (s : string) : startswith ("RBGA-" ++ s) "RBGA-" = true.
Proof. reflexivity. Qed.

Lemma split_generated (s : string) :
  split "-" ("RBGA-" ++ s) = "RBGA" :: split "-" s.
Proof. reflexivity. Qed.

(** The code's reading of a key and the specification's agree. *)
Lemma key_number_suffix (key : string) :
  startswith key "RBGA-" = true ->
  numeric_suffix key = match key_number key with
                       | Ok n => Some n
                       | Raise _ => None
                       end.
Proof.
  intros Hp. unfold numeric_suffix, key_number, list_item, py_int. rewrite Hp.
  destruct (split "-" key) as [| seg0 [| seg segs]]; cbn; try reflexivity.
  destruct (int_of_str seg); reflexivity.
Qed.

Lemma scan_keys_cons (key : string) (keys : list string) (m : Z) :
  scan_keys (key :: keys) m =
  scan_keys keys (match numeric_suffix key with
                  | Some n => Z.max m n
                  | None => m
                  end).
Proof.
  cbn [scan_keys]. unfold numeric_suffix at 1.
  destruct (startswith key "RBGA-") eqn:Hp; [| reflexivity].
  pose proof (key_number_suffix key Hp) as H. unfold numeric_suffix in H.
  rewrite Hp in H. rewrite H. destruct (key_number key); reflexivity.
Qed.

Lemma scan_keys_fold (keys : list string) :
  forall m, scan_keys keys m = fold_left Z.max (numeric_suffixes keys) m.
Proof.
  induction keys as [| key keys IH]; intros m; [reflexivity |].
  rewrite scan_keys_cons, IH. unfold numeric_suffixes. cbn [flat_map].
  rewrite fold_left_app. destruct (numeric_suffix key); reflexivity.
Qed.

Lemma fold_max_ge (ns : list Z) : forall m, m <= fold_left Z.max ns m.
Proof.
  induction ns as [| n ns IH]; intros m; cbn [fold_left]; [lia |].
  specialize (IH (Z.max m n)). lia.
Qed.

Lemma fold_max_upper (ns : list Z) :
  forall m n, In n ns -> n <= fold_left Z.max ns m.
Proof.
  induction ns as [| n0 ns IH]; intros m n Hin; [contradiction |].
  cbn [fold_left]. destruct Hin as [-> | Hin].
  - pose proof (fold_max_ge ns (Z.max m n)). lia.
  - apply IH, Hin.
Qed.

Lemma fold_max_attained (ns : list Z) :
  forall m, fold_left Z.max ns m = m \/ In (fold_left Z.max ns m) ns.
Proof.
  induction ns as [| n ns IH]; intros m; cbn [fold_left]; [left; reflexivity |].
  destruct (IH (Z.max m n)) as [H | H].
  - rewrite H. destruct (Z.max_spec m n) as [[_ ->] | [_ ->]];
      [right; left; reflexivity | left; reflexivity].
  - right; right; exact H.
Qed.

Lemma fold_max_app (ns ns' : list Z) (m : Z) :
  fold_left Z.max (ns ++ ns') m = fold_left Z.max ns' (fold_left Z.max ns m).
Proof. apply fold_left_app. Qed.

Lemma numeric_suffix_nonneg (key : string) (n : Z) :
  numeric_suffix key = Some n -> 0 <= n.
Proof.
  unfold numeric_suffix. destruct (startswith key "RBGA-"); [| discriminate].
  pose proof (split_segments "-" key) as Hsegs.
  destruct (split "-" key) as [| seg0 [| seg segs]]; try discriminate.
  inversion Hsegs as [| ? ? _ Hrest]; subst.
  inversion Hrest as [| ? ? Hseg _]; subst.
  apply int_of_str_nonneg, Hseg.
Qed.

Lemma numeric_suffixes_nonneg (keys : list string) (n : Z) :
  In n (numeric_suffixes keys) -> 0 <= n.
Proof.
  unfold numeric_suffixes. rewrite in_flat_map. intros (key & _ & Hn).
  destruct (numeric_suffix key) as [n' |] eqn:Hk; [| contradiction].
  destruct Hn as [<- | []]. exact (numeric_suffix_nonneg key n' Hk).
Qed.

(** The value the scan ends with is the greatest number among the keys. *)
Lemma scan_keys_greatest (keys : list string) :
  greatest_or_zero (scan_keys keys 0) (numeric_suffixes keys).
Proof.
  rewrite scan_keys_fold. repeat split.
  - intros ->. reflexivity.
  - intros Hne. destruct (fold_max_attained (numeric_suffixes keys) 0) as [H0 | Hin];
      [| exact Hin].
    destruct (numeric_suffixes keys) as [| n ns] eqn:Hns; [contradiction |].
    assert (Hle : n <= fold_left Z.max (n :: ns) 0) by (apply fold_max_upper; left; reflexivity).
    assert (Hn : 0 <= n) by (apply (numeric_suffixes_nonneg keys); rewrite Hns; left; reflexivity).
    rewrite H0 in *. replace n with 0 by lia. left; reflexivity.
  - intros n Hin. apply fold_max_upper, Hin.
Qed.

(** The number of a generated key is the one it was written from. *)
Lemma numeric_suffix_generated (n : Z) :
  0 <= n -> numeric_suffix ("RBGA-" ++ str_of_int n) = Some n.
Proof.
  intros Hn. unfold numeric_suffix.
  rewrite startswith_generated, split_generated, str_of_int_nonneg by exact Hn.
  rewrite split_no_sep.
  - apply int_of_str_of_nonneg, Hn.
  - apply (forall_chars_impl is_digit); [exact digit_not_dash |].
    apply str_of_nonneg_digits.
Qed.

(** A draft key carries no number. *)
Lemma numeric_suffix_draft (token : string) :
  numeric_suffix ("RBGA-DRAFT-" ++ token) = None.
Proof.
  unfold numeric_suffix. cbn.
  destruct (split "-" token); reflexivity.
Qed.

Lemma scan_keys_nonneg (keys : list string) : 0 <= scan_keys keys 0.
Proof. rewrite scan_keys_fold. apply fold_max_ge. Qed.

Lemma scan_keys_app (keys keys' : list string) (m : Z) :
  scan_keys (keys ++ keys') m = scan_keys keys' (scan_keys keys m).
Proof.
  rewrite !scan_keys_fold. unfold numeric_suffixes.
  rewrite flat_map_app. apply fold_left_app.
Qed.

End KeyFacts.

(** ** Reasoning about handlers *)

Module HandlerLogic.
Import PyStr Py Server Spec.

Lemma wp_ret {A} (a : A) Q w : Q (Ok a) w -> wp (ret a) Q w.
Proof. exact (fun H => H). Qed.

Lemma wp_raise {A} (e : Exn) (Q : Result A -> World -> Prop) w :
  Q (Raise e) w -> wp (raise e) Q w.
Proof. exact (fun H => H). Qed.

Lemma wp_liftR {A} (r : Result A) Q w : Q r w -> wp (liftR r) Q w.
Proof. exact (fun H => H). Qed.

Lemma wp_bind {A B} (c : M A) (k : A -> M B) Q w :
  wp c (fun r w' => match r with
                    | Ok a => wp (k a) Q w'
                    | Raise e => Q (Raise e) w'
                    end) w ->
  wp (bind c k) Q w.
Proof. unfold wp, bind. destruct (c w) as [[a | e] w']; exact (fun H => H). Qed.

Lemma wp_try_except {A} (c : M A) (h : Exn -> M A) Q w :
  wp c (fun r w' => match r with
                    | Ok a => Q (Ok a) w'
                    | Raise e => wp (h e) Q w'
                    end) w ->
  wp (try_except c h) Q w.
Proof. unfold wp, try_except. destruct (c w) as [[a | e] w']; exact (fun H => H). Qed.

Lemma wp_conseq {A} (c : M A) (Q Q' : Result A -> World -> Prop) w :
  wp c Q w -> (forall r w', Q r w' -> Q' r w') -> wp c Q' w.
Proof. unfold wp. intros H HQ. apply HQ, H. Qed.

Lemma wp_get_requests_db Q w : Q (Ok (requests_db w)) w -> wp get_requests_db Q w.
Proof. exact (fun H => H). Qed.

Lemma wp_get_attachments_db Q w :
  Q (Ok (attachments_db w)) w -> wp get_attachments_db Q w.
Proof. exact (fun H => H). Qed.

Lemma wp_set_request key r Q w :
  Q (Ok tt) (mkWorld (dict_set key r (requests_db w)) (attachments_db w)
                     (uuid_source w) (uuid_drawn w) (clock w) (clock_read w)) ->
  wp (set_request key r) Q w.
Proof. exact (fun H => H). Qed.

Lemma wp_set_attachment key a Q w :
  Q (Ok tt) (mkWorld (requests_db w) (dict_set key a (attachments_db w))
                     (uuid_source w) (uuid_drawn w) (clock w) (clock_read w)) ->
  wp (set_attachment key a) Q w.
Proof. exact (fun H => H). Qed.

Lemma wp_uuid4 Q w :
  Q (Ok (uuid_source w (uuid_drawn w)))
    (mkWorld (requests_db w) (attachments_db w)
             (uuid_source w) (S (uuid_drawn w)) (clock w) (clock_read w)) ->
  wp uuid4 Q w.
Proof. exact (fun H => H). Qed.

Lemma wp_now_isoformat Q w :
  Q (Ok (clock w (clock_read w)))
    (mkWorld (requests_db w) (attachments_db w)
             (uuid_source w) (uuid_drawn w) (clock w) (S (clock_read w))) ->
  wp now_isoformat Q w.
Proof. exact (fun H => H). Qed.

Lemma wp_generate_request_key Q w :
  Q (Ok (generated_key w)) w -> wp generate_request_key Q w.
Proof. exact (fun H => H). Qed.

Lemma wp_run {A} (c : M A) Q w r w' : wp c Q w -> c w = (r, w') -> Q r w'.
Proof. unfold wp. intros H E. rewrite E in H. exact H. Qed.

Ltac wp_simpl :=
  cbv beta;
  cbn [requests_db attachments_db uuid_source uuid_drawn clock clock_read negb].

(** One step through the code of a handler. *)
Ltac wp_step :=
  lazymatch goal with
  | |- wp (bind _ _) _ _ => apply wp_bind
  | |- wp (try_except _ _) _ _ => apply wp_try_except
  | |- wp (ret _) _ _ => apply wp_ret
  | |- wp (raise _) _ _ => apply wp_raise
  | |- wp (liftR _) _ _ => apply wp_liftR
  | |- wp (internal_error _) _ _ => unfold internal_error; apply wp_ret
  | |- wp get_requests_db _ _ => apply wp_get_requests_db
  | |- wp get_attachments_db _ _ => apply wp_get_attachments_db
  | |- wp (set_request _ _) _ _ => apply wp_set_request
  | |- wp (set_attachment _ _) _ _ => apply wp_set_attachment
  | |- wp uuid4 _ _ => apply wp_uuid4
  | |- wp now_isoformat _ _ => apply wp_now_isoformat
  | |- wp generate_request_key _ _ => apply wp_generate_request_key
  | |- wp (get_json _) _ _ => unfold get_json
  | |- wp (get_json_or_empty _) _ _ => unfold get_json_or_empty
  | |- wp (if ?b then _ else _) _ _ => destruct b eqn:?
  | |- wp (match ?x with _ => _ end) _ _ => destruct x eqn:?
  | |- match Ok _ with Ok _ => _ | Raise _ => _ end => cbv beta iota
  | |- match Raise _ with Ok _ => _ | Raise _ => _ end => cbv beta iota
  | |- match ?r with Ok _ => _ | Raise _ => _ end => destruct r eqn:?
  end; wp_simpl.

Ltac wp_auto := repeat wp_step.

End HandlerLogic.

(** ** What each handler does to the stores *)

Module HandlerFacts.
Import PyStr Py Server Spec KeyFacts HandlerLogic.

Ltac frame_done :=
  split; [split; reflexivity | eexists; reflexivity].

Lemma get_status_frame (request_key : string) (w : World) :
  wp (get_status request_key)
     (fun r w' => same_stores w w' /\ exists resp, r = Ok resp) w.
Proof. unfold get_status. wp_auto; frame_done. Qed.

Lemma get_workitem_detail_frame (request_key : string) (request : FlaskRequest)
    (w : World) :
  wp (get_workitem_detail request_key request)
     (fun r w' => same_stores w w' /\ exists resp, r = Ok resp) w.
Proof. unfold get_workitem_detail. wp_auto; frame_done. Qed.

Lemma get_workitem_attachments_frame (request_key : string)
    (request : FlaskRequest) (w : World) :
  wp (get_workitem_attachments request_key request)
     (fun r w' => same_stores w w' /\ exists resp, r = Ok resp) w.
Proof. unfold get_workitem_attachments. wp_auto; frame_done. Qed.

Lemma get_rbga_template_frame (w : World) :
  wp get_rbga_template
     (fun r w' => same_stores w w' /\ exists resp, r = Ok resp) w.
Proof. unfold get_rbga_template. wp_auto; frame_done. Qed.

Lemma list_requests_frame (request : FlaskRequest) (w : World) :
  wp (list_requests request)
     (fun r w' => same_stores w w' /\ exists resp, r = Ok resp) w.
Proof. unfold list_requests. wp_auto; frame_done. Qed.

Lemma health_check_frame (w : World) :
  wp health_check
     (fun r w' => same_stores w w' /\ exists resp, r = Ok resp) w.
Proof. unfold health_check. wp_auto; frame_done. Qed.

(** The attachment loop writes to [attachments_db] only, and it ends
    normally when every item is a dictionary. *)
Lemma store_attachments_effect (items : list Json) :
  forall i request_key ids w,
    wp (store_attachments i items request_key ids)
       (fun r w' =>
          requests_db w' = requests_db w /\
          (forallb is_dict items = true -> exists ids', r = Ok ids')) w.
Proof.
  induction items as [| item items IH]; intros i request_key ids w.
  - cbn [store_attachments]. wp_auto. split; [reflexivity | eauto].
  - cbn [store_attachments forallb].
    wp_step. wp_step. wp_step. wp_step.
    destruct item; cbn [py_get is_dict andb];
      try (split; [reflexivity | discriminate]).
    wp_step. wp_step. wp_step. wp_step. wp_step. wp_step.
    eapply wp_conseq; [apply IH |].
    cbn [requests_db]. intros r w' H. exact H.
Qed.

(** A draft create writes one record under the draft key, or nothing. *)
Lemma create_draft_request_effect (request : FlaskRequest) (w : World) :
  wp (create_draft_request request)
     (fun r w' =>
        attachments_db w' = attachments_db w /\
        exists body status,
          r = Ok (body, status) /\
          ((status <> 201 /\ requests_db w' = requests_db w) \/
           (status = 201 /\
            exists record, requests_db w' = dict_set (draft_key w) record (requests_db w)))) w.
Proof.
  unfold create_draft_request. wp_auto;
    (split; [reflexivity |]; do 2 eexists; split; [reflexivity |]);
    try (left; split; [discriminate | reflexivity]).
  right. split; [reflexivity |]. eexists. reflexivity.
Qed.

(** A full create writes one record under the generated key, or nothing to
    [requests_db]. *)
Lemma create_request_effect (request : FlaskRequest) (w : World) :
  wp (create_request request)
     (fun r w' =>
        exists body status,
          r = Ok (body, status) /\
          ((status <> 201 /\ requests_db w' = requests_db w) \/
           (status = 201 /\ body = JObj [("key", JStr (generated_key w))] /\
            exists record,
              requests_db w' = dict_set (generated_key w) record (requests_db w)))) w.
Proof.
  unfold create_request. wp_auto;
    try (do 2 eexists; split; [reflexivity |]; left; split; [discriminate | reflexivity]).
  - eapply wp_conseq; [apply store_attachments_effect |].
    cbn [requests_db]. intros r w' [Hdb _].
    destruct r; wp_auto; do 2 eexists; (split; [reflexivity |]).
    + right. split; [reflexivity |]. split; [reflexivity |].
      eexists. rewrite Hdb. reflexivity.
    + left. split; [discriminate | exact Hdb].
  - do 2 eexists. split; [reflexivity |]. right.
    split; [reflexivity |]. split; [reflexivity |]. eexists. reflexivity.
Qed.

End HandlerFacts.

(** ** Dictionaries *)

Module DictFacts.
Import Py.

Section Dict.
Context {V : Type}.

Lemma assoc_dict_set_same (k : string) (v : V) (d : list (string * V)) :
  assoc k (dict_set k v d) = Some v.
Proof.
  induction d as [| [k' v'] d IH]; cbn [dict_set assoc].
  - rewrite String.eqb_refl. reflexivity.
  - destruct (String.eqb k k') eqn:E; cbn [assoc]; rewrite E; [reflexivity | exact IH].
Qed.

Lemma assoc_dict_set_other (k k' : string) (v : V) (d : list (string * V)) :
  k' <> k -> assoc k' (dict_set k v d) = assoc k' d.
Proof.
  intros Hne. induction d as [| [k0 v0] d IH]; cbn [dict_set assoc].
  - destruct (String.eqb_spec k' k); [contradiction | reflexivity].
  - destruct (String.eqb_spec k k0) as [-> | Hk]; cbn [assoc].
    + destruct (String.eqb_spec k' k0); [contradiction | reflexivity].
    + rewrite IH. reflexivity.
Qed.

Lemma has_key_in (k : string) (d : list (string * V)) :
  has_key k d = true <-> In k (map fst d).
Proof.
  unfold has_key. induction d as [| [k' v'] d IH]; cbn [assoc map fst In].
  - split; [discriminate | contradiction].
  - destruct (String.eqb_spec k k') as [-> | Hne].
    + split; [left; reflexivity | reflexivity].
    + rewrite IH. split; [right; assumption | intros [H | H]; [congruence | exact H]].
Qed.

Lemma assoc_none_not_in (k : string) (d : list (string * V)) :
  assoc k d = None <-> ~ In k (map fst d).
Proof.
  rewrite <- has_key_in. unfold has_key.
  destruct (assoc k d); split; congruence.
Qed.

(** Writing a key keeps the order of the keys; a new key comes last. *)
Lemma keys_dict_set (k : string) (v : V) (d : list (string * V)) :
  map fst (dict_set k v d) =
  if has_key k d then map fst d else (map fst d ++ [k])%list.
Proof.
  unfold has_key. induction d as [| [k' v'] d IH]; cbn [dict_set assoc map fst app];
    [reflexivity |].
  destruct (String.eqb k k') eqn:E; cbn [map fst]; [reflexivity |].
  rewrite IH. destruct (assoc k d); reflexivity.
Qed.

Lemma dict_set_keeps_others (k k' : string) (v v' : V) (d : list (string * V)) :
  assoc k d = None -> assoc k' d = Some v' -> assoc k' (dict_set k v d) = Some v'.
Proof.
  intros Hk Hk'. rewrite assoc_dict_set_other; [exact Hk' | congruence].
Qed.
End Dict.

End DictFacts.

(** ** Claims on key generation *)

Module KeyClaims.
Import PyStr Py Server Spec PyStrFacts KeyFacts HandlerLogic HandlerFacts DictFacts.

(** The greatest number among the keys of the store. *)
Lemma generated_key_unfold (w : World) :
  generated_key w = "RBGA-" ++ str_of_int (scan_keys (store_keys w) 0 + 1).
Proof. reflexivity. Qed.

Lemma scan_keys_member (keys : list string) (key : string) (n : Z) :
  In key keys -> numeric_suffix key = Some n -> n <= scan_keys keys 0.
Proof.
  intros Hin Hn. rewrite scan_keys_fold. apply fold_max_upper.
  unfold numeric_suffixes. apply in_flat_map. exists key.
  rewrite Hn. split; [exact Hin | left; reflexivity].
Qed.

Lemma scan_keys_snoc (keys : list string) (key : string) :
  scan_keys (keys ++ [key]) 0 =
  match numeric_suffix key with
  | Some n => Z.max (scan_keys keys 0) n
  | None => scan_keys keys 0
  end.
Proof. rewrite scan_keys_app, scan_keys_cons. reflexivity. Qed.

(** The scan after [requests_db[key] = record]. *)
Lemma scan_keys_dict_set (key : string) (record : Request)
    (db : list (string * Request)) :
  scan_keys (map fst (dict_set key record db)) 0 =
  match numeric_suffix key with
  | Some n => Z.max (scan_keys (map fst db) 0) n
  | None => scan_keys (map fst db) 0
  end.
Proof.
  rewrite keys_dict_set. destruct (has_key key db) eqn:Hk.
  - apply has_key_in in Hk.
    destruct (numeric_suffix key) as [n |] eqn:Hn; [| reflexivity].
    pose proof (scan_keys_member _ _ _ Hk Hn). lia.
  - apply scan_keys_snoc.
Qed.

Lemma generated_key_suffix (w : World) :
  numeric_suffix (generated_key w) = Some (scan_keys (store_keys w) 0 + 1).
Proof.
  apply numeric_suffix_generated. pose proof (scan_keys_nonneg (store_keys w)). lia.
Qed.

(** The generated key is not a key of the store. *)
Lemma generated_key_fresh (w : World) : assoc (generated_key w) (requests_db w) = None.
Proof.
  apply assoc_none_not_in. intros Hin.
  pose proof (scan_keys_member _ _ _ Hin (generated_key_suffix w)) as H.
  unfold store_keys in H. lia.
Qed.

(** One call: a successful full create answers with the generated key and
    raises the scan by one; any other outcome leaves the scan as it was. *)
Lemma dispatch_scan (c : Call) (w : World) :
  match created_key (c, fst (dispatch c w)) with
  | Some key =>
      key = generated_key w /\
      scan_keys (store_keys (snd (dispatch c w))) 0 = scan_keys (store_keys w) 0 + 1
  | None =>
      full_create_succeeded (c, fst (dispatch c w)) = false /\
      scan_keys (store_keys (snd (dispatch c w))) 0 = scan_keys (store_keys w) 0
  end.
Proof.
  destruct c as [request | request | key | key request | key request | | request |];
    cbn [dispatch].
  - pose proof (create_request_effect request w) as H. unfold wp in H.
    destruct H as (body & status & Hr & [[Hst Hdb] | (Hst & Hbody & record & Hdb)]);
      rewrite Hr.
    + assert (Hnone : created_key (PutCreateRequest request, Ok (body, status)) = None
                      /\ full_create_succeeded (PutCreateRequest request, Ok (body, status)) = false).
      { cbn. destruct body; try (split; reflexivity);
          destruct status as [| p | p]; try (split; reflexivity);
          repeat (destruct p as [p | p |]; try (split; reflexivity)); contradiction. }
      unfold Response in *. destruct Hnone as [-> ->]. split; [reflexivity |].
      unfold store_keys. rewrite Hdb. reflexivity.
    + subst status body. cbn [created_key assoc String.eqb Ascii.eqb Bool.eqb].
      cbn. split; [reflexivity |].
      unfold store_keys. rewrite Hdb, scan_keys_dict_set.
      pose proof (generated_key_suffix w) as Hs. unfold store_keys in Hs. rewrite Hs. lia.
  - pose proof (create_draft_request_effect request w) as H. unfold wp in H.
    destruct H as (_ & body & status & Hr & [[Hst Hdb] | (Hst & record & Hdb)]);
      rewrite Hr; cbn [created_key full_create_succeeded]; (split; [reflexivity |]);
      unfold store_keys; rewrite Hdb; [reflexivity |].
    rewrite scan_keys_dict_set. unfold draft_key. rewrite numeric_suffix_draft. reflexivity.
  - pose proof (get_status_frame key w) as [[Hdb _] [resp Hr]].
    cbn beta in Hr. rewrite Hr. cbn [created_key full_create_succeeded].
    split; [reflexivity |]. unfold store_keys. rewrite Hdb. reflexivity.
  - pose proof (get_workitem_detail_frame key request w) as [[Hdb _] [resp Hr]].
    cbn beta in Hr. rewrite Hr. cbn [created_key full_create_succeeded].
    split; [reflexivity |]. unfold store_keys. rewrite Hdb. reflexivity.
  - pose proof (get_workitem_attachments_frame key request w) as [[Hdb _] [resp Hr]].
    cbn beta in Hr. rewrite Hr. cbn [created_key full_create_succeeded].
    split; [reflexivity |]. unfold store_keys. rewrite Hdb. reflexivity.
  - pose proof (get_rbga_template_frame w) as [[Hdb _] [resp Hr]].
    cbn beta in Hr. rewrite Hr. cbn [created_key full_create_succeeded].
    split; [reflexivity |]. unfold store_keys. rewrite Hdb. reflexivity.
  - pose proof (list_requests_frame request w) as [[Hdb _] [resp Hr]].
    cbn beta in Hr. rewrite Hr. cbn [created_key full_create_succeeded].
    split; [reflexivity |]. unfold store_keys. rewrite Hdb. reflexivity.
  - pose proof (health_check_frame w) as [[Hdb _] [resp Hr]].
    cbn beta in Hr. rewrite Hr. cbn [created_key full_create_succeeded].
    split; [reflexivity |]. unfold store_keys. rewrite Hdb. reflexivity.
Qed.

Lemma sorted_lt_NoDup (ns : list Z) : StronglySorted Z.lt ns -> NoDup ns.
Proof.
  induction 1 as [| n ns _ IH Hall]; constructor; [| exact IH].
  intros Hin. rewrite Forall_forall in Hall. specialize (Hall n Hin). lia.
Qed.

Lemma NoDup_of_suffixes (keys : list string) (ns : list Z) :
  map numeric_suffix keys = map Some ns -> NoDup ns -> NoDup keys.
Proof.
  intros Hmap Hns. apply (NoDup_map_inv numeric_suffix). rewrite Hmap.
  apply Injective_map_NoDup; [| exact Hns].
  intros x y [= ->]. reflexivity.
Qed.

(** The keys that the successful full creates of a sequence of calls
    receive carry strictly increasing numbers, all above the scan of the
    world the sequence starts from. *)
Lemma serve_all_created_keys (calls : list Call) :
  forall w,
    length (created_keys (fst (serve_all calls w))) =
    length (filter full_create_succeeded (fst (serve_all calls w))) /\
    exists ns,
      map numeric_suffix (created_keys (fst (serve_all calls w))) = map Some ns /\
      StronglySorted Z.lt ns /\
      Forall (fun n => scan_keys (store_keys w) 0 < n) ns.
Proof.
  induction calls as [| c calls IH]; intros w.
  - cbn. split; [reflexivity |]. exists []. repeat split; constructor.
  - cbn [serve_all]. pose proof (dispatch_scan c w) as Hc.
    destruct (dispatch c w) as [r w1]. cbn [fst snd] in Hc.
    specialize (IH w1). destruct (serve_all calls w1) as [outcomes w2].
    cbn [fst] in IH |- *. destruct IH as (Hlen & ns & Hmap & Hsorted & Habove).
    unfold created_keys in *. cbn [flat_map filter].
    destruct (created_key (c, r)) as [key |] eqn:Hkey.
    + destruct Hc as [-> Hscan].
      assert (Hfull : full_create_succeeded (c, r) = true).
      { destruct c; try discriminate Hkey. cbn in Hkey |- *.
        destruct r as [[body status] |]; [| discriminate Hkey].
        destruct body; try discriminate Hkey.
        destruct status as [| p |]; try discriminate Hkey.
        repeat (destruct p as [p | p |]; try discriminate Hkey). reflexivity. }
      rewrite Hfull. cbn [app length]. split; [f_equal; exact Hlen |].
      exists ((scan_keys (store_keys w) 0 + 1) :: ns). cbn [app map].
      rewrite generated_key_suffix, Hmap. split; [reflexivity |]. split.
      * constructor; [exact Hsorted |].
        eapply Forall_impl; [| exact Habove]. cbn beta. intros n Hn. lia.
      * constructor; [lia |].
        eapply Forall_impl; [| exact Habove]. cbn beta. intros n Hn. lia.
    + destruct Hc as [Hfull Hscan]. rewrite Hfull. cbn [app].
      split; [exact Hlen |]. exists ns. rewrite <- Hscan. auto.
Qed.

(** C1.  For every store, [generate_request_key] returns "RBGA-" followed by
    one plus the greatest number among the keys that start with "RBGA-" and
    have a numeric second segment, and "RBGA-1" when there is no such key.
    Consequently, in every sequence of calls served from any store, the keys
    returned by the successful full creates are pairwise distinct and their
    numbers strictly increase in the order of creation. *)
Theorem C1_key_generation (w : World) :
  (exists m,
      generate_request_key w = (Ok ("RBGA-" ++ str_of_int (m + 1)), w) /\
      greatest_or_zero m (numeric_suffixes (store_keys w))) /\
  (numeric_suffixes (store_keys w) = [] ->
   generate_request_key w = (Ok "RBGA-1", w)) /\
  (forall calls,
      let outcomes := fst (serve_all calls w) in
      let keys := created_keys outcomes in
      length keys = length (filter full_create_succeeded outcomes) /\
      NoDup keys /\
      exists ns,
        map numeric_suffix keys = map Some ns /\ StronglySorted Z.lt ns).
Proof.
  split; [| split].
  - exists (scan_keys (store_keys w) 0). split; [reflexivity |].
    apply scan_keys_greatest.
  - intros Hnone.
    destruct (scan_keys_greatest (store_keys w)) as [Hzero _].
    change (generate_request_key w) with (@Ok string (generated_key w), w).
    rewrite generated_key_unfold, (Hzero Hnone). reflexivity.
  - intros calls outcomes keys.
    destruct (serve_all_created_keys calls w) as (Hlen & ns & Hmap & Hsorted & _).
    split; [exact Hlen |]. split.
    + exact (NoDup_of_suffixes _ _ Hmap (sorted_lt_NoDup _ Hsorted)).
    + exists ns. split; assumption.
Qed.

Lemma scan_keys_skip (keys keys' : list string) (key : string) (m : Z) :
  numeric_suffix key = None ->
  scan_keys (keys ++ key :: keys') m = scan_keys (keys ++ keys') m.
Proof.
  intros Hnone. rewrite !scan_keys_app, scan_keys_cons, Hnone. reflexivity.
Qed.

Lemma key_number_raise_suffix (key : string) (e : Exn) :
  key_number key = Raise e -> numeric_suffix key = None.
Proof.
  intros He. unfold numeric_suffix at 1.
  destruct (startswith key "RBGA-") eqn:Hp; [| reflexivity].
  pose proof (key_number_suffix key Hp) as H. unfold numeric_suffix in H.
  rewrite Hp, He in H. exact H.
Qed.

Lemma draft_creates_keep_scan (drafts : list FlaskRequest) :
  forall w,
    scan_keys (store_keys (snd (serve_all (map PutCreateDraftRequest drafts) w))) 0 =
    scan_keys (store_keys w) 0.
Proof.
  induction drafts as [| request drafts IH]; intros w; [reflexivity |].
  cbn [map serve_all].
  pose proof (dispatch_scan (PutCreateDraftRequest request) w) as Hc.
  destruct (dispatch (PutCreateDraftRequest request) w) as [r w1].
  cbn [fst snd created_key] in Hc. destruct Hc as [_ Hscan].
  specialize (IH w1).
  destruct (serve_all (map PutCreateDraftRequest drafts) w1) as [outcomes w2].
  cbn [snd] in IH |- *. rewrite IH. exact Hscan.
Qed.

(** C10.  [generate_request_key] returns a key for every content of the
    store: a key whose second segment does not read as a number, a draft key
    among them, is passed over.  Hence any number of draft creates leaves
    the key of the next full create as it was. *)
Theorem C10_generate_request_key_total (w : World) :
  (exists key, generate_request_key w = (Ok key, w)) /\
  (forall keys keys' key m e,
      key_number key = Raise e ->
      scan_keys (keys ++ key :: keys') m = scan_keys (keys ++ keys') m) /\
  (forall token, exists e, key_number ("RBGA-DRAFT-" ++ token) = Raise e) /\
  (forall drafts,
      fst (generate_request_key
             (snd (serve_all (map PutCreateDraftRequest drafts) w))) =
      fst (generate_request_key w)).
Proof.
  repeat split.
  - eexists. reflexivity.
  - intros keys keys' key m e He. apply scan_keys_skip.
    exact (key_number_raise_suffix key e He).
  - intros token. pose proof (numeric_suffix_draft token) as Hnone.
    rewrite key_number_suffix in Hnone by reflexivity.
    destruct (key_number ("RBGA-DRAFT-" ++ token)) as [n | e]; [discriminate | eauto].
  - intros drafts.
    change (fst (generate_request_key w)) with (@Ok string (generated_key w)).
    change (fst (generate_request_key ?x)) with (@Ok string (generated_key x)).
    rewrite !generated_key_unfold, draft_creates_keep_scan. reflexivity.
Qed.

End KeyClaims.

(** ** Status lookup *)

Module StatusClaims.
Import PyStr Py Server Spec.


End StatusClaims.

(** ** The client *)

Module ClientClaims.
Import PyStr Py Client Spec PyStrFacts.




(** Each method sends exactly one call, whatever the network answers. *)
Lemma perform_sends_one (self : WorkOnAPI) (c : ClientCall) (net : Network) :
  exists call, snd (perform self c net) = [call] /\ timeout call = None
               /\ headers call = session_headers self.
Proof.
  destruct c; cbn [perform];
    unfold create_rbga_request, create_draft_rbga_request, get_request_status,
      get_workitem_detail, get_attachments, bind, session_request, send, finish, liftR;
    match goal with
    | |- context [net ?call] =>
        exists call; destruct (net call) as [response | e]; cbn; auto
    end.
Qed.








(** A third positional argument is one too many. *)
Lemma new_WorkOnAPI_three (a b c : Json) (rest : list Json) :
  exists msg, new_WorkOnAPI (a :: b :: c :: rest) [] = Raise (TypeError msg).
Proof. eexists. reflexivity. Qed.

(** C4.  [WorkOnAPI.__init__] takes [base_url] and [key_id] only: the call
    that [get_api_client] makes with a third argument, and the call with
    [timeout=60], raise [TypeError], so no configuration yields a client;
    and no call that a client sends carries a timeout. *)
Theorem C4_no_timeout_option :
  (forall config api, get_api_client config <> Ok api) /\
  (exists msg, get_api_client default_config = Raise (TypeError msg)) /\
  (exists msg,
      new_WorkOnAPI [JStr "https://api.example.com"; JStr "test-key"]
                    [("timeout", JInt 60)] = Raise (TypeError msg)) /\
  (forall self c net call,
      In call (snd (perform self c net)) -> timeout call = None).
Proof.
  split; [| split; [| split]].
  - intros config api. unfold get_api_client, bindR.
    destruct (config_get config "endpoint"); [| discriminate].
    destruct (config_get config "key_id"); [| discriminate].
    destruct (config_get config "timeout"); [| discriminate].
    destruct (py_int a1); discriminate.
  - eexists. reflexivity.
  - eexists. reflexivity.
  - intros self c net call Hin.
    destruct (perform_sends_one self c net) as (call' & Hsent & Hto & _).
    rewrite Hsent in Hin. destruct Hin as [<- | []]. exact Hto.
Qed.

End ClientClaims.

(** ** Draft creation *)

Module DraftClaims.
Import PyStr Py Server Spec HandlerLogic DictFacts.

Lemma first_missing_dict (names : list string) (fields : list (string * Json)) :
  first_missing names (JObj fields) = Ok (first_absent names fields).
Proof.
  induction names as [| name names IH]; [reflexivity |].
  cbn [first_missing py_in bindR first_absent find].
  destruct (has_key name fields); [exact IH | reflexivity].
Qed.

Lemma first_absent_none (names : list string) (fields : list (string * Json)) :
  first_absent names fields = None ->
  forall name, In name names -> exists v, assoc name fields = Some v.
Proof.
  unfold first_absent. intros Hnone name Hin.
  pose proof (find_none _ _ Hnone name Hin) as H. cbn beta in H.
  unfold has_key in H. destruct (assoc name fields) as [v |]; [eauto | discriminate].
Qed.

Lemma py_eq_str (v : Json) (s : string) : py_eq v (JStr s) = true <-> v = JStr s.
Proof.
  destruct v; cbn; try (split; discriminate).
  rewrite String.eqb_eq. split; [intros -> | intros [= ->]]; reflexivity.
Qed.

Lemma wp_eq {A} (c : M A) (x : Result A * World) (w : World) :
  wp c (fun r w' => (r, w') = x) w -> c w = x.
Proof. unfold wp. destruct (c w). exact (fun H => H). Qed.

Lemma hex_char_upper (d : N) : is_upper_hex (upper_char (hex_char d)) = true.
Proof.
  unfold hex_char. generalize (N.to_nat d). intros n.
  do 16 (destruct n as [| n]; [reflexivity |]). reflexivity.
Qed.

Lemma hex_digits_shape (k : nat) :
  forall n acc,
    String.length (hex_digits k n acc) = (k + String.length acc)%nat /\
    (forall_chars (fun c => is_upper_hex (upper_char c)) acc = true ->
     forall_chars (fun c => is_upper_hex (upper_char c)) (hex_digits k n acc) = true).
Proof.
  induction k as [| k IH]; intros n acc; cbn [hex_digits]; [auto |].
  destruct (IH (n / 16)%N (String (hex_char (n mod 16)%N) acc)) as [Hlen Hall].
  split.
  - rewrite Hlen. cbn [String.length]. lia.
  - intros Hacc. apply Hall. cbn [forall_chars]. rewrite hex_char_upper. exact Hacc.
Qed.

Lemma take_length (n : nat) :
  forall s, (n <= String.length s)%nat -> String.length (take n s) = n.
Proof.
  induction n as [| n IH]; intros s Hle; [reflexivity |].
  destruct s as [| c s]; cbn [String.length] in *; [lia |].
  cbn [take String.length]. rewrite IH by lia. reflexivity.
Qed.

Lemma take_forall (p : ascii -> bool) (n : nat) :
  forall s, forall_chars p s = true -> forall_chars p (take n s) = true.
Proof.
  induction n as [| n IH]; intros s Hs; [reflexivity |].
  destruct s as [| c s]; [reflexivity |].
  cbn [take forall_chars] in *. apply andb_true_iff in Hs as [Hc Hs].
  rewrite Hc, (IH s Hs). reflexivity.
Qed.

Lemma substring_take (n : nat) : forall s, String.substring 0 n s = take n s.
Proof.
  induction n as [| n IH]; intros s; destruct s as [| c s]; cbn; try reflexivity.
  rewrite IH. reflexivity.
Qed.

Lemma take_append (n : nat) :
  forall s t, (n <= String.length s)%nat -> take n (s ++ t) = take n s.
Proof.
  induction n as [| n IH]; intros s t Hle; [reflexivity |].
  destruct s as [| c s]; cbn [String.length] in Hle; [lia |].
  cbn [append take]. rewrite IH by lia. reflexivity.
Qed.

Lemma take_take (n : nat) : forall s, take n (take n s) = take n s.
Proof.
  induction n as [| n IH]; intros s; [reflexivity |].
  destruct s as [| c s]; [reflexivity |]. cbn [take]. rewrite IH. reflexivity.
Qed.

Lemma upper_forall (s : string) :
  forall_chars (fun c => is_upper_hex (upper_char c)) s = true ->
  forall_chars is_upper_hex (upper s) = true.
Proof.
  unfold upper. induction s as [| c s IH]; [reflexivity |].
  cbn [forall_chars map_chars]. intros H. apply andb_true_iff in H as [Hc Hs].
  rewrite Hc, (IH Hs). reflexivity.
Qed.

(** The token of a draft key: eight characters among [0-9A-F]. *)
Lemma draft_token_shape (w : World) :
  String.length (draft_token w) = 8%nat /\
  forall_chars is_upper_hex (draft_token w) = true.
Proof.
  unfold draft_token, str_uuid.
  set (hex := hex_digits 32 (uuid_source w (uuid_drawn w)) EmptyString).
  destruct (hex_digits_shape 32 (uuid_source w (uuid_drawn w)) EmptyString)
    as [Hlen Hall].
  fold hex in Hlen, Hall. cbn [String.length Nat.add] in Hlen.
  specialize (Hall eq_refl).
  assert (Htake : take 8 (String.substring 0 8 hex ++ "-" ++
                          String.substring 8 4 hex ++ "-" ++
                          String.substring 12 4 hex ++ "-" ++
                          String.substring 16 4 hex ++ "-" ++
                          String.substring 20 12 hex) = take 8 hex).
  { rewrite substring_take, take_append, take_take; [reflexivity |].
    rewrite take_length; lia. }
  rewrite Htake. split.
  - unfold upper. rewrite PyStrFacts.map_chars_length. apply take_length. lia.
  - apply upper_forall, take_forall, Hall.
Qed.

Lemma has_key_dict_set_other {V} (k k' : string) (v : V) (d : list (string * V)) :
  k' <> k -> has_key k' (dict_set k v d) = has_key k' d.
Proof. intros H. unfold has_key. rewrite assoc_dict_set_other by exact H. reflexivity. Qed.

(** What a draft create does with a payload that is a JSON object. *)
Lemma create_draft_request_run (fields : list (string * Json))
    (query : list (string * string)) (w : World) :
  create_draft_request (mkFlaskRequest (Some (JObj fields)) query) w =
  match draft_refusal fields with
  | Some reason => (Ok (error_body reason, 400), w)
  | None =>
      (Ok (JObj [("success", JBool true);
                 ("message", JStr "RBGA draft request created successfully");
                 ("key", JStr (draft_key w));
                 ("status", JStr "Draft");
                 ("created_at", JStr (clock w (clock_read w)))], 201),
       mkWorld (dict_set (draft_key w) (draft_record fields w) (requests_db w))
               (attachments_db w) (uuid_source w) (S (uuid_drawn w))
               (clock w) (S (S (clock_read w))))
  end.
Proof.
  destruct fields as [| field fields']; [reflexivity |].
  set (fields := field :: fields').
  unfold draft_refusal. fold fields.
  unfold create_draft_request, try_except, bind, get_json, liftR, ret.
  cbn [json_body truthy negb]. fold fields.
  rewrite first_missing_dict.
  destruct (first_absent ["summary"; "pkey"; "applicant"] fields) as [name |] eqn:Habs;
    [reflexivity |].
  pose proof (first_absent_none _ _ Habs) as Hhas.
  destruct (Hhas "summary") as [vs Hs]; [cbn; auto |].
  destruct (Hhas "pkey") as [vp Hp]; [cbn; auto |].
  destruct (Hhas "applicant") as [va Ha]; [cbn; auto |].
  cbn [py_get]. rewrite Hp.
  destruct (py_eq vp (JStr "RBGA")); cbn [negb]; [| reflexivity].
  unfold uuid4, now_isoformat, set_request, draft_record, field_or, draft_key, draft_token.
  cbn [py_getitem]. rewrite Hs, Hp, Ha. reflexivity.
Qed.

Lemma draft_refusal_data (fields : list (string * Json)) (data : Json) :
  fields <> [] ->
  draft_refusal (dict_set "data" data fields) = draft_refusal fields.
Proof.
  intros Hne. unfold draft_refusal, first_absent.
  destruct fields as [| field fields']; [contradiction |].
  set (fields := field :: fields').
  remember (dict_set "data" data fields) as d eqn:E.
  destruct d as [| f fs].
  { subst fields. destruct field as [k v]. cbn [dict_set] in E.
    destruct (String.eqb "data" k); discriminate E. }
  rewrite E. cbn [find].
  rewrite !has_key_dict_set_other by discriminate.
  rewrite assoc_dict_set_other by discriminate. reflexivity.
Qed.

Lemma py_get_not_dict (payload : Json) (name : string) (default v : Json) :
  is_dict payload = false -> py_get payload name default <> Ok v.
Proof. destruct payload; cbn; try discriminate. Qed.

(** A draft create of a body that is JSON but no object: nothing is
    written, and the answer is 400 or 500. *)
Lemma create_draft_request_other (payload : Json) (query : list (string * string))
    (w : World) :
  is_dict payload = false ->
  wp (create_draft_request (mkFlaskRequest (Some payload) query))
     (fun r w' =>
        w' = w /\
        exists body status,
          r = Ok (body, status) /\
          (status = 400 \/ status = 500) /\
          (truthy payload = false ->
           body = error_body "Request body is required" /\ status = 400)) w.
Proof.
  intros Hp. unfold create_draft_request. wp_auto; cbn [json_body] in *;
    try match goal with H : Some _ = None |- _ => discriminate H end;
    repeat match goal with H : Some _ = Some _ |- _ => injection H as <- end;
    try (exfalso;
         match goal with
         | H : py_get _ "pkey" _ = Ok _ |- _ => exact (py_get_not_dict _ _ _ _ Hp H)
         end);
    (split; [reflexivity |]); do 2 eexists; (split; [reflexivity |]);
    (split; [auto |]); intros Hfalsy;
    first [ split; reflexivity
          | match goal with
            | H : negb (truthy _) = false |- _ => rewrite Hfalsy in H; discriminate H
            end ].
Qed.

Lemma create_draft_request_not_dict (payload : Json) (query : list (string * string))
    (w : World) :
  is_dict payload = false ->
  wp (create_draft_request (mkFlaskRequest (Some payload) query))
     (fun r _ => forall body, r <> Ok (body, 201)) w.
Proof.
  intros Hp. eapply wp_conseq; [apply (create_draft_request_other _ _ _ Hp) |].
  intros r w' (_ & body & status & -> & [-> | ->] & _) body'; discriminate.
Qed.

(** C3, as the code has it.  A draft payload that is a JSON object is
    refused, with 400 and a reason that names the problem, when it is
    empty, lacks one of [summary], [pkey], [applicant], or has a [pkey]
    other than "RBGA"; nothing else is checked, [data] least of all.  Any
    other object, the one holding just the three fields among them, is
    answered 201 with [success], [message], [key], [status] "Draft" and
    [created_at], the key being "RBGA-DRAFT-" and eight characters among
    0-9 and A-F, and its record is stored under that key.  A body that is
    JSON but no object is never answered 201 and nothing is written for
    it: the answer is 400 "Request body is required" when the body is
    falsy, and 400 or 500 otherwise. *)
Theorem C3_draft_create (fields : list (string * Json))
    (query : list (string * string)) (w : World) :
  create_draft_request (mkFlaskRequest (Some (JObj fields)) query) w =
    match draft_refusal fields with
    | Some reason => (Ok (error_body reason, 400), w)
    | None =>
        (Ok (JObj [("success", JBool true);
                   ("message", JStr "RBGA draft request created successfully");
                   ("key", JStr (draft_key w));
                   ("status", JStr "Draft");
                   ("created_at", JStr (clock w (clock_read w)))], 201),
         mkWorld (dict_set (draft_key w) (draft_record fields w) (requests_db w))
                 (attachments_db w) (uuid_source w) (S (uuid_drawn w))
                 (clock w) (S (S (clock_read w))))
    end /\
  (draft_key w = "RBGA-DRAFT-" ++ draft_token w /\
   String.length (draft_token w) = 8%nat /\
   forall_chars is_upper_hex (draft_token w) = true) /\
  (forall summary applicant,
      draft_refusal [("summary", summary); ("pkey", JStr "RBGA");
                     ("applicant", applicant)] = None) /\
  (forall name,
      In name ["summary"; "pkey"; "applicant"] -> assoc name fields = None ->
      draft_refusal fields = Some "Request body is required" \/
      exists name', In name' ["summary"; "pkey"; "applicant"] /\
                    assoc name' fields = None /\
                    draft_refusal fields = Some ("Missing required field: " ++ name')) /\
  (first_absent ["summary"; "pkey"; "applicant"] fields = None ->
   assoc "pkey" fields <> Some (JStr "RBGA") ->
   draft_refusal fields = Some "pkey must be 'RBGA'") /\
  (forall data,
      fields <> [] ->
      draft_refusal (dict_set "data" data fields) = draft_refusal fields) /\
  (forall payload,
      is_dict payload = false ->
      exists body status,
        create_draft_request (mkFlaskRequest (Some payload) query) w =
          (Ok (body, status), w) /\
        (status = 400 \/ status = 500) /\
        (truthy payload = false ->
         body = error_body "Request body is required" /\ status = 400)).
Proof.
  split; [apply create_draft_request_run |].
  split; [split; [reflexivity | apply draft_token_shape] |].
  split; [reflexivity |].
  split; [| split; [| split]].
  - intros name Hin Hnone. unfold draft_refusal.
    destruct fields as [| field fields']; [left; reflexivity | right].
    set (fs := field :: fields') in *.
    destruct (first_absent ["summary"; "pkey"; "applicant"] fs) as [name' |] eqn:Habs.
    + unfold first_absent in Habs. apply find_some in Habs as [Hin' Hk].
      exists name'. split; [exact Hin' |]. split; [| reflexivity].
      unfold has_key in Hk. destruct (assoc name' fs); [discriminate | reflexivity].
    + destruct (first_absent_none _ _ Habs name Hin) as [v Hv]. congruence.
  - intros Habs Hpkey. unfold draft_refusal.
    destruct fields as [| field fields']; [discriminate Habs |].
    set (fs := field :: fields') in *. rewrite Habs.
    destruct (first_absent_none _ _ Habs "pkey") as [v Hv]; [cbn; auto |].
    rewrite Hv. destruct (py_eq v (JStr "RBGA")) eqn:Heq; [| reflexivity].
    apply py_eq_str in Heq. congruence.
  - intros data Hne. apply draft_refusal_data, Hne.
  - intros payload Hp.
    pose proof (create_draft_request_other payload query w Hp) as H. unfold wp in H.
    destruct (create_draft_request (mkFlaskRequest (Some payload) query) w)
      as [r w'].
    cbn [fst snd] in H. destruct H as (-> & body & status & -> & Hstatus & Hfalsy).
    exists body, status. split; [reflexivity | split; [exact Hstatus | exact Hfalsy]].
Qed.

(** Bodies that are JSON but no object.  The number 5 and the value
    [true] hold none of the three fields, and a list and a string that
    name the three fields hold none either: none of them is answered 400
    with the field that is missing, and none 201; the handler raises on
    each and answers 500. *)
Lemma C3_non_object_counterexample :
  fst (create_draft_request (request_of (JInt 5)) empty_world) =
    Ok (error_body "Internal server error: argument of type 'int' is not iterable",
        500) /\
  fst (create_draft_request (request_of (JBool true)) empty_world) =
    Ok (error_body "Internal server error: argument of type 'bool' is not iterable",
        500) /\
  fst (create_draft_request
         (request_of (JList [JStr "summary"; JStr "pkey"; JStr "applicant"]))
         empty_world) =
    Ok (error_body "Internal server error: 'list' object has no attribute 'get'",
        500) /\
  fst (create_draft_request (request_of (JStr "summary, pkey, applicant"))
         empty_world) =
    Ok (error_body "Internal server error: 'str' object has no attribute 'get'",
        500).
Proof. repeat split. Qed.

End DraftClaims.

(** ** Attachment retrieval *)

Module AttachmentClaims.
Import PyStr Py Server Spec HandlerLogic DictFacts DraftClaims.

Example world_with_draft_keys : store_keys world_with_draft = ["RBGA-DRAFT-00000001"].
Proof. reflexivity. Qed.

Example world_with_request_keys :
  store_keys world_with_request = ["RBGA-1"] /\
  map fst (attachments_db world_with_request) = ["00000001-0000-0000-0000-000000000000"].
Proof. split; reflexivity. Qed.




End AttachmentClaims.

(** ** Detail retrieval *)

Module DetailClaims.
Import PyStr Py Server Spec HandlerLogic DictFacts DraftClaims.

Lemma setitem_string_keyed (name : string) (v : Json) (d : list (string * Json)) :
  setitem_any (JStr name) v (string_keyed d) = string_keyed (dict_set name v d).
Proof.
  unfold string_keyed. induction d as [| [k v'] d IH]; [reflexivity |].
  cbn [map fst snd setitem_any dict_set py_eq].
  destruct (String.eqb name k); cbn [map fst snd]; [reflexivity |].
  rewrite IH. reflexivity.
Qed.

Lemma jsonify_string_keyed (d : list (string * Json)) :
  jsonify_dict (string_keyed d) = JObj d.
Proof.
  unfold jsonify_dict, string_keyed. f_equal.
  induction d as [| [k v] d IH]; [reflexivity |]. cbn [map fst snd json_key].
  rewrite IH. reflexivity.
Qed.

(** The loop over a list of field names, on stored data that is an object. *)
Lemma collect_custom_names (names : list string) (data : list (string * Json)) :
  forall selected,
    collect_custom (map JStr names) (JObj data) (string_keyed selected) =
    Ok (string_keyed
          (fold_left (fun selected name =>
                        match assoc name data with
                        | Some v => dict_set name v selected
                        | None => selected
                        end) names selected)).
Proof.
  induction names as [| name names IH]; intros selected; [reflexivity |].
  cbn [map collect_custom py_in bindR fold_left]. unfold has_key.
  destruct (assoc name data) as [v |] eqn:Hv.
  - cbn [py_getitem]. rewrite Hv. cbn [bindR py_setitem hashable].
    rewrite setitem_string_keyed. apply IH.
  - apply IH.
Qed.

Lemma selection_fold (names : list string) (data : list (string * Json)) (name : string) :
  forall selected,
    assoc name (fold_left (fun selected name =>
                             match assoc name data with
                             | Some v => dict_set name v selected
                             | None => selected
                             end) names selected) =
    if existsb (String.eqb name) names
    then match assoc name data with
         | Some v => Some v
         | None => assoc name selected
         end
    else assoc name selected.
Proof.
  induction names as [| n names IH]; intros selected; [reflexivity |].
  cbn [fold_left existsb]. rewrite IH.
  destruct (String.eqb_spec name n) as [-> | Hne]; cbn [orb].
  - destruct (assoc n data) as [v |] eqn:Hv.
    + rewrite assoc_dict_set_same. destruct (existsb _ names); reflexivity.
    + destruct (existsb _ names); reflexivity.
  - destruct (assoc n data) as [v |] eqn:Hv; [| reflexivity].
    rewrite assoc_dict_set_other by exact Hne. reflexivity.
Qed.

(** The selection holds exactly the listed fields that the data holds. *)
Lemma custom_selection_spec (names : list string) (data : list (string * Json))
    (name : string) :
  assoc name (custom_selection names data) =
  if existsb (String.eqb name) names then assoc name data else None.
Proof.
  unfold custom_selection. rewrite selection_fold. cbn [assoc].
  destruct (existsb _ names); [| reflexivity]. destruct (assoc name data); reflexivity.
Qed.

Lemma get_workitem_detail_run (request_key : string)
    (fields : list (string * Json)) (query : list (string * string))
    (w : World) (record : Request) (names : list string) :
  assoc request_key (requests_db w) = Some record ->
  field_or "customFields" (JList []) fields = JList (map JStr names) ->
  names = [] \/ is_dict (r_data record) = true ->
  get_workitem_detail request_key (mkFlaskRequest (Some (JObj fields)) query) w =
    (Ok (detail_body request_key record fields names, 200), w).
Proof.
  intros Hkey Hcustom Hdata.
  assert (Hpayload : (if truthy (JObj fields) then JObj fields else JObj []) = JObj fields)
    by (destruct fields; reflexivity).
  assert (Hcollect : names <> [] ->
            collect_custom (map JStr names) (r_data record) [] =
            Ok (string_keyed (custom_selection names (entries_of (r_data record))))).
  { intros Hne. destruct Hdata as [-> | Hd]; [contradiction |].
    destruct (r_data record) as [| | | | | data]; try discriminate Hd.
    exact (collect_custom_names names data []). }
  unfold field_or in Hcustom. unfold detail_body, field_or.
  apply wp_eq. unfold get_workitem_detail.
  destruct names as [| name names].
  - repeat first [ rewrite Hkey | rewrite Hpayload | rewrite Hcustom
                 | progress cbn [json_body py_get bindR map truthy]
                 | wp_step ];
      destruct (py_eq _ (JStr "yes")); reflexivity.
  - specialize (Hcollect ltac:(discriminate)).
    repeat first [ rewrite Hkey | rewrite Hpayload | rewrite Hcustom
                 | rewrite Hcollect
                 | progress cbn [json_body py_get bindR truthy py_iter]
                 | progress change (JStr name :: map JStr names)
                     with (map JStr (name :: names))
                 | wp_step ];
      first [ rewrite jsonify_string_keyed;
              destruct (py_eq _ (JStr "yes")); reflexivity
            | match goal with
              | H : _ = false |- _ => cbn in H; discriminate H
              end ].
Qed.

(** C7, as the code has it.  For a key of the store and a payload whose
    [customFields] is absent, empty or a list of field names, the stored
    data being an object when names are listed: the answer is 200 and always
    holds [key], [summary], [status], [resolution] and the two time stamps;
    with listed names it carries under [customFields] exactly the listed
    fields that the stored data holds, with their stored values, and no
    [data]; with none it carries the whole stored data under [data] and no
    [customFields]; and it carries the stored approval history exactly when
    the payload's [approvalHistory] is "yes". *)
Theorem C7_detail_retrieval (request_key : string)
    (fields : list (string * Json)) (query : list (string * string))
    (w : World) (record : Request) (names : list string)
    (Hkey : assoc request_key (requests_db w) = Some record)
    (Hcustom : field_or "customFields" (JList []) fields = JList (map JStr names))
    (Hdata : names = [] \/ is_dict (r_data record) = true) :
  let body := detail_body request_key record fields names in
  get_workitem_detail request_key (mkFlaskRequest (Some (JObj fields)) query) w =
    (Ok (body, 200), w) /\
  map (fun name => assoc name (entries_of body))
      ["key"; "summary"; "status"; "resolution"; "created_at"; "updated_at"] =
    [Some (JStr request_key); Some (r_summary record); Some (JStr (r_status record));
     Some (r_resolution record); Some (JStr (r_created_at record));
     Some (JStr (r_updated_at record))] /\
  assoc "approvalHistory" (entries_of body) =
    (if py_eq (field_or "approvalHistory" JNull fields) (JStr "yes")
     then Some (JList (r_approvals record))
     else None) /\
  (py_eq (field_or "approvalHistory" JNull fields) (JStr "yes") = true <->
   assoc "approvalHistory" fields = Some (JStr "yes")) /\
  assoc "data" (entries_of body) =
    match names with
    | [] => Some (r_data record)
    | _ :: _ => None
    end /\
  assoc "customFields" (entries_of body) =
    match names with
    | [] => None
    | _ :: _ => Some (JObj (custom_selection names (entries_of (r_data record))))
    end /\
  (forall name,
      assoc name (custom_selection names (entries_of (r_data record))) =
      if existsb (String.eqb name) names
      then assoc name (entries_of (r_data record))
      else None).
Proof.
  intros body.
  split; [exact (get_workitem_detail_run _ _ _ _ _ _ Hkey Hcustom Hdata) |].
  subst body. unfold detail_body. cbn [entries_of].
  split; [reflexivity |].
  split; [destruct (py_eq _ (JStr "yes")), names; reflexivity |].
  split.
  { rewrite py_eq_str. unfold field_or.
    destruct (assoc "approvalHistory" fields) as [v |];
      split; congruence. }
  split; [destruct (py_eq _ (JStr "yes")), names; reflexivity |].
  split; [destruct (py_eq _ (JStr "yes")), names; reflexivity |].
  intros name. apply custom_selection_spec.
Qed.

(** The instance of C7 at the sample request, asked for a field it holds
    and one it does not. *)
Lemma C7_detail_retrieval_witness :
  assoc "RBGA-1" (requests_db world_with_request) <> None /\
  fst (get_workitem_detail "RBGA-1"
         (mkFlaskRequest
            (Some (JObj [("approvalHistory", JStr "yes");
                         ("customFields", JList [JStr "rbga.field.description";
                                                 JStr "rbga.field.absent"])]))
            [])
         world_with_request) =
    Ok (JObj [("key", JStr "RBGA-1");
              ("summary", JStr "Request for Substitution");
              ("status", JStr "Submitted");
              ("resolution", JNull);
              ("created_at", JStr "2024-01-01T00:00:00");
              ("updated_at", JStr "2024-01-01T00:00:01");
              ("approvalHistory", JList []);
              ("customFields",
               JObj [("rbga.field.description",
                      JStr "Detailed Description for the request")])], 200).
Proof.
  split; [discriminate |].
  exact (f_equal fst
           (proj1 (C7_detail_retrieval "RBGA-1"
                     [("approvalHistory", JStr "yes");
                      ("customFields", JList [JStr "rbga.field.description";
                                              JStr "rbga.field.absent"])] []
                     world_with_request _
                     ["rbga.field.description"; "rbga.field.absent"]
                     eq_refl eq_refl (or_intror eq_refl)))).
Defined.

(** Two requests for details that end in 500: listed fields against a
    draft whose stored data is [null], and a listed entry that is itself a
    list against the sample request. *)
Lemma C7_detail_error_counterexample :
  assoc "RBGA-DRAFT-00000001" (requests_db world_with_null_draft) <> None /\
  fst (get_workitem_detail "RBGA-DRAFT-00000001"
         (request_of (JObj [("customFields", JList [JStr "rbga.field.description"])]))
         world_with_null_draft) =
    Ok (error_body "Internal server error: argument of type 'NoneType' is not iterable",
        500) /\
  assoc "RBGA-1" (requests_db world_with_request) <> None /\
  fst (get_workitem_detail "RBGA-1"
         (request_of (JObj [("customFields",
                             JList [JList [JStr "rbga.field.description"]])]))
         world_with_request) =
    Ok (error_body "Internal server error: unhashable type: 'list'", 500).
Proof. repeat split; try reflexivity; discriminate. Qed.

End DetailClaims.

(** ** Full validation and creation *)

Module ValidationClaims.
Import PyStr Py Server Spec HandlerLogic HandlerFacts DictFacts DraftClaims.

Lemma first_failure_cons (passes : bool) (reason : string) (checks : list Check) :
  first_failure ((passes, reason) :: checks) =
  if passes then first_failure checks else Some reason.
Proof. unfold first_failure. cbn [find fst negb]. destruct passes; reflexivity. Qed.

Lemma first_failure_app (checks checks' : list Check) :
  first_failure (checks ++ checks') =
  match first_failure checks with
  | Some reason => Some reason
  | None => first_failure checks'
  end.
Proof.
  induction checks as [| [passes reason] checks IH]; [reflexivity |].
  cbn [app]. rewrite !first_failure_cons. destruct passes; [exact IH | reflexivity].
Qed.

Lemma first_failure_presence (reason : string) (names : list string)
    (fields : list (string * Json)) :
  first_failure (presence_checks reason names fields) =
  option_map (append reason) (first_absent names fields).
Proof.
  unfold presence_checks, first_absent.
  induction names as [| name names IH]; [reflexivity |].
  cbn [map find]. rewrite first_failure_cons.
  destruct (has_key name fields); [exact IH | reflexivity].
Qed.

(** The loop over the approvers finds the first approver check that
    fails. *)
Lemma check_approvers_spec (approvers : list Json) :
  forall i,
    check_approvers i approvers =
    Ok (first_failure (flat_map approver_checks (numbered_from i approvers))).
Proof.
  induction approvers as [| approver approvers IH]; intros i; [reflexivity |].
  cbn [check_approvers numbered_from flat_map]. rewrite first_failure_app.
  unfold approver_checks at 1. cbn [fst snd]. rewrite !first_failure_cons.
  destruct approver as [| | | | | fields]; try reflexivity.
  cbn [is_dict negb has_entry]. rewrite first_missing_dict.
  unfold first_absent. cbn [find bindR].
  destruct (has_key "userid" fields); cbn [negb]; [| reflexivity].
  destruct (has_key "description" fields); cbn [negb]; [| reflexivity].
  cbn [first_failure find option_map]. apply IH.
Qed.

Lemma py_get_dict (fields : list (string * Json)) (name : string) (default : Json) :
  py_get (JObj fields) name default = Ok (field_or name default fields).
Proof. reflexivity. Qed.

(** The validator stops at the first top level check that fails. *)
Lemma validate_top_level (payload : list (string * Json)) (reason : string) :
  first_failure (top_level_checks payload) = Some reason ->
  validate_rbga_request (JObj payload) = Ok (false, reason).
Proof.
  unfold top_level_checks, validate_rbga_request.
  rewrite first_failure_app, first_failure_presence, first_missing_dict.
  cbn [bindR]. destruct (first_absent required_fields payload) as [name |].
  - cbn [option_map]. intros [= <-]. reflexivity.
  - cbn [option_map]. rewrite !first_failure_cons, !py_get_dict. cbn [bindR].
    destruct (py_eq (field_or "pkey" JNull payload) _); cbn [negb];
      [| intros [= <-]; reflexivity].
    destruct (py_eq (field_or "issuetype" JNull payload) _); cbn [negb];
      [| intros [= <-]; reflexivity].
    destruct (py_eq (field_or "priority" JNull payload) _); cbn [negb];
      [discriminate | intros [= <-]; reflexivity].
Qed.

(** With the top level in order and [data] an object, the validator gives
    the verdict of the checks on [data]. *)
Lemma validate_data (payload data : list (string * Json)) :
  first_failure (top_level_checks payload) = None ->
  assoc "data" payload = Some (JObj data) ->
  validate_rbga_request (JObj payload) = Ok (verdict (data_checks data)).
Proof.
  intros Htop Hdata.
  assert (Hd : field_or "data" (JObj []) payload = JObj data)
    by (unfold field_or; rewrite Hdata; reflexivity).
  revert Htop. unfold top_level_checks, validate_rbga_request.
  rewrite first_failure_app, first_failure_presence, first_missing_dict.
  cbn [bindR]. destruct (first_absent required_fields payload) as [name |];
    [discriminate |].
  cbn [option_map]. rewrite !first_failure_cons, !py_get_dict. cbn [bindR].
  destruct (py_eq (field_or "pkey" JNull payload) _); cbn [negb]; [| discriminate].
  destruct (py_eq (field_or "issuetype" JNull payload) _); cbn [negb]; [| discriminate].
  destruct (py_eq (field_or "priority" JNull payload) _); cbn [negb]; [| discriminate].
  intros _. rewrite ?py_get_dict, Hd. cbn [bindR].
  unfold verdict, data_checks. cbv zeta.
  rewrite first_failure_app, first_failure_presence, first_missing_dict.
  cbn [bindR]. destruct (first_absent rbga_required data) as [name |];
    [reflexivity |].
  cbn [option_map app]. rewrite ?py_get_dict, first_failure_cons. cbn [bindR].
  destruct (in_list (field_or "rbga.field.termCheck" JNull data) _); cbn [negb];
    [| reflexivity].
  rewrite ?py_get_dict, first_failure_cons. cbn [bindR].
  destruct (in_list (field_or "rbga.field.workflowType" JNull data) _); cbn [negb];
    [| reflexivity].
  rewrite ?py_get_dict, first_failure_cons. cbn [bindR].
  destruct (field_or "rbga.field.approver1" JNull data)
    as [| | | | | approver1]; try reflexivity.
  cbn [has_entry]. destruct (has_key "approvers" approver1); cbn [negb];
    [| reflexivity].
  rewrite ?py_get_dict, first_failure_cons. cbn [bindR].
  destruct (field_or "approvers" (JList []) approver1)
    as [| | | | approvers |]; try reflexivity.
  destruct approvers as [| approver approvers]; [reflexivity |].
  cbn [is_list items_of length Nat.eqb negb andb].
  rewrite check_approvers_spec. cbn [bindR].
  destruct (first_failure _); reflexivity.
Qed.

Lemma py_getitem_dict (fields : list (string * Json)) (name : string) (v : Json) :
  assoc name fields = Some v -> py_getitem (JObj fields) (JStr name) = Ok v.
Proof. intros H. cbn [py_getitem]. rewrite H. reflexivity. Qed.


(** A payload that passes every check, with attachments that are absent or
    a list of objects, is answered 201 with the generated key, and its
    record is stored under that key. *)
Lemma create_request_accepted (payload data : list (string * Json))
    (query : list (string * string)) (w : World) :
  first_failure (top_level_checks payload) = None ->
  assoc "data" payload = Some (JObj data) ->
  first_failure (data_checks data) = None ->
  attach_well_formed data = true ->
  wp (create_request (mkFlaskRequest (Some (JObj payload)) query))
     (fun r w' =>
        r = Ok (JObj [("key", JStr (generated_key w))], 201) /\
        exists record,
          requests_db w' = dict_set (generated_key w) record (requests_db w) /\
          r_key record = generated_key w /\
          r_status record = "Submitted" /\
          r_workflow_stage record = "Initial Review" /\
          r_data record = JObj data) w.
Proof.
  intros Htop Hdata Hchecks Hattach.
  assert (Hvalid : validate_rbga_request (JObj payload) = Ok (true, "")).
  { rewrite (validate_data payload data Htop Hdata). unfold verdict.
    rewrite Hchecks. reflexivity. }
  assert (Habs : first_absent required_fields payload = None).
  { unfold top_level_checks in Htop.
    rewrite first_failure_app, first_failure_presence in Htop.
    destruct (first_absent required_fields payload); [discriminate Htop | reflexivity]. }
  pose proof (first_absent_none _ _ Habs) as Hhas.
  destruct (Hhas "summary") as [v1 H1]; [cbn; auto 8 |].
  destruct (Hhas "pkey") as [v2 H2]; [cbn; auto 8 |].
  destruct (Hhas "issuetype") as [v3 H3]; [cbn; auto 8 |].
  destruct (Hhas "applicant") as [v4 H4]; [cbn; auto 8 |].
  destruct (Hhas "priority") as [v5 H5]; [cbn; auto 8 |].
  destruct (Hhas "sourceSystem") as [v6 H6]; [cbn; auto 8 |].
  assert (Htruthy : truthy (JObj payload) = true)
    by (destruct payload; [discriminate H1 | reflexivity]).
  unfold attach_well_formed in Hattach. unfold create_request.
  destruct (assoc "rbga.field.attach" data) as [attach |] eqn:Ha.
  - destruct attach as [| | | | items |]; try discriminate Hattach.
    repeat first [ rewrite Htruthy | rewrite Hvalid
                 | rewrite (py_getitem_dict _ _ _ H1)
                 | rewrite (py_getitem_dict _ _ _ H2)
                 | rewrite (py_getitem_dict _ _ _ H3)
                 | rewrite (py_getitem_dict _ _ _ H4)
                 | rewrite (py_getitem_dict _ _ _ H5)
                 | rewrite (py_getitem_dict _ _ _ H6)
                 | rewrite (py_getitem_dict _ _ _ Hdata)
                 | rewrite (py_getitem_dict _ _ _ Ha)
                 | rewrite Ha
                 | progress cbn [json_body py_in negb py_iter]
                 | progress unfold has_key
                 | wp_step ].
    eapply wp_conseq; [apply store_attachments_effect |].
    cbn [requests_db]. intros r w' [Hdb Hok].
    destruct (Hok Hattach) as [ids ->].
    repeat wp_step. split; [reflexivity |].
    eexists. rewrite Hdb. repeat split; reflexivity.
  - repeat first [ rewrite Htruthy | rewrite Hvalid
                 | rewrite (py_getitem_dict _ _ _ H1)
                 | rewrite (py_getitem_dict _ _ _ H2)
                 | rewrite (py_getitem_dict _ _ _ H3)
                 | rewrite (py_getitem_dict _ _ _ H4)
                 | rewrite (py_getitem_dict _ _ _ H5)
                 | rewrite (py_getitem_dict _ _ _ H6)
                 | rewrite (py_getitem_dict _ _ _ Hdata)
                 | rewrite Ha
                 | progress cbn [json_body py_in negb]
                 | progress unfold has_key
                 | wp_step ].
    split; [reflexivity |]. eexists. repeat split; reflexivity.
Qed.




End ValidationClaims.

(** ** The stores outside creation *)

Module FrameClaims.
Import PyStr Py Server Spec HandlerLogic HandlerFacts DictFacts KeyClaims.

(** What a call does to [requests_db]: nothing, or one write under the key
    that the create it is draws, answered 201. *)
Lemma dispatch_requests (c : Call) (w : World) :
  requests_db (snd (dispatch c w)) = requests_db w \/
  exists request body record,
    fst (dispatch c w) = Ok (body, 201) /\
    ((c = PutCreateRequest request /\
      requests_db (snd (dispatch c w)) =
        dict_set (generated_key w) record (requests_db w)) \/
     (c = PutCreateDraftRequest request /\
      requests_db (snd (dispatch c w)) =
        dict_set (draft_key w) record (requests_db w))).
Proof.
  destruct c as [request | request | key | key request | key request | | request |];
    cbn [dispatch].
  - pose proof (create_request_effect request w) as H. unfold wp in H.
    destruct H as (body & status & Hr & [[_ Hdb] | (-> & _ & record & Hdb)]);
      [left; exact Hdb | right].
    exists request, body, record. split; [exact Hr |]. left. split; [reflexivity | exact Hdb].
  - pose proof (create_draft_request_effect request w) as H. unfold wp in H.
    destruct H as (_ & body & status & Hr & [[_ Hdb] | (-> & record & Hdb)]);
      [left; exact Hdb | right].
    exists request, body, record. split; [exact Hr |]. right. split; [reflexivity | exact Hdb].
  - left. exact (proj1 (proj1 (get_status_frame key w))).
  - left. exact (proj1 (proj1 (get_workitem_detail_frame key request w))).
  - left. exact (proj1 (proj1 (get_workitem_attachments_frame key request w))).
  - left. exact (proj1 (proj1 (get_rbga_template_frame w))).
  - left. exact (proj1 (proj1 (list_requests_frame request w))).
  - left. exact (proj1 (proj1 (health_check_frame w))).
Qed.




End FrameClaims.

(** ** Every call is answered *)

Module AnswerFacts.
Import PyStr Py Server Spec HandlerLogic HandlerFacts DictFacts DraftClaims MoreSpec.

Ltac answer_with :=
  do 2 eexists; split; [reflexivity |]; split; [cbn; tauto |];
  first [ intros _; eexists; reflexivity | intros Hge; exfalso; lia ].

Lemma get_status_answered (key : string) (w : World) :
  wp (get_status key) (fun r _ => answered (GetStatus key) r) w.
Proof. unfold get_status. wp_auto; unfold not_found; answer_with. Qed.

Lemma get_workitem_detail_answered (key : string) (request : FlaskRequest) (w : World) :
  wp (get_workitem_detail key request)
     (fun r _ => answered (PostWorkitemDetails key request) r) w.
Proof. unfold get_workitem_detail. wp_auto; unfold not_found; answer_with. Qed.

Lemma get_workitem_attachments_answered (key : string) (request : FlaskRequest)
    (w : World) :
  wp (get_workitem_attachments key request)
     (fun r _ => answered (PostWorkitemAttachments key request) r) w.
Proof. unfold get_workitem_attachments. wp_auto; unfold not_found; answer_with. Qed.

Lemma create_draft_request_answered (request : FlaskRequest) (w : World) :
  wp (create_draft_request request)
     (fun r _ => answered (PutCreateDraftRequest request) r) w.
Proof. unfold create_draft_request. wp_auto; answer_with. Qed.

Lemma create_request_answered (request : FlaskRequest) (w : World) :
  wp (create_request request) (fun r _ => answered (PutCreateRequest request) r) w.
Proof.
  unfold create_request. wp_auto; try answer_with.
  eapply wp_conseq; [apply store_attachments_effect |].
  intros r w' _. destruct r; wp_auto; answer_with.
Qed.

Lemma list_requests_answered (request : FlaskRequest) (w : World) :
  wp (list_requests request) (fun r _ => answered (GetRequests request) r) w.
Proof. unfold list_requests. wp_auto; answer_with. Qed.

Lemma health_check_answered (w : World) :
  wp health_check (fun r _ => answered GetHealth r) w.
Proof. unfold health_check. wp_auto; answer_with. Qed.

Lemma get_rbga_template_answered (w : World) :
  wp get_rbga_template (fun r _ => answered GetTemplate r) w.
Proof. unfold get_rbga_template. wp_auto; answer_with. Qed.

(** X1.  Whatever the call and the world, the handler answers: no exception
    leaves it, the status is one its route has (201, 400 or 500 for the two
    creates, 200 or 404 for the status, 200, 404 or 500 for details and
    attachments, 200 for the others), and from 400 on the body is an object
    with the one field [error]. *)
Theorem X1_every_call_answered (c : Call) (w : World) :
  answered c (fst (dispatch c w)).
Proof.
  destruct c; cbn [dispatch].
  - apply create_request_answered.
  - apply create_draft_request_answered.
  - apply get_status_answered.
  - apply get_workitem_detail_answered.
  - apply get_workitem_attachments_answered.
  - apply get_rbga_template_answered.
  - apply list_requests_answered.
  - apply health_check_answered.
Qed.

(** X2.  For a key that the store does not hold, the three keyed handlers
    answer 404 with the same body and leave the world as it is, whatever
    the request carries: the key is looked up before the body is read. *)
Theorem X2_unknown_key (request_key : string) (request : FlaskRequest) (w : World)
    (Hkey : assoc request_key (requests_db w) = None) :
  get_status request_key w = (Ok (not_found request_key), w) /\
  get_workitem_detail request_key request w = (Ok (not_found request_key), w) /\
  get_workitem_attachments request_key request w = (Ok (not_found request_key), w).
Proof.
  repeat split; apply wp_eq;
    unfold get_status, get_workitem_detail, get_workitem_attachments;
    repeat first [ rewrite Hkey | wp_step ]; reflexivity.
Qed.

(** The instance of X2 at a key that a server just started does not hold,
    with a body that is no JSON. *)
Lemma X2_unknown_key_witness :
  fst (get_workitem_detail "RBGA-999999" (mkFlaskRequest None []) empty_world) =
    Ok (error_body "Request with key RBGA-999999 not found", 404).
Proof.
  exact (f_equal fst
           (proj1 (proj2 (X2_unknown_key "RBGA-999999" (mkFlaskRequest None [])
                            empty_world eq_refl)))).
Defined.

End AnswerFacts.

(** ** What a full create writes *)

Module CreateFacts.
Import PyStr Py Server Spec HandlerLogic HandlerFacts DictFacts DraftClaims KeyClaims
       MoreSpec.

Lemma assoc_dict_set {V} (k k' : string) (v : V) (d : list (string * V)) :
  assoc k' (dict_set k v d) = if String.eqb k' k then Some v else assoc k' d.
Proof.
  destruct (String.eqb_spec k' k) as [-> | Hne].
  - apply assoc_dict_set_same.
  - apply assoc_dict_set_other, Hne.
Qed.

Lemma has_key_dict_set {V} (k k' : string) (v : V) (d : list (string * V)) :
  has_key k' d = true -> has_key k' (dict_set k v d) = true.
Proof.
  unfold has_key. rewrite assoc_dict_set.
  destruct (String.eqb k' k); [reflexivity | trivial].
Qed.

Lemma dict_set_length_fresh {V} (k : string) (v : V) (d : list (string * V)) :
  assoc k d = None -> length (dict_set k v d) = S (length d).
Proof.
  induction d as [| [k' v'] d IH]; cbn [assoc dict_set length]; [reflexivity |].
  destruct (String.eqb k k'); [discriminate |].
  intros H. cbn [length]. rewrite (IH H). reflexivity.
Qed.

(** The attachment loop: the requests stay, the stored attachments stay or
    are replaced by one of this request, and at a normal end one id was
    added per item, each stored and linked to the request. *)
Lemma store_attachments_links (items : list Json) :
  forall i request_key ids w,
    wp (store_attachments i items request_key ids)
       (fun r w' =>
          requests_db w' = requests_db w /\
          (forall id, has_key id (attachments_db w) = true ->
                      has_key id (attachments_db w') = true) /\
          (forall id a, assoc id (attachments_db w') = Some a ->
                        assoc id (attachments_db w) = Some a \/
                        (a_request_key a = request_key /\ a_id a = id)) /\
          (forall ids', r = Ok ids' ->
             exists new,
               ids' = (ids ++ new)%list /\ length new = length items /\
               Forall (linked_under (attachments_db w') request_key) new)) w.
Proof.
  induction items as [| item items IH]; intros i request_key ids w.
  - cbn [store_attachments]. wp_auto. repeat split; auto.
    intros ids' [= <-]. exists []. rewrite app_nil_r. repeat split. constructor.
  - cbn [store_attachments].
    wp_auto;
      lazymatch goal with
      | |- wp _ _ _ => idtac
      | _ => solve [repeat split; auto; discriminate]
      end.
    eapply wp_conseq; [apply IH |]. cbn [requests_db attachments_db].
    set (id0 := str_uuid (uuid_source w (uuid_drawn w))).
    intros r w' (Hdb & Hkeys & Hold & Hnew).
    split; [exact Hdb |]. split; [| split].
    + intros id Hid. apply Hkeys, has_key_dict_set, Hid.
    + intros id att Hatt.
      destruct (Hold id att Hatt) as [Hin | Hlink]; [| right; exact Hlink].
      rewrite assoc_dict_set in Hin. destruct (String.eqb_spec id id0) as [-> | _].
      * injection Hin as <-. right. split; reflexivity.
      * left. exact Hin.
    + intros ids' Hr. destruct (Hnew ids' Hr) as (new & -> & Hlen & Hall).
      exists (id0 :: new). rewrite <- app_assoc. split; [reflexivity |].
      split; [cbn [length]; f_equal; exact Hlen |].
      constructor; [| exact Hall].
      assert (Hhas : has_key id0 (attachments_db w') = true).
      { apply Hkeys. unfold has_key. rewrite assoc_dict_set_same. reflexivity. }
      unfold has_key in Hhas.
      destruct (assoc id0 (attachments_db w')) as [att |] eqn:Hatt; [| discriminate].
      exists att. split; [exact Hatt |].
      destruct (Hold id0 att Hatt) as [Hin | Hlink]; [| exact Hlink].
      rewrite assoc_dict_set_same in Hin. injection Hin as <-. split; reflexivity.
Qed.

Ltac kept_attachments := split; [auto | split; [auto |]].

(** The whole effect of a full create. *)
Lemma create_request_outcome (request : FlaskRequest) (w : World) :
  wp (create_request request)
     (fun r w' =>
        (forall id, has_key id (attachments_db w) = true ->
                    has_key id (attachments_db w') = true) /\
        (forall id a, assoc id (attachments_db w') = Some a ->
                      assoc id (attachments_db w) = Some a \/
                      (a_request_key a = generated_key w /\ a_id a = id)) /\
        full_create_outcome request w r w') w.
Proof.
  unfold create_request. wp_auto;
    lazymatch goal with
    | |- wp _ _ _ => idtac
    | _ => kept_attachments; unfold full_create_outcome; do 2 eexists;
           (split; [reflexivity |])
    end;
    try (left; split; reflexivity);
    try (right; left; split; reflexivity).
  - destruct b; [| discriminate].
    eapply wp_conseq; [apply store_attachments_links |].
    cbn [requests_db attachments_db]. intros r w' (Hdb & Hkeys & Hold & Hnew).
    destruct r as [ids | e]; wp_auto; kept_attachments;
      unfold full_create_outcome; do 2 eexists; (split; [reflexivity |]).
    + right; right. split; [reflexivity |]. split; [reflexivity |].
      do 3 eexists. split; [rewrite Hdb; reflexivity |].
      split; [eassumption |]. split; [eassumption |]. split.
      * unfold full_record_of. cbn. repeat split; assumption.
      * unfold attachments_recorded. cbn [with_attachment_ids r_attachment_ids r_key r_data].
        destruct (Hnew ids eq_refl) as (new & Hids & Hlen & Hall).
        cbn [app] in Hids. subst new. split; [exact Hall |].
        do 2 eexists. split; [eassumption |]. split; [eassumption | exact Hlen].
    + right; left. split; [reflexivity | exact Hdb].
  - destruct b; [| discriminate].
    right; right. split; [reflexivity |]. split; [reflexivity |].
    do 3 eexists. split; [reflexivity |].
    split; [eassumption |]. split; [eassumption |]. split.
    + unfold full_record_of. cbn. repeat split; assumption.
    + unfold attachments_recorded. cbn [r_attachment_ids r_data].
      split; [reflexivity |]. subst. assumption.
Qed.

(** What a full create answered 201 has done. *)
Lemma create_request_201 (request : FlaskRequest) (w : World) (body : Json) :
  fst (create_request request w) = Ok (body, 201) ->
  body = JObj [("key", JStr (generated_key w))] /\
  exists payload record msg,
    requests_db (snd (create_request request w)) =
      dict_set (generated_key w) record (requests_db w) /\
    json_body request = Some payload /\
    validate_rbga_request payload = Ok (true, msg) /\
    full_record_of payload w record /\
    attachments_recorded record (attachments_db w)
      (attachments_db (snd (create_request request w))).
Proof.
  intros Hok. pose proof (create_request_outcome request w) as H. unfold wp in H.
  destruct H as (_ & _ & body' & status & Hr & Hcases).
  rewrite Hr in Hok. injection Hok as -> ->.
  destruct Hcases as [[Hst _] | [[Hst _] | (_ & Hbody & Hrest)]];
    [discriminate Hst | discriminate Hst |].
  split; [exact Hbody | exact Hrest].
Qed.

(** X3.  A full create answered 201 returns the generated key, which the
    store did not hold: it adds exactly one record, last in the store,
    under that key, with status "Submitted", stage "Initial Review" and no
    resolution, and every record stored before is still there. *)
Theorem X3_full_create_adds_one (request : FlaskRequest) (w : World) (body : Json)
    (Hok : fst (create_request request w) = Ok (body, 201)) :
  let w' := snd (create_request request w) in
  body = JObj [("key", JStr (generated_key w))] /\
  assoc (generated_key w) (requests_db w) = None /\
  store_keys w' = (store_keys w ++ [generated_key w])%list /\
  length (requests_db w') = S (length (requests_db w)) /\
  exists record,
    assoc (generated_key w) (requests_db w') = Some record /\
    r_key record = generated_key w /\
    r_status record = "Submitted" /\
    r_workflow_stage record = "Initial Review" /\
    r_resolution record = JNull.
Proof.
  intros w'. destruct (create_request_201 request w body Hok)
    as (Hbody & payload & record & msg & Hdb & _ & _ & Hrecord & _).
  pose proof (generated_key_fresh w) as Hfresh.
  subst w'. split; [exact Hbody |]. split; [exact Hfresh |].
  unfold store_keys. rewrite Hdb. split; [| split].
  - rewrite keys_dict_set. unfold has_key. rewrite Hfresh. reflexivity.
  - apply dict_set_length_fresh, Hfresh.
  - exists record. rewrite assoc_dict_set_same. unfold full_record_of in Hrecord.
    intuition.
Qed.

(** The instance of X3 at the sample payload of the template, after one
    draft. *)
Lemma X3_full_create_adds_one_witness :
  store_keys (snd (create_request (request_of sample_payload) world_with_draft)) =
    ["RBGA-DRAFT-00000001"; "RBGA-1"].
Proof.
  exact (proj1 (proj2 (proj2 (X3_full_create_adds_one (request_of sample_payload)
                                world_with_draft _ eq_refl)))).
Defined.

(** X4.  After a full create answered 201 the stored record lists one
    attachment id per item of the payload's [rbga.field.attach], and each
    listed id is in [attachments_db], linked to the key of the record; when
    the data has no [rbga.field.attach] the record lists none and
    [attachments_db] is as before. *)
Theorem X4_attachments_recorded (request : FlaskRequest) (w : World) (body : Json)
    (Hok : fst (create_request request w) = Ok (body, 201)) :
  let w' := snd (create_request request w) in
  exists record,
    assoc (generated_key w) (requests_db w') = Some record /\
    r_key record = generated_key w /\
    match r_attachment_ids record with
    | None =>
        attachments_db w' = attachments_db w /\
        py_in (JStr "rbga.field.attach") (r_data record) = Ok false
    | Some ids =>
        Forall (linked_under (attachments_db w') (generated_key w)) ids /\
        exists attach items,
          py_getitem (r_data record) (JStr "rbga.field.attach") = Ok attach /\
          py_iter attach = Ok items /\
          length ids = length items
    end.
Proof.
  intros w'. destruct (create_request_201 request w body Hok)
    as (_ & payload & record & msg & Hdb & _ & _ & Hrecord & Hatt).
  subst w'. exists record. rewrite Hdb, assoc_dict_set_same.
  assert (Hkey : r_key record = generated_key w)
    by (unfold full_record_of in Hrecord; intuition).
  split; [reflexivity |]. split; [exact Hkey |].
  unfold attachments_recorded in Hatt. rewrite Hkey in Hatt. exact Hatt.
Qed.

(** The instance of X4 at the sample payload of the template: its one
    attachment is stored under the one id that the record lists. *)
Lemma X4_attachments_recorded_witness :
  exists record,
    assoc "RBGA-1" (requests_db world_with_request) = Some record /\
    r_attachment_ids record = Some ["00000001-0000-0000-0000-000000000000"] /\
    linked_under (attachments_db world_with_request) "RBGA-1"
                 "00000001-0000-0000-0000-000000000000".
Proof.
  destruct (X4_attachments_recorded (request_of sample_payload) empty_world _ eq_refl)
    as (record & Hrecord & _ & Hids).
  exists record. split; [exact Hrecord |].
  injection Hrecord as <-. split; [reflexivity |].
  cbn [r_attachment_ids with_attachment_ids] in Hids.
  destruct Hids as [Hall _]. inversion Hall as [| ? ? Hfirst _]. exact Hfirst.
Defined.

End CreateFacts.

(** ** Attachments and the requests they are linked to *)

Module LinkFacts.
Import PyStr Py Server Spec HandlerLogic HandlerFacts DictFacts KeyClaims FrameClaims
       MoreSpec CreateFacts.

(** No call drops a key of [requests_db]. *)
Lemma dispatch_keeps_keys (c : Call) (w : World) (key : string) :
  has_key key (requests_db w) = true ->
  has_key key (requests_db (snd (dispatch c w))) = true.
Proof.
  intros Hkey.
  destruct (dispatch_requests c w)
    as [-> | (request & body & record & _ & [[_ ->] | [_ ->]])];
    [exact Hkey | apply has_key_dict_set, Hkey | apply has_key_dict_set, Hkey].
Qed.

(** Only a full create writes to [attachments_db]. *)
Lemma dispatch_attachments (c : Call) (w : World) :
  (exists request, c = PutCreateRequest request) \/
  attachments_db (snd (dispatch c w)) = attachments_db w.
Proof.
  destruct c as [request | request | key | key request | key request | | request |];
    cbn [dispatch]; [left; eauto | right ..].
  - exact (proj1 (create_draft_request_effect request w)).
  - exact (proj2 (proj1 (get_status_frame key w))).
  - exact (proj2 (proj1 (get_workitem_detail_frame key request w))).
  - exact (proj2 (proj1 (get_workitem_attachments_frame key request w))).
  - exact (proj2 (proj1 (get_rbga_template_frame w))).
  - exact (proj2 (proj1 (list_requests_frame request w))).
  - exact (proj2 (proj1 (health_check_frame w))).
Qed.

(** X5.  If every stored attachment is linked to a stored request, this
    is still so after any call that is not answered 500. *)
Theorem X5_links_kept (c : Call) (w : World) (body : Json) (status : Z)
    (Hlinks : links_ok w)
    (Hanswer : fst (dispatch c w) = Ok (body, status))
    (Hstatus : status <> 500) :
  links_ok (snd (dispatch c w)).
Proof.
  intros id a Ha.
  destruct (dispatch_attachments c w) as [[request ->] | Hsame].
  - cbn [dispatch] in *.
    pose proof (create_request_outcome request w) as H. unfold wp in H.
    destruct H as (_ & Hold & body' & status' & Hr & Hcases).
    rewrite Hr in Hanswer. injection Hanswer as -> ->.
    destruct Hcases as [[_ Hw] | [[Hst _] | (_ & _ & payload & record & msg & Hdb & _)]].
    + rewrite Hw in Ha |- *. exact (Hlinks id a Ha).
    + contradiction.
    + rewrite Hdb. destruct (Hold id a Ha) as [Hin | [Hkey _]].
      * apply has_key_dict_set, (Hlinks id a Hin).
      * rewrite Hkey. unfold has_key. rewrite assoc_dict_set_same. reflexivity.
  - rewrite Hsame in Ha. apply dispatch_keeps_keys, (Hlinks id a Ha).
Qed.

(** The instance of X5 at the full create of the sample payload. *)
Lemma X5_links_kept_witness : links_ok world_with_request.
Proof.
  apply (X5_links_kept (PutCreateRequest (request_of sample_payload)) empty_world
           (JObj [("key", JStr "RBGA-1")]) 201).
  - intros id a Ha. discriminate Ha.
  - reflexivity.
  - discriminate.
Defined.

(** X6.  A full create answered 500 leaves [requests_db] as it was, so the
    next full create is given the same key; and whatever attachment it
    stored before it failed is linked to that very key. *)
Theorem X6_failed_create_leaves_attachments (request : FlaskRequest) (w : World)
    (body : Json)
    (Hfail : fst (create_request request w) = Ok (body, 500)) :
  let w' := snd (create_request request w) in
  requests_db w' = requests_db w /\
  generated_key w' = generated_key w /\
  forall id a,
    assoc id (attachments_db w') = Some a ->
    assoc id (attachments_db w) = Some a \/
    (a_request_key a = generated_key w' /\ a_id a = id).
Proof.
  intros w'. pose proof (create_request_outcome request w) as H. unfold wp in H.
  destruct H as (_ & Hold & body' & status' & Hr & Hcases).
  rewrite Hr in Hfail. injection Hfail as -> ->.
  assert (Hdb : requests_db w' = requests_db w).
  { destruct Hcases as [[Hst _] | [[_ Hdb] | (Hst & _)]];
      [discriminate Hst | exact Hdb | discriminate Hst]. }
  assert (Hkey : generated_key w' = generated_key w)
    by (unfold generated_key, store_keys; rewrite Hdb; reflexivity).
  split; [exact Hdb |]. split; [exact Hkey |].
  intros id a Ha. rewrite Hkey. exact (Hold id a Ha).
Qed.

(** The instance of X6 at a payload whose second attachment is a string:
    the first attachment stays in the store, linked to "RBGA-1", the key
    that the next full create is given. *)
Lemma X6_failed_create_leaves_attachments_witness :
  let w' := snd (create_request (request_of payload_with_bad_attachment) empty_world) in
  requests_db w' = [] /\
  generated_key w' = "RBGA-1" /\
  exists a,
    assoc "00000001-0000-0000-0000-000000000000" (attachments_db w') = Some a /\
    a_request_key a = "RBGA-1".
Proof.
  intros w'.
  destruct (X6_failed_create_leaves_attachments
              (request_of payload_with_bad_attachment) empty_world _ eq_refl)
    as (Hdb & Hkey & Hatt).
  split; [exact Hdb |]. split; [exact Hkey |].
  destruct (assoc "00000001-0000-0000-0000-000000000000" (attachments_db w'))
    as [a |] eqn:Ha; [| discriminate Ha].
  exists a. split; [reflexivity |].
  destruct (Hatt _ a Ha) as [Hold | [Hlink _]]; [discriminate Hold | exact Hlink].
Defined.

End LinkFacts.

(** ** What the validator accepts *)

Module ValidatorFacts.
Import PyStr Py Server Spec HandlerLogic DictFacts DraftClaims ValidationClaims MoreSpec.

Lemma first_absent_has (names : list string) (fields : list (string * Json))
    (name : string) :
  first_absent names fields = None -> In name names -> has_key name fields = true.
Proof.
  intros Habs Hin. destruct (first_absent_none _ _ Habs name Hin) as [v Hv].
  unfold has_key. rewrite Hv. reflexivity.
Qed.

(** The top level checks pass exactly on the payloads that hold the seven
    fields, with the three fixed values. *)
Lemma top_level_passed (fields : list (string * Json)) :
  first_failure (top_level_checks fields) = None ->
  first_absent required_fields fields = None /\
  assoc "pkey" fields = Some (JStr "RBGA") /\
  assoc "issuetype" fields = Some (JStr "rbga.issuetype.default") /\
  assoc "priority" fields = Some (JStr "default").
Proof.
  unfold top_level_checks. rewrite first_failure_app, first_failure_presence.
  destruct (first_absent required_fields fields) as [name |] eqn:Habs;
    [discriminate |].
  cbn [option_map]. rewrite !first_failure_cons.
  destruct (py_eq (field_or "pkey" JNull fields) _) eqn:H1; [| discriminate].
  destruct (py_eq (field_or "issuetype" JNull fields) _) eqn:H2; [| discriminate].
  destruct (py_eq (field_or "priority" JNull fields) _) eqn:H3; [| discriminate].
  intros _. apply py_eq_str in H1, H2, H3. unfold field_or in H1, H2, H3.
  pose proof (first_absent_none _ _ Habs) as Hhas.
  destruct (Hhas "pkey") as [v1 E1]; [cbn; auto 8 |].
  destruct (Hhas "issuetype") as [v2 E2]; [cbn; auto 8 |].
  destruct (Hhas "priority") as [v3 E3]; [cbn; auto 8 |].
  rewrite E1 in H1. rewrite E2 in H2. rewrite E3 in H3. subst.
  repeat split; assumption.
Qed.

(** The validator accepts no payload whose [data] is not an object. *)
Lemma validate_data_not_dict (fields : list (string * Json)) (v : Json) (msg : string) :
  first_failure (top_level_checks fields) = None ->
  assoc "data" fields = Some v ->
  is_dict v = false ->
  validate_rbga_request (JObj fields) <> Ok (true, msg).
Proof.
  intros Htop Hdata Hv.
  assert (Hd : field_or "data" (JObj []) fields = v)
    by (unfold field_or; rewrite Hdata; reflexivity).
  revert Htop. unfold top_level_checks, validate_rbga_request.
  rewrite first_failure_app, first_failure_presence, first_missing_dict.
  cbn [bindR]. destruct (first_absent required_fields fields) as [name |];
    [discriminate |].
  cbn [option_map]. rewrite !first_failure_cons, !py_get_dict. cbn [bindR].
  destruct (py_eq (field_or "pkey" JNull fields) _); cbn [negb]; [| discriminate].
  destruct (py_eq (field_or "issuetype" JNull fields) _); cbn [negb]; [| discriminate].
  destruct (py_eq (field_or "priority" JNull fields) _); cbn [negb]; [| discriminate].
  intros _. rewrite Hd.
  destruct (first_missing rbga_required v) as [[name |] | e]; cbn [bindR];
    [discriminate | | discriminate].
  destruct v; try discriminate Hv; cbn [py_get bindR]; discriminate.
Qed.

(** The validator accepts no payload that is not an object. *)
Lemma validate_not_dict (payload : Json) (msg : string) :
  is_dict payload = false -> validate_rbga_request payload <> Ok (true, msg).
Proof.
  intros Hp. unfold validate_rbga_request.
  destruct (first_missing required_fields payload) as [[name |] | e]; cbn [bindR];
    [discriminate | | discriminate].
  destruct payload; try discriminate Hp; cbn [py_get bindR]; discriminate.
Qed.

Lemma in_two (v : Json) (s t : string) :
  in_list v [JStr s; JStr t] = true -> v = JStr s \/ v = JStr t.
Proof.
  unfold in_list. cbn [existsb]. rewrite !orb_true_iff, !py_eq_str.
  intros [H | [H | H]]; [left; exact H | right; exact H | discriminate H].
Qed.

Lemma approvers_passed (approvers : list Json) :
  forall i,
    first_failure (flat_map approver_checks (numbered_from i approvers)) = None ->
    Forall (fun approver => has_entry "userid" approver = true /\
                            has_entry "description" approver = true) approvers.
Proof.
  induction approvers as [| approver approvers IH]; intros i; [constructor |].
  cbn [numbered_from flat_map]. rewrite first_failure_app.
  unfold approver_checks at 1. cbn [fst snd]. rewrite !first_failure_cons.
  destruct (is_dict approver); [| discriminate].
  destruct (has_entry "userid" approver) eqn:Huser; [| discriminate].
  destruct (has_entry "description" approver) eqn:Hdesc; [| discriminate].
  cbn [first_failure find option_map]. intros H. constructor; [split; assumption |].
  exact (IH (S i) H).
Qed.

(** What the checks on [data] demand. *)
Lemma data_passed (data : list (string * Json)) :
  first_failure (data_checks data) = None ->
  first_absent rbga_required data = None /\
  (assoc "rbga.field.termCheck" data = Some (JStr "yes") \/
   assoc "rbga.field.termCheck" data = Some (JStr "no")) /\
  (assoc "rbga.field.workflowType" data = Some (JStr "Parallel") \/
   assoc "rbga.field.workflowType" data = Some (JStr "Serial")) /\
  exists approver1 approver approvers,
    assoc "rbga.field.approver1" data = Some (JObj approver1) /\
    assoc "approvers" approver1 = Some (JList (approver :: approvers)) /\
    Forall (fun approver => has_entry "userid" approver = true /\
                            has_entry "description" approver = true)
           (approver :: approvers).
Proof.
  unfold data_checks. cbv zeta.
  rewrite first_failure_app, first_failure_presence.
  destruct (first_absent rbga_required data) as [name |] eqn:Habs; [discriminate |].
  cbn [option_map app]. rewrite !first_failure_cons.
  pose proof (first_absent_none _ _ Habs) as Hhas.
  destruct (Hhas "rbga.field.termCheck") as [v1 E1]; [cbn; auto |].
  destruct (Hhas "rbga.field.workflowType") as [v2 E2]; [cbn; auto |].
  destruct (Hhas "rbga.field.approver1") as [v3 E3]; [cbn; auto |].
  assert (F1 : field_or "rbga.field.termCheck" JNull data = v1)
    by (unfold field_or; rewrite E1; reflexivity).
  assert (F2 : field_or "rbga.field.workflowType" JNull data = v2)
    by (unfold field_or; rewrite E2; reflexivity).
  assert (F3 : field_or "rbga.field.approver1" JNull data = v3)
    by (unfold field_or; rewrite E3; reflexivity).
  rewrite F1, F2, F3.
  destruct (in_list v1 _) eqn:H1; [| discriminate].
  destruct (in_list v2 _) eqn:H2; [| discriminate].
  destruct v3 as [| | | | | approver1]; cbn [has_entry]; try discriminate.
  unfold has_key.
  destruct (assoc "approvers" approver1) as [v4 |] eqn:E4; [| discriminate].
  assert (F4 : field_or "approvers" (JList []) approver1 = v4)
    by (unfold field_or; rewrite E4; reflexivity).
  rewrite F4.
  destruct v4 as [| | | | approvers |]; cbn [is_list andb]; try discriminate.
  destruct approvers as [| approver approvers];
    cbn [is_list items_of length Nat.eqb negb andb]; [discriminate |].
  intros Happ.
  split; [reflexivity |].
  split; [destruct (in_two _ _ _ H1) as [-> | ->]; auto |].
  split; [destruct (in_two _ _ _ H2) as [-> | ->]; auto |].
  exists approver1, approver, approvers.
  split; [exact E3 |]. split; [exact E4 |].
  exact (approvers_passed _ 0%nat Happ).
Qed.

(** What the validator has checked when it accepts. *)
Lemma validated_parts (payload : Json) (msg : string)
    (Hvalid : validate_rbga_request payload = Ok (true, msg)) :
  msg = "" /\
  exists fields data,
    payload = JObj fields /\
    assoc "data" fields = Some (JObj data) /\
    first_absent required_fields fields = None /\
    assoc "pkey" fields = Some (JStr "RBGA") /\
    assoc "issuetype" fields = Some (JStr "rbga.issuetype.default") /\
    assoc "priority" fields = Some (JStr "default") /\
    first_absent rbga_required data = None /\
    (assoc "rbga.field.termCheck" data = Some (JStr "yes") \/
     assoc "rbga.field.termCheck" data = Some (JStr "no")) /\
    (assoc "rbga.field.workflowType" data = Some (JStr "Parallel") \/
     assoc "rbga.field.workflowType" data = Some (JStr "Serial")) /\
    exists approver1 approver approvers,
      assoc "rbga.field.approver1" data = Some (JObj approver1) /\
      assoc "approvers" approver1 = Some (JList (approver :: approvers)) /\
      Forall (fun approver => has_entry "userid" approver = true /\
                              has_entry "description" approver = true)
             (approver :: approvers).
Proof.
  destruct payload as [| | | | | fields];
    try (exfalso; revert Hvalid; apply validate_not_dict; reflexivity).
  destruct (first_failure (top_level_checks fields)) as [reason |] eqn:Htop.
  { rewrite (validate_top_level fields reason Htop) in Hvalid. discriminate Hvalid. }
  destruct (top_level_passed fields Htop) as (Habs & Hpkey & Hissue & Hprio).
  destruct (first_absent_none _ _ Habs "data") as [v Hdata]; [cbn; auto 8 |].
  destruct v as [| | | | | data];
    try (exfalso; revert Hvalid;
         apply (validate_data_not_dict fields _ msg Htop Hdata); reflexivity).
  rewrite (validate_data fields data Htop Hdata) in Hvalid. unfold verdict in Hvalid.
  destruct (first_failure (data_checks data)) as [reason |] eqn:Hchecks;
    [discriminate Hvalid |].
  injection Hvalid as <-. split; [reflexivity |].
  destruct (data_passed data Hchecks) as (Habs' & Hterm & Hflow & Happ).
  exists fields, data. repeat (split; [first [reflexivity | assumption] |]).
  exact Happ.
Qed.

(** X7.  A payload that the validator accepts is an object with the seven
    top level fields, [pkey] "RBGA", [issuetype] "rbga.issuetype.default"
    and [priority] "default", whose [data] is an object with the four
    mandatory fields, [termCheck] "yes" or "no", [workflowType] "Parallel"
    or "Serial", and a non-empty list of approvers that are all objects
    with [userid] and [description]; and the reason returned is empty. *)
Theorem X7_validator_sound (payload : Json) (msg : string)
    (Hvalid : validate_rbga_request payload = Ok (true, msg)) :
  msg = "" /\
  exists fields data,
    payload = JObj fields /\
    assoc "data" fields = Some (JObj data) /\
    first_absent required_fields fields = None /\
    assoc "pkey" fields = Some (JStr "RBGA") /\
    assoc "issuetype" fields = Some (JStr "rbga.issuetype.default") /\
    assoc "priority" fields = Some (JStr "default") /\
    first_absent rbga_required data = None /\
    (assoc "rbga.field.termCheck" data = Some (JStr "yes") \/
     assoc "rbga.field.termCheck" data = Some (JStr "no")) /\
    (assoc "rbga.field.workflowType" data = Some (JStr "Parallel") \/
     assoc "rbga.field.workflowType" data = Some (JStr "Serial")) /\
    exists approver1 approver approvers,
      assoc "rbga.field.approver1" data = Some (JObj approver1) /\
      assoc "approvers" approver1 = Some (JList (approver :: approvers)) /\
      Forall (fun approver => has_entry "userid" approver = true /\
                              has_entry "description" approver = true)
             (approver :: approvers).
Proof. exact (validated_parts payload msg Hvalid). Qed.

(** The instance of X7 at the sample payload of the template. *)
Lemma X7_validator_sound_witness :
  exists fields, sample_payload = JObj fields /\
                 assoc "pkey" fields = Some (JStr "RBGA").
Proof.
  destruct (X7_validator_sound sample_payload "" eq_refl)
    as (_ & fields & data & Hp & _ & _ & Hpkey & _).
  exists fields. split; assumption.
Defined.

End ValidatorFacts.

(** ** What was created can be read back *)

Module RoundTrips.
Import PyStr Py Server Spec HandlerLogic HandlerFacts DictFacts DraftClaims KeyClaims
       MoreSpec CreateFacts ValidatorFacts.

Lemma validated_is_dict (payload : Json) (msg : string) :
  validate_rbga_request payload = Ok (true, msg) -> exists fields, payload = JObj fields.
Proof.
  intros Hvalid. destruct payload as [| | | | | fields]; [.. | eauto];
    exfalso; revert Hvalid; apply validate_not_dict; reflexivity.
Qed.

Lemma py_getitem_field (fields : list (string * Json)) (name : string) (v : Json) :
  py_getitem (JObj fields) (JStr name) = Ok v -> assoc name fields = Some v.
Proof.
  cbn [py_getitem]. destruct (assoc name fields); [intros [= ->]; reflexivity | discriminate].
Qed.

(** X8.  A request made by a full create answered 201 can be read back:
    the detail handler, asked under the returned key with an empty
    payload, answers 200 with that key, the [summary] and the whole [data]
    of the payload as they were sent, status "Submitted", no resolution,
    and the two times read at creation. *)
Theorem X8_full_create_then_detail (request : FlaskRequest) (w : World) (body : Json)
    (query : list (string * string))
    (Hok : fst (create_request request w) = Ok (body, 201)) :
  let w' := snd (create_request request w) in
  exists fields summary data,
    json_body request = Some (JObj fields) /\
    assoc "summary" fields = Some summary /\
    assoc "data" fields = Some data /\
    get_workitem_detail (generated_key w) (mkFlaskRequest (Some (JObj [])) query) w' =
      (Ok (JObj [("key", JStr (generated_key w));
                 ("summary", summary);
                 ("status", JStr "Submitted");
                 ("resolution", JNull);
                 ("created_at", JStr (clock w (clock_read w)));
                 ("updated_at", JStr (clock w (S (clock_read w))));
                 ("data", data)], 200), w').
Proof.
  intros w'. destruct (create_request_201 request w body Hok)
    as (_ & payload & record & msg & Hdb & Hjson & Hvalid & Hrecord & _).
  destruct (validated_is_dict payload msg Hvalid) as [fields ->].
  destruct Hrecord as (Hsum & _ & _ & _ & _ & _ & Hdata & _ & Hcreated & Hupdated
                       & Hstatus & Hres & _).
  exists fields, (r_summary record), (r_data record).
  split; [exact Hjson |].
  split; [exact (py_getitem_field _ _ _ Hsum) |].
  split; [exact (py_getitem_field _ _ _ Hdata) |].
  rewrite (DetailClaims.get_workitem_detail_run (generated_key w) [] query w' record []).
  - unfold detail_body. cbn. rewrite Hcreated, Hupdated, Hstatus, Hres. reflexivity.
  - subst w'. rewrite Hdb. apply assoc_dict_set_same.
  - reflexivity.
  - left. reflexivity.
Qed.

(** The instance of X8 at the sample payload of the template. *)
Lemma X8_full_create_then_detail_witness :
  fst (get_workitem_detail "RBGA-1" (request_of (JObj [])) world_with_request) =
    Ok (JObj [("key", JStr "RBGA-1");
              ("summary", JStr "Request for Substitution");
              ("status", JStr "Submitted");
              ("resolution", JNull);
              ("created_at", JStr "2024-01-01T00:00:00");
              ("updated_at", JStr "2024-01-01T00:00:01");
              ("data", field_or "data" JNull (entries_of sample_payload))], 200).
Proof.
  destruct (X8_full_create_then_detail (request_of sample_payload) empty_world _ []
              eq_refl) as (fields & summary & data & Hjson & Hsum & Hdata & Hrun).
  injection Hjson as <-. injection Hsum as <-. injection Hdata as <-.
  exact (f_equal fst Hrun).
Defined.

(** A draft create answers 201 to a JSON object only. *)
Lemma create_draft_request_201 (request : FlaskRequest) (w : World) (body : Json) :
  fst (create_draft_request request w) = Ok (body, 201) ->
  exists fields, json_body request = Some (JObj fields) /\ draft_refusal fields = None.
Proof.
  destruct request as [[payload |] query]; [| discriminate].
  destruct (is_dict payload) eqn:Hp.
  - destruct payload as [| | | | | fields]; try discriminate Hp.
    rewrite create_draft_request_run.
    destruct (draft_refusal fields) as [reason |] eqn:Hrefusal; [discriminate |].
    intros _. exists fields. split; [reflexivity | exact Hrefusal].
  - intros Hok. exfalso.
    exact (create_draft_request_not_dict payload query w Hp body Hok).
Qed.

(** X9.  A draft made by a draft create answered 201 can be read back
    under the key of the answer: the detail handler answers 200 with the
    [summary] as it was sent, status "Draft", no resolution, and as [data]
    the [data] of the payload, or the empty object when the payload had
    none. *)
Theorem X9_draft_create_then_detail (request : FlaskRequest) (w : World) (body : Json)
    (query : list (string * string))
    (Hok : fst (create_draft_request request w) = Ok (body, 201)) :
  let w' := snd (create_draft_request request w) in
  exists fields summary,
    json_body request = Some (JObj fields) /\
    assoc "summary" fields = Some summary /\
    assoc "key" (entries_of body) = Some (JStr (draft_key w)) /\
    get_workitem_detail (draft_key w) (mkFlaskRequest (Some (JObj [])) query) w' =
      (Ok (JObj [("key", JStr (draft_key w));
                 ("summary", summary);
                 ("status", JStr "Draft");
                 ("resolution", JNull);
                 ("created_at", JStr (clock w (clock_read w)));
                 ("updated_at", JStr (clock w (S (clock_read w))));
                 ("data", match assoc "data" fields with
                          | Some data => data
                          | None => JObj []
                          end)], 200), w').
Proof.
  intros w'. destruct (create_draft_request_201 request w body Hok)
    as (fields & Hjson & Hrefusal).
  destruct request as [payload args]. cbn [json_body] in Hjson. subst payload.
  subst w'. revert Hok. rewrite create_draft_request_run, Hrefusal.
  cbn [fst snd]. intros [= <-].
  assert (Hsum : exists summary, assoc "summary" fields = Some summary).
  { unfold draft_refusal in Hrefusal. destruct fields as [| f fs]; [discriminate |].
    destruct (first_absent _ (f :: fs)) as [name |] eqn:Habs; [discriminate |].
    apply (first_absent_none _ _ Habs). cbn. auto. }
  destruct Hsum as [summary Hsum].
  exists fields, summary. split; [reflexivity |]. split; [exact Hsum |].
  split; [reflexivity |].
  rewrite (DetailClaims.get_workitem_detail_run (draft_key w) [] query _
             (draft_record fields w) []).
  - unfold detail_body, draft_record, field_or. cbn. rewrite Hsum. reflexivity.
  - cbn [requests_db]. apply assoc_dict_set_same.
  - reflexivity.
  - left. reflexivity.
Qed.

(** The instance of X9 at a draft that has a summary, a project key and an
    applicant only. *)
Lemma X9_draft_create_then_detail_witness :
  fst (get_workitem_detail "RBGA-DRAFT-00000001" (request_of (JObj []))
         world_with_draft) =
    Ok (JObj [("key", JStr "RBGA-DRAFT-00000001");
              ("summary", JStr "Draft");
              ("status", JStr "Draft");
              ("resolution", JNull);
              ("created_at", JStr "2024-01-01T00:00:00");
              ("updated_at", JStr "2024-01-01T00:00:01");
              ("data", JObj [])], 200).
Proof.
  destruct (X9_draft_create_then_detail (request_of minimal_draft) empty_world _ []
              eq_refl) as (fields & summary & Hjson & Hsum & _ & Hrun).
  injection Hjson as <-. injection Hsum as <-.
  exact (f_equal fst Hrun).
Defined.

End RoundTrips.

(** ** The validator accepts what is well formed *)

Module ValidatorComplete.
Import PyStr Py Server Spec DraftClaims ValidationClaims Shape.

Lemma first_absent_all (names : list string) (fields : list (string * Json)) :
  Forall (fun name => has_key name fields = true) names ->
  first_absent names fields = None.
Proof.
  unfold first_absent. induction 1 as [| name names Hname _ IH]; [reflexivity |].
  cbn [find]. rewrite Hname. exact IH.
Qed.

Lemma approvers_pass (approvers : list Json) :
  Forall approver_ok approvers ->
  forall i, first_failure (flat_map approver_checks (numbered_from i approvers)) = None.
Proof.
  induction 1 as [| approver approvers [Huser Hdesc] _ IH]; intros i; [reflexivity |].
  cbn [numbered_from flat_map]. rewrite first_failure_app.
  unfold approver_checks at 1. cbn [fst snd]. rewrite !first_failure_cons.
  rewrite Huser, Hdesc.
  destruct approver; try discriminate Huser. cbn [is_dict].
  cbn [first_failure find option_map]. apply IH.
Qed.

Lemma data_pass (data : list (string * Json)) :
  well_formed_data data -> first_failure (data_checks data) = None.
Proof.
  intros (Hall & Hterm & Hflow & approver1 & approver & approvers & H1 & Happ & Hok).
  assert (F3 : field_or "rbga.field.approver1" JNull data = JObj approver1)
    by (unfold field_or; rewrite H1; reflexivity).
  assert (F4 : field_or "approvers" (JList []) approver1 = JList (approver :: approvers))
    by (unfold field_or; rewrite Happ; reflexivity).
  assert (F1 : in_list (field_or "rbga.field.termCheck" JNull data)
                 [JStr "yes"; JStr "no"] = true)
    by (unfold field_or; destruct Hterm as [-> | ->]; reflexivity).
  assert (F2 : in_list (field_or "rbga.field.workflowType" JNull data)
                 [JStr "Parallel"; JStr "Serial"] = true)
    by (unfold field_or; destruct Hflow as [-> | ->]; reflexivity).
  unfold data_checks. cbv zeta.
  rewrite first_failure_app, first_failure_presence, (first_absent_all _ _ Hall).
  cbn [option_map app]. rewrite !first_failure_cons, F1, F2, F3.
  cbn [has_entry]. unfold has_key. rewrite Happ, F4.
  cbn [is_list items_of length Nat.eqb negb andb].
  apply approvers_pass, Hok.
Qed.

(** X10.  The validator accepts every well-formed request: an object with
    the seven top level fields, [pkey] "RBGA", [issuetype]
    "rbga.issuetype.default", [priority] "default", and as [data] an object
    with the four mandatory fields, [termCheck] "yes" or "no",
    [workflowType] "Parallel" or "Serial", and under [approver1] an object
    whose [approvers] is a non-empty list of objects with [userid] and
    [description]; whatever else the payload and its data hold. *)
Theorem X10_validator_complete (payload : Json)
    (Hshape : well_formed_request payload) :
  validate_rbga_request payload = Ok (true, "").
Proof.
  destruct Hshape as (fields & data & -> & Hall & Hpkey & Hissue & Hprio & Hdata & Hwf).
  assert (Htop : first_failure (top_level_checks fields) = None).
  { unfold top_level_checks.
    rewrite first_failure_app, first_failure_presence, (first_absent_all _ _ Hall).
    cbn [option_map]. rewrite !first_failure_cons. unfold field_or.
    rewrite Hpkey, Hissue, Hprio. reflexivity. }
  rewrite (validate_data fields data Htop Hdata). unfold verdict.
  rewrite (data_pass data Hwf). reflexivity.
Qed.

(** The instance of X10 at the sample payload of the template. *)
Lemma X10_validator_complete_witness :
  validate_rbga_request sample_payload = Ok (true, "").
Proof.
  apply X10_validator_complete.
  do 2 eexists. split; [reflexivity |].
  split; [repeat constructor |]. do 4 (split; [reflexivity |]).
  split; [repeat constructor |]. split; [left; reflexivity |].
  split; [left; reflexivity |].
  do 3 eexists. split; [reflexivity |]. split; [reflexivity |].
  repeat constructor.
Defined.

End ValidatorComplete.

(** ** The shape of the stored records *)

Module StoreInvariant.
Import PyStr Py Server Spec HandlerLogic HandlerFacts DictFacts DraftClaims KeyClaims
       MoreSpec CreateFacts ValidatorFacts RoundTrips Shape.

Lemma dict_set_forall {V} (P : string * V -> Prop) (k : string) (v : V)
    (d : list (string * V)) :
  Forall P d -> P (k, v) -> Forall P (dict_set k v d).
Proof.
  intros Hd Hv. induction Hd as [| [k' v'] d Hx Hd IH]; cbn [dict_set].
  - constructor; [exact Hv | constructor].
  - destruct (String.eqb_spec k k') as [<- | Hne]; constructor; assumption.
Qed.

(** The record of a full create answered 201. *)
Lemma full_record_ok (payload : Json) (msg : string) (w : World) (record : Request) :
  validate_rbga_request payload = Ok (true, msg) ->
  full_record_of payload w record ->
  record_ok (generated_key w, record).
Proof.
  intros Hvalid Hrecord.
  destruct (validated_parts payload msg Hvalid)
    as (_ & fields & data & -> & Hdata & _ & Hpkey & Hissue & Hprio & _).
  destruct Hrecord as (_ & Hp & Hi & _ & Hpr & _ & Hd & Hkey & _ & _ & Hstatus & Hres
                       & Hstage & Happ & Hdraft).
  apply py_getitem_field in Hp, Hi, Hpr, Hd.
  rewrite Hpkey in Hp. rewrite Hissue in Hi. rewrite Hprio in Hpr. rewrite Hdata in Hd.
  injection Hp as Hp. injection Hi as Hi. injection Hpr as Hpr. injection Hd as Hd.
  unfold record_ok. cbn [fst snd].
  repeat (split; [congruence |]). left.
  repeat split; try congruence. rewrite <- Hd. reflexivity.
Qed.

(** The record of a draft create answered 201. *)
Lemma draft_record_ok (fields : list (string * Json)) (w : World) :
  draft_refusal fields = None -> record_ok (draft_key w, draft_record fields w).
Proof.
  intros Hrefusal. unfold record_ok, draft_record. cbn [fst snd r_key r_pkey r_resolution
    r_approvals r_status r_workflow_stage r_is_draft r_attachment_ids].
  split; [reflexivity |]. split.
  - unfold draft_refusal in Hrefusal. destruct fields as [| f fs]; [discriminate |].
    destruct (first_absent _ (f :: fs)); [discriminate |].
    destruct (py_eq _ (JStr "RBGA")) eqn:Hpkey; [| discriminate].
    apply py_eq_str in Hpkey. exact Hpkey.
  - split; [reflexivity |]. split; [reflexivity |]. right. repeat split.
Qed.

Lemma dispatch_store_ok (c : Call) (w : World) :
  store_ok w -> store_ok (snd (dispatch c w)).
Proof.
  unfold store_ok. intros Hstore.
  destruct c as [request | request | key | key request | key request | | request |];
    cbn [dispatch].
  - pose proof (create_request_outcome request w) as H. unfold wp in H.
    destruct H as (_ & _ & body & status & _ & Hcases).
    destruct Hcases as [[_ ->] | [[_ ->] | (_ & _ & payload & record & msg & -> & _
                                                 & Hvalid & Hrecord & _)]];
      [exact Hstore | exact Hstore |].
    apply dict_set_forall; [exact Hstore |].
    exact (full_record_ok payload msg w record Hvalid Hrecord).
  - destruct (fst (create_draft_request request w)) as [[body status] | e] eqn:Hr.
    + destruct (Z.eq_dec status 201) as [-> | Hne].
      * destruct (create_draft_request_201 request w body Hr) as (fields & Hjson & Hrefusal).
        destruct request as [payload query]. cbn [json_body] in Hjson. subst payload.
        rewrite create_draft_request_run, Hrefusal. cbn [snd requests_db].
        apply dict_set_forall; [exact Hstore |].
        exact (draft_record_ok fields w Hrefusal).
      * pose proof (create_draft_request_effect request w) as H. unfold wp in H.
        destruct H as (_ & body' & status' & Hr' & [[_ ->] | [-> _]]);
          [exact Hstore |].
        rewrite Hr in Hr'. injection Hr' as _ Hst. contradiction.
    + pose proof (create_draft_request_effect request w) as H. unfold wp in H.
      destruct H as (_ & body' & status' & Hr' & _). rewrite Hr in Hr'. discriminate Hr'.
  - rewrite (proj1 (proj1 (get_status_frame key w))). exact Hstore.
  - rewrite (proj1 (proj1 (get_workitem_detail_frame key request w))). exact Hstore.
  - rewrite (proj1 (proj1 (get_workitem_attachments_frame key request w))). exact Hstore.
  - rewrite (proj1 (proj1 (get_rbga_template_frame w))). exact Hstore.
  - rewrite (proj1 (proj1 (list_requests_frame request w))). exact Hstore.
  - rewrite (proj1 (proj1 (health_check_frame w))). exact Hstore.
Qed.

(** X11.  Whatever calls are served, in whatever order, the store keeps
    its shape: every record is stored under its own key, is of project
    "RBGA", has no resolution and no approval, and is either submitted, in
    stage "Initial Review", with the fixed issue type and priority and an
    object as data, or a draft in stage "Draft" without attachment ids. *)
Theorem X11_store_shape_kept (calls : list Call) (w : World)
    (Hstore : store_ok w) :
  store_ok (snd (serve_all calls w)).
Proof.
  revert w Hstore. induction calls as [| c calls IH]; intros w Hstore; [exact Hstore |].
  cbn [serve_all]. pose proof (dispatch_store_ok c w Hstore) as Hstep.
  destruct (dispatch c w) as [r w']. cbn [snd] in Hstep.
  specialize (IH w' Hstep). destruct (serve_all calls w') as [rs w'']. exact IH.
Qed.

(** The instance of X11 at a server just started that serves a draft
    create, a full create and a listing. *)
Lemma X11_store_shape_kept_witness :
  store_ok (snd (serve_all [PutCreateDraftRequest (request_of minimal_draft);
                            PutCreateRequest (request_of sample_payload);
                            GetRequests (mkFlaskRequest None [])] empty_world)).
Proof. apply X11_store_shape_kept. constructor. Defined.

End StoreInvariant.

(** ** The listing *)

Module ListingFacts.
Import PyStr Py Server Spec DraftClaims Shape.

Lemma filter_all {A} (f : A -> bool) (l : list A) :
  Forall (fun a => f a = true) l -> filter f l = l.
Proof.
  induction 1 as [| a l Ha _ IH]; [reflexivity |].
  cbn [filter]. rewrite Ha, IH. reflexivity.
Qed.





End ListingFacts.

(** ** The calls of the client *)

Module ClientFacts.
Import PyStr Py Client Spec.

(** The call that a method sends. *)
Lemma perform_call (self : WorkOnAPI) (c : ClientCall) (net : Network) :
  exists call,
    snd (perform self c net) = [call] /\
    fst (perform self c net) =
      (response <-- net call ;;
       _ <-- raise_for_status response ;; response_json response) /\
    headers call = session_headers self /\
    exists path, url call = base_url self ++ String "/" path.
Proof.
  destruct c; cbn [perform];
    unfold create_rbga_request, create_draft_rbga_request, get_request_status,
      get_workitem_detail, get_attachments, bind, session_request, send, finish, liftR;
    match goal with
    | |- context [net ?call] =>
        exists call; destruct (net call) as [response | e]; cbn [fst snd bindR app];
        (split; [reflexivity |]); (split; [reflexivity |]);
        (split; [reflexivity |]); eexists; reflexivity
    end.
Qed.

(** X13.  Each of the five methods of the client sends exactly one call,
    whatever the network does, and hides nothing: a failure of the network
    is raised as it is, a status from 400 to 599 raises [HTTPError], and a
    value is returned only when the network answered with another status
    and a body that is JSON, the value being that body. *)
Theorem X13_client_outcome (self : WorkOnAPI) (c : ClientCall) (net : Network) :
  exists call,
    snd (perform self c net) = [call] /\
    (forall e, net call = Raise e -> fst (perform self c net) = Raise e) /\
    (forall response,
        net call = Ok response ->
        400 <= status_code response < 600 ->
        exists msg, fst (perform self c net) = Raise (HTTPError msg)) /\
    (forall v,
        fst (perform self c net) = Ok v ->
        exists response,
          net call = Ok response /\ body response = Some v /\
          ~ 400 <= status_code response < 600).
Proof.
  destruct (perform_call self c net) as (call & Hsent & Hresult & _).
  exists call. split; [exact Hsent |]. rewrite Hresult. split; [| split].
  - intros e ->. reflexivity.
  - intros response -> [Hlo Hhi]. cbn [bindR]. unfold raise_for_status.
    apply Z.leb_le in Hlo. apply Z.ltb_lt in Hhi. rewrite Hlo, Hhi.
    eexists. reflexivity.
  - intros v. destruct (net call) as [response | e]; [| discriminate].
    cbn [bindR]. unfold raise_for_status, response_json.
    destruct (400 <=? status_code response) eqn:Hlo;
      destruct (status_code response <? 600) eqn:Hhi; cbn [andb bindR];
      try discriminate;
      (destruct (body response) as [v' |] eqn:Hbody; [| discriminate]);
      intros [= ->]; exists response;
      (split; [reflexivity |]); (split; [exact Hbody |]);
      first [apply Z.leb_gt in Hlo | apply Z.ltb_ge in Hhi]; lia.
Qed.

Lemma rstrip_slash_rest (s : string) :
  exists t, s = rstrip_slash s ++ t /\
            forall_chars (fun c => Ascii.eqb c "/") t = true.
Proof.
  induction s as [| c s (t & Hs & Ht)].
  - exists "". split; reflexivity.
  - cbn [rstrip_slash]. destruct (rstrip_slash s) as [| a r] eqn:Hr.
    + cbn [append] in Hs. subst t. destruct (Ascii.eqb c "/") eqn:Hc.
      * exists (String c s). split; [reflexivity |].
        cbn [forall_chars]. rewrite Hc. exact Ht.
      * exists s. split; [reflexivity | exact Ht].
    + exists t. split; [| exact Ht]. cbn [append]. f_equal. exact Hs.
Qed.

Lemma rstrip_slash_end (s t : string) : rstrip_slash s <> t ++ "/".
Proof.
  revert t. induction s as [| c s IH]; intros t.
  - destruct t; discriminate.
  - cbn [rstrip_slash]. destruct (rstrip_slash s) as [| a r] eqn:Hr.
    + destruct (Ascii.eqb_spec c "/") as [-> | Hc].
      * destruct t; discriminate.
      * destruct t as [| c' t]; cbn [append].
        -- intros [= Heq]. contradiction.
        -- intros [= _ Heq]. destruct t; discriminate Heq.
    + destruct t as [| c' t]; cbn [append].
      * discriminate.
      * intros [= _ Heq]. exact (IH t Heq).
Qed.

(** X14.  A client made from a base URL and a key id: the base URL it
    keeps is the one given without its trailing slashes, whatever their
    number, and every call it sends goes to that base followed by a path
    that starts with one slash, with the header [Content-Type]
    "application/json", and with the header [KeyId] exactly when the key id
    is truthy: no key id, or an empty one, sends no [KeyId] header. *)
Theorem X14_client_addresses (base : string) (key : Json) :
  exists self,
    new_WorkOnAPI [JStr base; key] [] = Ok self /\
    key_id self = key /\
    (exists t, base = base_url self ++ t /\
               forall_chars (fun c => Ascii.eqb c "/") t = true) /\
    (forall t, base_url self <> t ++ "/") /\
    forall c net call,
      In call (snd (perform self c net)) ->
      (exists path, url call = base_url self ++ String "/" path) /\
      assoc "Content-Type" (headers call) = Some (JStr "application/json") /\
      assoc "KeyId" (headers call) = (if truthy key then Some key else None) /\
      length (headers call) = (if truthy key then 2 else 1)%nat.
Proof.
  set (self := mkWorkOnAPI (rstrip_slash base) key
                 (if truthy key
                  then [("Content-Type", JStr CONTENT_TYPE_JSON); ("KeyId", key)]
                  else [("Content-Type", JStr CONTENT_TYPE_JSON)])).
  exists self. split; [reflexivity |]. cbn [key_id base_url self].
  split; [reflexivity |]. split; [apply rstrip_slash_rest |].
  split; [apply rstrip_slash_end |].
  intros c net call Hin.
  destruct (perform_call self c net) as (call' & Hsent & _ & Hheaders & Hurl).
  rewrite Hsent in Hin. destruct Hin as [<- | []].
  split; [exact Hurl |]. rewrite Hheaders. cbn [session_headers self].
  destruct (truthy key); repeat split.
Qed.

End ClientFacts.

(** ** The client against the mock server *)

Module ClientServer.
Import PyStr Py Server Spec HandlerLogic DictFacts DraftClaims ValidationClaims
       MoreSpec CreateFacts ValidatorFacts RoundTrips Shape ValidatorComplete
       ClientSample.

(** The payload of [create_rbga_request]. *)
Lemma create_rbga_request_payload (self : Client.WorkOnAPI) (summary applicant : string)
    (data : Json) (source_system : string) (net : Client.Network) :
  map Client.json
      (snd (Client.create_rbga_request self summary applicant data source_system net)) =
    [Some (JObj [("summary", JStr summary);
                 ("pkey", JStr "RBGA");
                 ("issuetype", JStr "rbga.issuetype.default");
                 ("applicant", JStr (lower applicant));
                 ("priority", JStr "default");
                 ("sourceSystem", JStr source_system);
                 ("data", data)])].
Proof.
  unfold Client.create_rbga_request, Client.bind, Client.session_request, Client.send,
    Client.finish, Client.liftR.
  match goal with |- context [net ?call] => destruct (net call) end; reflexivity.
Qed.

(** The payload of [create_draft_rbga_request]. *)
Lemma create_draft_rbga_request_payload (self : Client.WorkOnAPI)
    (summary applicant : string) (data : Json) (source_system : string)
    (net : Client.Network) :
  map Client.json
      (snd (Client.create_draft_rbga_request self summary applicant data
              source_system net)) =
    [Some (JObj [("summary", JStr summary);
                 ("pkey", JStr "RBGA");
                 ("issuetype", JStr "rbga.issuetype.default");
                 ("applicant", JStr (lower applicant));
                 ("priority", JStr "default");
                 ("sourceSystem", JStr source_system);
                 ("data", data);
                 ("draft", JBool true)])].
Proof.
  unfold Client.create_draft_rbga_request, Client.bind, Client.session_request,
    Client.send, Client.finish, Client.liftR.
  match goal with |- context [net ?call] => destruct (net call) end; reflexivity.
Qed.

(** X15.  The mock server never refuses a draft that the client sends:
    whatever the summary, the applicant, the data and the source system,
    the payload that [create_draft_rbga_request] puts on the wire is
    answered 201 by the draft create, and the draft stored under the key of
    the answer holds the summary, the data and the source system as given
    and the applicant in lower case. *)
Theorem X15_client_draft_accepted (self : Client.WorkOnAPI)
    (summary applicant : string) (data : Json) (source_system : string)
    (net : Client.Network) (query : list (string * string)) (w : World) :
  exists payload,
    map Client.json
        (snd (Client.create_draft_rbga_request self summary applicant data
                source_system net)) = [Some payload] /\
    let request := mkFlaskRequest (Some payload) query in
    fst (create_draft_request request w) =
      Ok (JObj [("success", JBool true);
                ("message", JStr "RBGA draft request created successfully");
                ("key", JStr (draft_key w));
                ("status", JStr "Draft");
                ("created_at", JStr (clock w (clock_read w)))], 201) /\
    exists record,
      assoc (draft_key w) (requests_db (snd (create_draft_request request w))) =
        Some record /\
      r_summary record = JStr summary /\
      r_applicant record = JStr (lower applicant) /\
      r_sourceSystem record = JStr source_system /\
      r_data record = data /\
      r_status record = "Draft".
Proof.
  eexists. split; [apply create_draft_rbga_request_payload |].
  cbv zeta. rewrite create_draft_request_run. cbn [draft_refusal first_absent find
    has_key assoc String.eqb Ascii.eqb Bool.eqb negb py_eq fst snd requests_db].
  split; [reflexivity |]. eexists. split; [apply assoc_dict_set_same |].
  repeat split.
Qed.

(** What the top level checks say of a payload of [create_rbga_request]. *)
Lemma client_payload_top_level (summary applicant source_system : string) (data : Json) :
  first_failure
    (top_level_checks [("summary", JStr summary);
                       ("pkey", JStr "RBGA");
                       ("issuetype", JStr "rbga.issuetype.default");
                       ("applicant", JStr applicant);
                       ("priority", JStr "default");
                       ("sourceSystem", JStr source_system);
                       ("data", data)]) = None.
Proof. reflexivity. Qed.

(** X16.  What the mock server answers to a request that the client
    sends depends on the data alone.  When the data is a well-formed
    object whose attachments, if any, are a list of objects, the payload
    that [create_rbga_request] puts on the wire is answered 201 with the
    generated key; and an answer 201 is given to well-formed data only. *)
Theorem X16_client_request_accepted (self : Client.WorkOnAPI)
    (summary applicant : string) (data : Json) (source_system : string)
    (net : Client.Network) (query : list (string * string)) (w : World) :
  exists payload,
    map Client.json
        (snd (Client.create_rbga_request self summary applicant data
                source_system net)) = [Some payload] /\
    let request := mkFlaskRequest (Some payload) query in
    (forall fields,
        data = JObj fields -> well_formed_data fields ->
        attach_well_formed fields = true ->
        fst (create_request request w) =
          Ok (JObj [("key", JStr (generated_key w))], 201)) /\
    (forall body,
        fst (create_request request w) = Ok (body, 201) ->
        exists fields, data = JObj fields /\ well_formed_data fields).
Proof.
  eexists. split; [apply create_rbga_request_payload |]. cbv zeta. split.
  - intros fields -> Hwf Hattach.
    pose proof (create_request_accepted _ fields query w
                  (client_payload_top_level summary (lower applicant) source_system
                     (JObj fields))
                  eq_refl (data_pass fields Hwf) Hattach) as H.
    unfold wp in H. exact (proj1 H).
  - intros body Hok.
    destruct (create_request_201 _ w body Hok)
      as (_ & payload & record & msg & _ & Hjson & Hvalid & _).
    cbn [json_body] in Hjson. injection Hjson as <-.
    destruct (validated_parts _ msg Hvalid)
      as (_ & fields & d & Hp & Hdata & _ & _ & _ & _ & Habs & Hterm & Hflow & Happ).
    injection Hp as <-. cbn in Hdata. injection Hdata as ->.
    exists d. split; [reflexivity |]. unfold well_formed_data.
    split; [| split; [exact Hterm | split; [exact Hflow | exact Happ]]].
    apply Forall_forall. intros name Hin.
    destruct (first_absent_none _ _ Habs name Hin) as [v Hv].
    unfold has_key. rewrite Hv. reflexivity.
Qed.

Lemma sample_data_well_formed :
  well_formed_data (entries_of create_sample_rbga_data).
Proof.
  split; [repeat constructor |]. split; [left; reflexivity |].
  split; [right; reflexivity |].
  do 3 eexists. split; [reflexivity |]. split; [reflexivity |].
  repeat constructor.
Qed.

(** X17.  The sample data that the client ships is accepted by the mock
    server: in every state of the server, and whatever the summary, the
    applicant and the source system, the payload that [create_rbga_request]
    sends with [create_sample_rbga_data()] is answered 201 with the
    generated key, and the record stored under that key holds the sample
    data as it is. *)
Theorem X17_sample_data_accepted (self : Client.WorkOnAPI)
    (summary applicant source_system : string)
    (net : Client.Network) (query : list (string * string)) (w : World) :
  exists payload,
    map Client.json
        (snd (Client.create_rbga_request self summary applicant
                create_sample_rbga_data source_system net)) = [Some payload] /\
    let request := mkFlaskRequest (Some payload) query in
    fst (create_request request w) = Ok (JObj [("key", JStr (generated_key w))], 201) /\
    exists record,
      assoc (generated_key w) (requests_db (snd (create_request request w))) =
        Some record /\
      r_status record = "Submitted" /\
      r_data record = create_sample_rbga_data.
Proof.
  eexists. split; [apply create_rbga_request_payload |]. cbv zeta.
  pose proof (create_request_accepted _ (entries_of create_sample_rbga_data) query w
                (client_payload_top_level summary (lower applicant) source_system
                   create_sample_rbga_data)
                eq_refl (data_pass _ sample_data_well_formed) eq_refl) as H.
  unfold wp in H. destruct H as (Hr & record & Hdb & _ & Hstatus & _ & Hdata).
  split; [exact Hr |]. exists record. rewrite Hdb.
  split; [apply assoc_dict_set_same |]. split; [exact Hstatus | exact Hdata].
Qed.

(** The fields of the template that are marked as required. *)
Lemma template_required_fields :
  map fst (filter (fun field =>
                     py_eq (field_or "required" JNull (entries_of (snd field)))
                           (JBool true))
                  (entries_of RBGA_FIELDS)) = rbga_required.
Proof. reflexivity. Qed.

(** X18.  The template is consistent with the validator.  The template
    answer is the same in every state, the data fields it marks as required
    are the four that the validator demands, in the same order, and the
    sample payload it carries, sent back as it is to the full create, is
    answered 201 with the generated key in every state of the server. *)
Theorem X18_template_sample_accepted :
  exists template sample,
    (forall w, get_rbga_template w = (Ok (JObj template, 200), w)) /\
    assoc "sample_payload" template = Some sample /\
    assoc "data_fields" template = Some RBGA_FIELDS /\
    map fst (filter (fun field =>
                       py_eq (field_or "required" JNull (entries_of (snd field)))
                             (JBool true))
                    (entries_of RBGA_FIELDS)) = rbga_required /\
    forall query w',
      fst (create_request (mkFlaskRequest (Some sample) query) w') =
        Ok (JObj [("key", JStr (generated_key w'))], 201).
Proof.
  exists (entries_of template_info), sample_payload.
  split; [intros w; reflexivity |]. split; [reflexivity |].
  split; [reflexivity |]. split; [exact template_required_fields |].
  intros query w'.
  pose proof (create_request_accepted (entries_of sample_payload)
                (entries_of (field_or "data" JNull (entries_of sample_payload)))
                query w' eq_refl eq_refl eq_refl eq_refl) as H.
  unfold wp in H. exact (proj1 H).
Qed.

End ClientServer.

(** ** Attachments sent are attachments found *)

Module AttachmentRoundTrip.
Import PyStr Py Server Spec HandlerLogic HandlerFacts DictFacts DraftClaims KeyClaims
       ValidationClaims MoreSpec CreateFacts ValidatorFacts RoundTrips Shape ListingFacts.

(** The loop over items that are all objects, step by step. *)
Lemma store_attachments_run (items : list (list (string * Json))) :
  forall i request_key ids w,
    wp (store_attachments i (map JObj items) request_key ids)
       (fun r w' =>
          let news := new_attachments (uuid_source w) (clock w) request_key
                        (uuid_drawn w) (clock_read w) i items in
          r = Ok (ids ++ map fst news)%list /\
          requests_db w' = requests_db w /\
          attachments_db w' = fold_left put news (attachments_db w)) w.
Proof.
  induction items as [| item items IH]; intros i request_key ids w.
  - cbn [store_attachments map]. wp_auto. cbn. rewrite app_nil_r. repeat split.
  - cbn [store_attachments map].
    repeat first [ progress cbn [py_get] | wp_step ].
    eapply wp_conseq; [apply IH |]. cbn [requests_db attachments_db uuid_source
      uuid_drawn clock clock_read]. cbv zeta.
    intros r w' (-> & Hdb & Hadb). cbn [new_attachments map fst fold_left].
    rewrite <- app_assoc. split; [reflexivity |]. split; [exact Hdb |].
    exact Hadb.
Qed.

(** A full create of a valid payload whose attachments are objects: what
    it writes to the two stores. *)
Lemma create_request_attachments (fields data : list (string * Json))
    (items : list (list (string * Json))) (query : list (string * string))
    (w : World) (msg : string) :
  validate_rbga_request (JObj fields) = Ok (true, msg) ->
  assoc "data" fields = Some (JObj data) ->
  assoc "rbga.field.attach" data = Some (JList (map JObj items)) ->
  wp (create_request (mkFlaskRequest (Some (JObj fields)) query))
     (fun r w' =>
        r = Ok (JObj [("key", JStr (generated_key w))], 201) /\
        attachments_db w' = fold_left put (created_attachments w items) (attachments_db w) /\
        exists record,
          requests_db w' = dict_set (generated_key w) record (requests_db w)) w.
Proof.
  intros Hvalid Hdata Ha.
  destruct (validated_parts _ msg Hvalid) as (_ & fields' & data' & Hp & _ & Habs & _).
  injection Hp as <-.
  pose proof (first_absent_none _ _ Habs) as Hhas.
  destruct (Hhas "summary") as [v1 H1]; [cbn; auto 8 |].
  destruct (Hhas "pkey") as [v2 H2]; [cbn; auto 8 |].
  destruct (Hhas "issuetype") as [v3 H3]; [cbn; auto 8 |].
  destruct (Hhas "applicant") as [v4 H4]; [cbn; auto 8 |].
  destruct (Hhas "priority") as [v5 H5]; [cbn; auto 8 |].
  destruct (Hhas "sourceSystem") as [v6 H6]; [cbn; auto 8 |].
  assert (Htruthy : truthy (JObj fields) = true)
    by (destruct fields; [discriminate H1 | reflexivity]).
  unfold create_request.
  repeat first [ rewrite Htruthy | rewrite Hvalid
               | rewrite (py_getitem_dict _ _ _ H1)
               | rewrite (py_getitem_dict _ _ _ H2)
               | rewrite (py_getitem_dict _ _ _ H3)
               | rewrite (py_getitem_dict _ _ _ H4)
               | rewrite (py_getitem_dict _ _ _ H5)
               | rewrite (py_getitem_dict _ _ _ H6)
               | rewrite (py_getitem_dict _ _ _ Hdata)
               | rewrite (py_getitem_dict _ _ _ Ha)
               | rewrite Ha
               | progress cbn [json_body py_in negb py_iter]
               | progress unfold has_key
               | wp_step ].
  eapply wp_conseq; [apply store_attachments_run |].
  cbn [requests_db attachments_db uuid_source uuid_drawn clock clock_read]. cbv zeta.
  intros r w' (-> & Hdb & Hadb).
  repeat wp_step. split; [reflexivity |]. split; [exact Hadb |].
  eexists. rewrite Hdb. reflexivity.
Qed.

Lemma dict_set_fresh {V} (k : string) (v : V) (d : list (string * V)) :
  assoc k d = None -> dict_set k v d = (d ++ [(k, v)])%list.
Proof.
  induction d as [| [k' v'] d IH]; cbn [assoc dict_set app]; [reflexivity |].
  destruct (String.eqb k k'); [discriminate |]. intros H. rewrite (IH H). reflexivity.
Qed.

Lemma assoc_app_none {V} (k : string) (d d' : list (string * V)) :
  assoc k d = None -> assoc k (d ++ d') = assoc k d'.
Proof.
  induction d as [| [k' v'] d IH]; cbn [assoc app]; [reflexivity |].
  destruct (String.eqb k k'); [discriminate | exact IH].
Qed.

(** Writing entries with new, distinct keys appends them. *)
Lemma fold_put_fresh (news : list (string * Attachment)) :
  forall adb,
    NoDup (map fst news) ->
    Forall (fun id => assoc id adb = None) (map fst news) ->
    fold_left put news adb = (adb ++ news)%list.
Proof.
  induction news as [| [id att] news IH]; intros adb Hdup Hnew; cbn [fold_left map fst] in *.
  - rewrite app_nil_r. reflexivity.
  - inversion Hdup as [| ? ? Hnotin Hdup']; subst.
    inversion Hnew as [| ? ? Hid Hnew']; subst.
    unfold put at 2. cbn [fst snd]. rewrite (dict_set_fresh _ _ _ Hid).
    rewrite IH; [rewrite <- app_assoc; reflexivity | exact Hdup' |].
    apply Forall_forall. intros id' Hin.
    rewrite Forall_forall in Hnew'. rewrite (assoc_app_none _ _ _ (Hnew' id' Hin)).
    cbn [assoc]. destruct (String.eqb_spec id' id) as [-> | _]; [contradiction | reflexivity].
Qed.

Lemma new_attachments_linked source clock request_key (items : list (list (string * Json))) :
  forall u c i,
    Forall (fun att => String.eqb (a_request_key (snd att)) request_key = true)
           (new_attachments source clock request_key u c i items).
Proof.
  induction items as [| item items IH]; intros u c i; cbn [new_attachments];
    constructor; [cbn; apply String.eqb_refl | apply IH].
Qed.

Lemma new_attachments_length source clock request_key (items : list (list (string * Json))) :
  forall u c i,
    length (new_attachments source clock request_key u c i items) = length items.
Proof.
  induction items as [| item items IH]; intros u c i; cbn [new_attachments length];
    [reflexivity | rewrite IH; reflexivity].
Qed.

(** The attachments handler asked for everything, as the client asks. *)
Lemma get_workitem_attachments_all (request_key user : string)
    (query : list (string * string)) (w : World) (record : Request) :
  assoc request_key (requests_db w) = Some record ->
  get_workitem_attachments request_key
    (mkFlaskRequest (Some (JObj [("user", JStr user); ("sendAll", JStr "true")])) query) w =
    (let linked := attachments_of request_key (attachments_db w) in
     (Ok (JObj [("attachments", JList (map attachment_entry linked));
                ("count", JInt (Z.of_nat (length linked)))], 200), w)).
Proof.
  intros Hkey. apply wp_eq. unfold get_workitem_attachments.
  assert (Htrue : String.eqb (lower "true") "true" = true) by reflexivity.
  repeat first [ rewrite Hkey | rewrite Htrue
               | progress cbn [json_body py_get bindR py_lower truthy assoc String.eqb
                               Ascii.eqb Bool.eqb]
               | wp_step ];
    reflexivity.
Qed.

(** X19.  Attachments sent with a full create are the attachments found.
    For a create answered 201 whose [rbga.field.attach] is a list of
    objects, when the ids drawn are new and distinct and no attachment is
    left over under the generated key, the attachments handler asked for
    everything under the returned key, as the client asks, answers 200 with
    one entry per item, in the order of the items, and their number as
    count: the entry of item number i has the id drawn for it, the
    [filename] of the item or "attachment_i", its [file] or the empty
    string, and the time read for it. *)
Theorem X19_attachments_round_trip (fields data : list (string * Json))
    (items : list (list (string * Json))) (query query' : list (string * string))
    (user : string) (w : World) (body : Json)
    (Hdata : assoc "data" fields = Some (JObj data))
    (Hattach : assoc "rbga.field.attach" data = Some (JList (map JObj items)))
    (Hok : fst (create_request (mkFlaskRequest (Some (JObj fields)) query) w) =
           Ok (body, 201))
    (Hdup : NoDup (map fst (created_attachments w items)))
    (Hnew : Forall (fun id => assoc id (attachments_db w) = None)
                   (map fst (created_attachments w items)))
    (Hnone : attachments_of (generated_key w) (attachments_db w) = []) :
  let w' := snd (create_request (mkFlaskRequest (Some (JObj fields)) query) w) in
  get_workitem_attachments (generated_key w)
    (mkFlaskRequest (Some (JObj [("user", JStr user); ("sendAll", JStr "true")])) query')
    w' =
    (Ok (JObj [("attachments",
                JList (map attachment_entry (created_attachments w items)));
               ("count", JInt (Z.of_nat (length items)))], 200), w').
Proof.
  intros w'.
  destruct (create_request_201 _ w body Hok)
    as (_ & payload & _ & msg & _ & Hjson & Hvalid & _).
  cbn [json_body] in Hjson. injection Hjson as <-.
  pose proof (create_request_attachments fields data items query w msg
                Hvalid Hdata Hattach) as H.
  unfold wp in H. fold w' in H. destruct H as (_ & Hadb & record & Hdb).
  rewrite (get_workitem_attachments_all (generated_key w) user query' w' record)
    by (rewrite Hdb; apply assoc_dict_set_same).
  cbv zeta. rewrite Hadb, (fold_put_fresh _ _ Hdup Hnew).
  unfold attachments_of. rewrite filter_app. fold (attachments_of (generated_key w)
                                                    (attachments_db w)).
  rewrite Hnone. cbn [app]. unfold created_attachments.
  rewrite (filter_all _ _ (new_attachments_linked _ _ _ items _ _ _)).
  rewrite new_attachments_length. reflexivity.
Qed.

(** The instance of X19 at the sample payload of the template, sent to a
    server just started. *)
Lemma X19_attachments_round_trip_witness :
  fst (get_workitem_attachments "RBGA-1"
         (request_of (JObj [("user", JStr "ntid"); ("sendAll", JStr "true")]))
         world_with_request) =
    Ok (JObj [("attachments",
               JList [JObj [("id", JStr "00000001-0000-0000-0000-000000000000");
                            ("filename", JStr "example.pdf");
                            ("file", JStr "Base64EncodedString");
                            ("created_at", JStr "2024-01-01T00:00:02")]]);
              ("count", JInt 1)], 200).
Proof.
  refine (f_equal fst
            (X19_attachments_round_trip
               (entries_of sample_payload)
               (entries_of (field_or "data" JNull (entries_of sample_payload)))
               [[("filename", JStr "example.pdf"); ("file", JStr "Base64EncodedString")]]
               [] [] "ntid" empty_world _ eq_refl eq_refl eq_refl _ _ eq_refl)).
  - repeat constructor. intros [].
  - repeat constructor.
Defined.

End AttachmentRoundTrip.

(** ** The queries of the client against the mock server *)

Module ClientQueries.
Import PyStr Py Server Spec HandlerLogic DictFacts DraftClaims Shape.





Lemma assoc_in {V} (k : string) (v : V) (d : list (string * V)) :
  assoc k d = Some v -> In (k, v) d.
Proof.
  induction d as [| [k' v'] d IH]; cbn [assoc In]; [discriminate |].
  destruct (String.eqb_spec k k') as [-> | _].
  - intros [= ->]. left. reflexivity.
  - intros H. right. exact (IH H).
Qed.

(** The payload of [get_workitem_detail] of the client. *)
Lemma get_workitem_detail_payload (self : Client.WorkOnAPI) (request_key : string)
    (custom_fields system_fields : option (list string)) (history : bool)
    (net : Client.Network) :
  map Client.json
      (snd (Client.get_workitem_detail self request_key custom_fields system_fields
              history net)) =
    [Some (JObj ((if history then [("approvalHistory", JStr "yes")] else [])
                 ++ (if Client.nonempty custom_fields
                     then [("customFields", Client.field_list custom_fields)]
                     else [])
                 ++ (if Client.nonempty system_fields
                     then [("systemFields", Client.field_list system_fields)]
                     else [])))].
Proof.
  unfold Client.get_workitem_detail, Client.bind, Client.session_request, Client.send,
    Client.finish, Client.liftR.
  match goal with |- context [net ?call] => destruct (net call) end;
    destruct history, (Client.nonempty custom_fields), (Client.nonempty system_fields);
    reflexivity.
Qed.

(** X21.  What the mock server answers to [get_workitem_detail] of the
    client for a stored request, in a store of the shape that the creates
    keep, when the request is submitted or no custom field is asked for:
    200, never 500.  The answer carries the key, the summary, the status,
    the resolution and the two times of the record; an approval history
    that is always empty, when it is asked for; and either the listed
    custom fields that the data has, or the whole data.  The system fields
    that the client sends make no difference. *)
Theorem X21_client_detail_query (self : Client.WorkOnAPI) (request_key : string)
    (custom_fields system_fields : option (list string)) (history : bool)
    (net : Client.Network) (query : list (string * string)) (w : World)
    (record : Request)
    (Hstore : store_ok w)
    (Hkey : assoc request_key (requests_db w) = Some record)
    (Hdata : r_status record = "Submitted" \/ Client.nonempty custom_fields = false) :
  exists payload,
    map Client.json
        (snd (Client.get_workitem_detail self request_key custom_fields system_fields
                history net)) = [Some payload] /\
    get_workitem_detail request_key (mkFlaskRequest (Some payload) query) w =
      (Ok (JObj ([("key", JStr request_key);
                  ("summary", r_summary record);
                  ("status", JStr (r_status record));
                  ("resolution", JNull);
                  ("created_at", JStr (r_created_at record));
                  ("updated_at", JStr (r_updated_at record))]
                 ++ (if history then [("approvalHistory", JList [])] else [])
                 ++ match custom_fields with
                    | Some (name :: names) =>
                        [("customFields",
                          JObj (custom_selection (name :: names)
                                  (entries_of (r_data record))))]
                    | _ => [("data", r_data record)]
                    end), 200), w).
Proof.
  eexists. split; [apply get_workitem_detail_payload |].
  unfold store_ok in Hstore. rewrite Forall_forall in Hstore.
  destruct (Hstore _ (assoc_in _ _ _ Hkey)) as (_ & _ & Hres & Happ & Hshape).
  cbn [fst snd] in Hres, Happ, Hshape.
  assert (Hdict : Client.nonempty custom_fields = true -> is_dict (r_data record) = true).
  { intros Hne. destruct Hdata as [Hsub | Hnone]; [| congruence].
    destruct Hshape as [(_ & _ & _ & _ & _ & Hd) | (Hdraft & _)]; [exact Hd |].
    rewrite Hsub in Hdraft. discriminate Hdraft. }
  set (names := match custom_fields with Some l => l | None => [] end).
  rewrite (DetailClaims.get_workitem_detail_run request_key _ query w record names Hkey).
  - unfold detail_body. rewrite Hres, Happ. subst names.
    destruct history, custom_fields as [[| name names] |], system_fields as [[| sf sfs] |];
      reflexivity.
  - subst names. unfold Client.field_list.
    destruct history, custom_fields as [[| name names] |], system_fields as [[| sf sfs] |];
      reflexivity.
  - subst names. destruct custom_fields as [[| name names] |]; auto.
Qed.

(** The instance of X21 at the sample request, asked for its description
    and a field that it does not have, with its approval history. *)
Lemma X21_client_detail_query_witness :
  fst (get_workitem_detail "RBGA-1"
         (request_of (JObj [("approvalHistory", JStr "yes");
                            ("customFields",
                             JList [JStr "rbga.field.description";
                                    JStr "common.field.employee.companycode"]);
                            ("systemFields", JList [JStr "summary"])]))
         world_with_request) =
    Ok (JObj [("key", JStr "RBGA-1");
              ("summary", JStr "Request for Substitution");
              ("status", JStr "Submitted");
              ("resolution", JNull);
              ("created_at", JStr "2024-01-01T00:00:00");
              ("updated_at", JStr "2024-01-01T00:00:01");
              ("approvalHistory", JList []);
              ("customFields",
               JObj [("rbga.field.description",
                      JStr "Detailed Description for the request")])], 200).
Proof.
  destruct (assoc "RBGA-1" (requests_db world_with_request)) as [record |] eqn:Hkey;
    [| discriminate Hkey].
  destruct (X21_client_detail_query
              (Client.mkWorkOnAPI "http://localhost:5001" JNull [])
              "RBGA-1"
              (Some ["rbga.field.description"; "common.field.employee.companycode"])
              (Some ["summary"]) true (fun _ => Raise (ConnectionError "refused")) []
              world_with_request record)
    as (payload & Hsent & Hrun).
  - constructor; [| constructor]. unfold record_ok. cbn [fst snd].
    repeat (split; [reflexivity |]). left. repeat split.
  - exact Hkey.
  - left. injection Hkey as <-. reflexivity.
  - injection Hsent as <-. injection Hkey as <-. exact (f_equal fst Hrun).
Defined.

End ClientQueries.

(** ** Submitted requests are never overwritten *)

Module KeptRecords.
Import PyStr Py Server Spec DictFacts KeyClaims FrameClaims.

Lemma draft_key_prefix (w : World) : startswith (draft_key w) "RBGA-DRAFT-" = true.
Proof. reflexivity. Qed.

Lemma dispatch_keeps_record (c : Call) (w : World) (key : string) (record : Request) :
  assoc key (requests_db w) = Some record ->
  startswith key "RBGA-DRAFT-" = false ->
  assoc key (requests_db (snd (dispatch c w))) = Some record.
Proof.
  intros Hkey Hprefix.
  destruct (dispatch_requests c w)
    as [-> | (request & body & new & _ & [[_ ->] | [_ ->]])]; [exact Hkey | |].
  - exact (dict_set_keeps_others _ _ _ _ _ (generated_key_fresh w) Hkey).
  - rewrite assoc_dict_set_other; [exact Hkey |].
    intros ->. rewrite draft_key_prefix in Hprefix. discriminate Hprefix.
Qed.

(** X22.  A record stored under a key that does not start with
    "RBGA-DRAFT-", as every key of a full create, stays in the store as it
    is, whatever calls are served afterwards and whatever UUIDs are drawn:
    a full create writes under a key that the store does not hold, and a
    draft create writes under a key that starts with "RBGA-DRAFT-". *)
Theorem X22_submitted_never_overwritten (calls : list Call) (w : World)
    (key : string) (record : Request)
    (Hkey : assoc key (requests_db w) = Some record)
    (Hprefix : startswith key "RBGA-DRAFT-" = false) :
  assoc key (requests_db (snd (serve_all calls w))) = Some record.
Proof.
  revert w Hkey. induction calls as [| c calls IH]; intros w Hkey; [exact Hkey |].
  cbn [serve_all]. pose proof (dispatch_keeps_record c w key record Hkey Hprefix) as Hstep.
  destruct (dispatch c w) as [r w']. cbn [snd] in Hstep.
  specialize (IH w' Hstep). destruct (serve_all calls w') as [rs w'']. exact IH.
Qed.

(** The instance of X22 at the sample request, after two more creates. *)
Lemma X22_submitted_never_overwritten_witness :
  exists record,
    assoc "RBGA-1" (requests_db world_with_request) = Some record /\
    assoc "RBGA-1"
      (requests_db
         (snd (serve_all [PutCreateDraftRequest (request_of minimal_draft);
                          PutCreateRequest (request_of sample_payload)]
                         world_with_request))) = Some record.
Proof.
  destruct (assoc "RBGA-1" (requests_db world_with_request)) as [record |] eqn:Hkey;
    [| discriminate Hkey].
  exists record. split; [reflexivity |].
  exact (X22_submitted_never_overwritten _ world_with_request "RBGA-1" record Hkey
           eq_refl).
Defined.

End KeptRecords.

(** ** Bodies that are empty *)

Module EmptyBodies.
Import PyStr Py Server Spec HandlerLogic DraftClaims.

Lemma get_json_or_empty_falsy (payload : Json) (query query' : list (string * string))
    (w : World) :
  truthy payload = false ->
  get_json_or_empty (mkFlaskRequest (Some payload) query) w =
  get_json_or_empty (mkFlaskRequest (Some (JObj [])) query') w.
Proof.
  intros Hfalsy. unfold get_json_or_empty, get_json, bind, ret. cbn [json_body].
  rewrite Hfalsy. reflexivity.
Qed.

(** X23.  A body that is JSON but falsy (null, false, 0, the empty
    string, the empty list, the empty object) is an absent body.  The two
    creates refuse it with 400 "Request body is required" and write
    nothing; the detail and the attachments handlers read it as the empty
    object, so that they answer as they do to [{}]. *)
Theorem X23_falsy_body (payload : Json) (request_key : string)
    (query : list (string * string)) (w : World)
    (Hfalsy : truthy payload = false) :
  let request := mkFlaskRequest (Some payload) query in
  let empty := mkFlaskRequest (Some (JObj [])) query in
  create_request request w = (Ok (error_body "Request body is required", 400), w) /\
  create_draft_request request w =
    (Ok (error_body "Request body is required", 400), w) /\
  get_workitem_detail request_key request w = get_workitem_detail request_key empty w /\
  get_workitem_attachments request_key request w =
    get_workitem_attachments request_key empty w.
Proof.
  cbv zeta. split; [| split; [| split]].
  - apply wp_eq. unfold create_request.
    repeat first [ rewrite Hfalsy | progress cbn [json_body negb] | wp_step ].
    reflexivity.
  - apply wp_eq. unfold create_draft_request.
    repeat first [ rewrite Hfalsy | progress cbn [json_body negb] | wp_step ].
    reflexivity.
  - unfold get_workitem_detail, try_except, bind, get_requests_db.
    destruct (assoc request_key (requests_db w)); [| reflexivity].
    rewrite (get_json_or_empty_falsy payload query query w Hfalsy). reflexivity.
  - unfold get_workitem_attachments, try_except, bind, get_requests_db.
    destruct (assoc request_key (requests_db w)); [| reflexivity].
    rewrite (get_json_or_empty_falsy payload query query w Hfalsy). reflexivity.
Qed.

(** The instance of X23 at the body [null], for the sample request. *)
Lemma X23_falsy_body_witness :
  fst (create_request (request_of JNull) world_with_request) =
    Ok (error_body "Request body is required", 400) /\
  get_workitem_detail "RBGA-1" (request_of JNull) world_with_request =
    get_workitem_detail "RBGA-1" (request_of (JObj [])) world_with_request.
Proof.
  destruct (X23_falsy_body JNull "RBGA-1" [] world_with_request eq_refl)
    as (Hcreate & _ & Hdetail & _).
  split; [exact (f_equal fst Hcreate) | exact Hdetail].
Defined.

End EmptyBodies.
